(** * Face processing service: a shallow embedding of [app.py]

    The development follows [FaceProcessor] of
    [src/face-processing-service/app.py]: the Python values the pipeline
    handles (byte strings, pixel grids, face rectangles, floating-point
    tensors, result dictionaries), the exceptions its steps may raise, the
    clock and the logger it touches, and then each method in the order of
    the source.

    Libraries outside the repository (OpenCV, onnxruntime) are collaborators
    of the program: they are gathered in the record [externals] and every
    theorem quantifies over them.  NumPy arithmetic is interpreted in a
    numeric backend ([arith]); two backends are given, IEEE-754 binary
    floating point (the arithmetic the program runs) and exact real
    arithmetic (the arithmetic its comments reason in). *)

From Stdlib Require Import ZArith List String Ascii Strings.Byte Bool Lia.
From Stdlib Require Import DecimalString SpecFloat Reals Lra.
Import ListNotations.

Set Implicit Arguments.

Open Scope string_scope.
Open Scope list_scope.
Open Scope Z_scope.

(** ** Exceptions and computations that may raise *)

(** A Python exception: its class name and [str(e)]. *)
Record exn : Type := Exn { exn_class : string; exn_str : string }.

Inductive outcome (A : Type) : Type :=
| Return (a : A)
| Raise (e : exn).

Arguments Return {A} a.
Arguments Raise {A} e.

Definition obind {A B} (o : outcome A) (k : A -> outcome B) : outcome B :=
  match o with
  | Return a => k a
  | Raise e => Raise e
  end.

Declare Scope outcome_scope.
Delimit Scope outcome_scope with out.
Notation "'let?' x ':=' o 'in' k" := (obind o (fun x => k))
  (at level 10, x pattern, o at level 100, k at level 200) : outcome_scope.

(** ** Numeric backends *)

(** The operations NumPy and Python floats are used with in [app.py].
    [of_int] converts an integer, [lit p q] is the decimal literal whose value
    is [p/q] (so [0.2] is [lit 2 10]), [ltb] is [<], [to_int] is Python's
    [int(x)] (truncation towards zero, which raises on NaN and infinities:
    [None]). *)
Record arith : Type := Arith {
  num : Type;
  of_int : Z -> num;
  lit : Z -> Z -> num;
  add : num -> num -> num;
  sub : num -> num -> num;
  mul : num -> num -> num;
  div : num -> num -> num;
  sqrt : num -> num;
  absf : num -> num;
  ltb : num -> num -> bool;
  to_int : num -> option Z
}.

Module IEEE.

(** Binary floating point with [prec] bits of precision and exponents below
    [emax], rounding to nearest even: binary32 is [(24, 128)], binary64 is
    [(53, 1024)]. *)
Section Format.
Variables prec emax : Z.

Definition of_int (z : Z) : spec_float := binary_normalize prec emax z 0 false.

(** A decimal literal denotes the float nearest to its value; so does the
    correctly rounded quotient of two exactly representable integers. *)
Definition lit (p q : Z) : spec_float := SFdiv prec emax (of_int p) (of_int q).

Definition to_int (x : spec_float) : option Z :=
  match x with
  | S754_zero _ => Some 0
  | S754_finite s m e =>
      let a := if 0 <=? e then Z.shiftl (Zpos m) e else Z.shiftr (Zpos m) (- e) in
      Some (if s then - a else a)
  | S754_infinity _ | S754_nan => None
  end.

Definition backend : arith :=
  Arith of_int lit (SFadd prec emax) (SFsub prec emax) (SFmul prec emax)
        (SFdiv prec emax) (SFsqrt prec emax) SFabs SFltb to_int.

End Format.

Definition binary32 : arith := backend 24 128.
Definition binary64 : arith := backend 53 1024.

Definition is_nan (x : spec_float) : bool :=
  match x with S754_nan => true | _ => false end.

Definition is_inf (x : spec_float) : bool :=
  match x with S754_infinity _ => true | _ => false end.

Definition is_zero (x : spec_float) : bool :=
  match x with S754_zero _ => true | _ => false end.

(** [x <= y], false when either is NaN. *)
Definition leb (x y : spec_float) : bool := SFleb x y.

End IEEE.

Module Exact.

Definition ltb (x y : R) : bool := if Rlt_dec x y then true else false.

(** Truncation towards zero. *)
Definition trunc (x : R) : Z :=
  if Rle_dec 0 x then Int_part x else (- Int_part (- x))%Z.

Definition backend : arith :=
  Arith IZR (fun p q => (IZR p / IZR q)%R) Rplus Rminus Rmult Rdiv
        R_sqrt.sqrt Rabs ltb (fun x => Some (trunc x)).

End Exact.

(** ** Byte strings and [base64] *)

Definition bytes : Type := list byte.

Definition byte_of_N (n : N) : byte :=
  match Byte.of_N (n mod 256) with
  | Some b => b
  | None => x00
  end.

Module Base64.

(** [binascii]'s decoding table: the value of a character of the standard
    alphabet, [None] for every other character. *)
Definition a2b (c : ascii) : option N :=
  let n := N_of_ascii c in
  if ((65 <=? n) && (n <=? 90))%N then Some (n - 65)%N
  else if ((97 <=? n) && (n <=? 122))%N then Some (n - 71)%N
  else if ((48 <=? n) && (n <=? 57))%N then Some (n + 4)%N
  else if (n =? 43)%N then Some 62%N
  else if (n =? 47)%N then Some 63%N
  else None.

Definition b2a (v : N) : ascii :=
  ascii_of_N (if (v <? 26) then v + 65
              else if (v <? 52) then v + 71
              else if (v <? 62) then v - 4
              else if (v =? 62) then 43 else 47)%N.

(** The decoder's registers in [binascii.a2b_base64]: position in the current
    quad, bits left over from the previous character, padding characters seen
    since the last data character, and the bytes written so far (latest
    first). *)
Record state : Type := State {
  quad_pos : N;
  leftchar : N;
  pads : N;
  written : bytes
}.

Definition start : state := State 0 0 0 [].

Definition binascii_Error (msg : string) : exn := Exn "binascii.Error" msg.

Definition decimal (n : N) : string :=
  NilZero.string_of_uint (N.to_uint n).

Definition at_end (st : state) : outcome bytes :=
  if (quad_pos st =? 0)%N then Return (rev (written st))
  else if (quad_pos st =? 1)%N then
    Raise (binascii_Error
      ("Invalid base64-encoded string: number of data characters ("
       ++ decimal (N.of_nat (List.length (written st)) / 3 * 4 + 1)
       ++ ") cannot be 1 more than a multiple of 4"))
  else Raise (binascii_Error "Incorrect padding").

(** One data character of value [v]. *)
Definition feed (st : state) (v : N) : state :=
  match quad_pos st with
  | 0%N => State 1 v 0 (written st)
  | 1%N => State 2 (N.land v 15) 0
             (byte_of_N (N.lor (N.shiftl (leftchar st) 2) (N.shiftr v 4)) :: written st)
  | 2%N => State 3 (N.land v 3) 0
             (byte_of_N (N.lor (N.shiftl (leftchar st) 4) (N.shiftr v 2)) :: written st)
  | _ => State 0 0 0
             (byte_of_N (N.lor (N.shiftl (leftchar st) 6) v) :: written st)
  end.

(** The loop of [a2b_base64] with [strict_mode] off: characters outside the
    alphabet are skipped, and a complete run of padding ends the decoding. *)
Fixpoint a2b_loop (s : string) (st : state) : outcome bytes :=
  match s with
  | EmptyString => at_end st
  | String c rest =>
      if Ascii.eqb c "="%char then
        if (2 <=? quad_pos st)%N then
          if (4 <=? quad_pos st + (pads st + 1))%N then Return (rev (written st))
          else a2b_loop rest (State (quad_pos st) (leftchar st) (pads st + 1) (written st))
        else a2b_loop rest st
      else
        match a2b c with
        | None => a2b_loop rest st
        | Some v => a2b_loop rest (feed st v)
        end
  end.

Fixpoint is_ascii (s : string) : bool :=
  match s with
  | EmptyString => true
  | String c rest => (N_of_ascii c <? 128)%N && is_ascii rest
  end.

(** [base64.b64decode(s)] for a [str] argument, [validate=False]. *)
Definition b64decode (s : string) : outcome bytes :=
  if is_ascii s then a2b_loop s start
  else Raise (Exn "ValueError" "string argument should contain only ASCII characters").

Definition sextet (b : N) : string := String (b2a (N.land b 63)) EmptyString.

(** [base64.b64encode(bs).decode('utf-8')]. *)
Fixpoint b64encode (bs : bytes) : string :=
  match bs with
  | [] => ""
  | [b0] =>
      let n := N.shiftl (Byte.to_N b0) 16 in
      sextet (N.shiftr n 18) ++ sextet (N.shiftr n 12) ++ "=="
  | [b0; b1] =>
      let n := N.lor (N.shiftl (Byte.to_N b0) 16) (N.shiftl (Byte.to_N b1) 8) in
      sextet (N.shiftr n 18) ++ sextet (N.shiftr n 12) ++ sextet (N.shiftr n 6) ++ "="
  | b0 :: b1 :: b2 :: rest =>
      let n := N.lor (N.lor (N.shiftl (Byte.to_N b0) 16) (N.shiftl (Byte.to_N b1) 8))
                     (Byte.to_N b2) in
      sextet (N.shiftr n 18) ++ sextet (N.shiftr n 12) ++ sextet (N.shiftr n 6)
        ++ sextet n ++ b64encode rest
  end.

End Base64.

(** ** Pixel grids and face rectangles *)

(** A pixel of a 3-channel 8-bit image, in the stored (B, G, R) order. *)
Definition pixel : Type := (byte * byte * byte)%type.

(** An [H x W x 3] array: the list of its rows. *)
Definition image : Type := list (list pixel).

(** A single-channel 8-bit image. *)
Definition gray_image : Type := list (list byte).

(** [shape[0]] and [shape[1]] of a two-dimensional grid. *)
Definition height {A} (g : list (list A)) : Z := Z.of_nat (List.length g).

Definition width {A} (g : list (list A)) : Z :=
  match g with
  | [] => 0
  | row :: _ => Z.of_nat (List.length row)
  end.

(** Every row has [w] entries. *)
Definition rows_of_width {A} (w : Z) (g : list (list A)) : Prop :=
  Forall (fun row => Z.of_nat (List.length row) = w) g.

(** The grid has shape [(h, w)]. *)
Definition has_shape {A} (h w : Z) (g : list (list A)) : Prop :=
  height g = h /\ rows_of_width w g.

(** The entry at row [r], column [c]. *)
Definition at_rc {A} (d : A) (g : list (list A)) (r c : Z) : A :=
  nth (Z.to_nat c) (nth (Z.to_nat r) g []) d.

(** Python's slice bounds: a negative bound counts from the end, and both
    bounds are clamped to the length. *)
Definition slice_bound (len i : Z) : Z :=
  if i <? 0 then Z.max 0 (i + len) else Z.min i len.

(** [l[start:stop]]. *)
Definition py_slice {A} (start stop : Z) (l : list A) : list A :=
  let n := Z.of_nat (List.length l) in
  let a := slice_bound n start in
  let b := slice_bound n stop in
  firstn (Z.to_nat (b - a)) (skipn (Z.to_nat a) l).

(** [image[y1:y2, x1:x2]]. *)
Definition crop {A} (g : list (list A)) (y1 y2 x1 x2 : Z) : list (list A) :=
  map (py_slice x1 x2) (py_slice y1 y2 g).

(** A face rectangle [(x, y, w, h)] as the cascade reports it: four 32-bit
    integers. *)
Definition rect : Type := (Z * Z * Z * Z)%type.

Definition rect_x (f : rect) : Z := let '(x, _, _, _) := f in x.
Definition rect_y (f : rect) : Z := let '(_, y, _, _) := f in y.
Definition rect_w (f : rect) : Z := let '(_, _, w, _) := f in w.
Definition rect_h (f : rect) : Z := let '(_, _, _, h) := f in h.

(** The FaceBox invariant: positive size, inside a [W x H] image. *)
Definition in_bounds (W H : Z) (f : rect) : Prop :=
  0 < rect_w f /\ 0 < rect_h f /\
  0 <= rect_x f /\ rect_x f + rect_w f <= W /\
  0 <= rect_y f /\ rect_y f + rect_h f <= H.

(** Two's-complement wrap-around of a 32-bit integer operation. *)
Definition wrap32 (z : Z) : Z := (z + 2 ^ 31) mod 2 ^ 32 - 2 ^ 31.

(** The key of [max]: [f[2] * f[3]], a product of two [int32] scalars. *)
Definition area (f : rect) : Z := wrap32 (rect_w f * rect_h f).

(** Python's [max(iterable, key=...)]: the running maximum is replaced only by
    an item whose key is strictly greater. *)
Fixpoint max_from (best : rect) (rest : list rect) : rect :=
  match rest with
  | [] => best
  | f :: rest' => if area best <? area f then max_from f rest' else max_from best rest'
  end.

Definition py_max_area (faces : list rect) : outcome rect :=
  match faces with
  | [] => Raise (Exn "ValueError" "max() arg is an empty sequence")
  | f :: rest => Return (max_from f rest)
  end.

(** ** NumPy reductions *)

Section Reductions.
Variable A : arith.

Definition np_sum (l : list (num A)) : num A :=
  fold_left (add A) l (of_int A 0).

(** [np.mean]: the sum over the number of elements (0/0 on an empty array). *)
Definition np_mean (l : list (num A)) : num A :=
  div A (np_sum l) (of_int A (Z.of_nat (List.length l))).

(** [ndarray.var()]: the mean of the squared deviations from the mean. *)
Definition np_var (l : list (num A)) : num A :=
  let m := np_mean l in
  np_mean (map (fun x => mul A (sub A x m) (sub A x m)) l).

Definition np_std (l : list (num A)) : num A := sqrt A (np_var l).

(** [np.linalg.norm] of one row: the square root of the sum of squares. *)
Definition l2norm (v : list (num A)) : num A :=
  sqrt A (np_sum (map (fun x => mul A x x) v)).

(** Python's [min(a, b)] on floats: [b] when [b < a], else [a]. *)
Definition py_min (a b : num A) : num A := if ltb A b a then b else a.

End Reductions.

(** ** The pipeline *)

Definition cv2_error (msg : string) : exn := Exn "cv2.error" msg.

Definition is_empty {T} (g : list (list T)) : bool :=
  (height g =? 0) || (width g =? 0).

Section Pipeline.

(** [A32] interprets [np.float32] arithmetic, [A64] Python floats and
    [np.float64]. *)
Variables A32 A64 : arith.

(** A float32 tensor in [(batch, channel, row, column)] layout. *)
Definition tensor : Type := list (list (list (list (num A32)))).

(** Python values that occur in the result dictionary. *)
Inductive pyval : Type :=
| PyBool (b : bool)
| PyStr (s : string)
| PyInt (z : Z)
| PyFloat (x : num A64)
| PyInts (l : list Z)
| PyFloats (l : list (num A64))
| PyFloats32 (l : list (num A32)).

Definition dict : Type := list (string * pyval).

Fixpoint dict_get (k : string) (d : dict) : option pyval :=
  match d with
  | [] => None
  | (k', v) :: rest => if String.eqb k k' then Some v else dict_get k rest
  end.

(** [d[k] = v]. *)
Fixpoint dict_set (k : string) (v : pyval) (d : dict) : dict :=
  match d with
  | [] => [(k, v)]
  | (k', v') :: rest =>
      if String.eqb k k' then (k, v) :: rest else (k', v') :: dict_set k v rest
  end.

(** The libraries the service calls into.  Each may raise. *)
Record externals : Type := Externals {
  (** [cv2.imdecode(buf, cv2.IMREAD_COLOR)]: [None] when no image is found. *)
  cv2_imdecode : bytes -> outcome (option image);
  (** [cv2.cvtColor(image, cv2.COLOR_BGR2GRAY)]. *)
  cv2_cvtColor_gray : image -> outcome gray_image;
  (** [face_cascade.detectMultiScale(gray, 1.1, 5, minSize=(80, 80), ...)]. *)
  detectMultiScale : gray_image -> outcome (list rect);
  (** [cv2.resize(src, (w, h))]. *)
  cv2_resize : image -> Z -> Z -> outcome image;
  (** [cv2.Laplacian(gray, cv2.CV_64F)]. *)
  cv2_Laplacian : gray_image -> outcome (list (list (num A64)));
  (** [session.run([output_name], {input_name: x})[0]]: a batch of rows. *)
  session_run : tensor -> outcome (list (list (num A32)));
  (** [cv2.imencode('.jpg', image)[1]]. *)
  cv2_imencode_jpg : image -> outcome bytes
}.

(** What a call observes and changes outside its arguments: the readings the
    clock will give, and the records the logger has received (latest first). *)
Record world : Type := World {
  clock : nat -> num A64;
  log : list string
}.

Definition M (T : Type) : Type := world -> outcome T * world.

Definition ret {T} (a : T) : M T := fun w => (Return a, w).

Definition bind {T U} (m : M T) (k : T -> M U) : M U :=
  fun w =>
    match m w with
    | (Return a, w') => k a w'
    | (Raise e, w') => (Raise e, w')
    end.

Definition lift {T} (o : outcome T) : M T := fun w => (o, w).

Definition raise {T} (e : exn) : M T := lift (Raise e).

(** [try: body except Exception as e: handler e]. *)
Definition try_except {T} (body : M T) (handler : exn -> M T) : M T :=
  fun w =>
    match body w with
    | (Return a, w') => (Return a, w')
    | (Raise e, w') => handler e w'
    end.

(** [time.time()]. *)
Definition time_time : M (num A64) :=
  fun w => (Return (clock w 0%nat), World (fun n => clock w (S n)) (log w)).

(** [logger.error(msg)]. *)
Definition logger_error (msg : string) : M unit :=
  fun w => (Return tt, World (clock w) (msg :: log w)).

Notation "x <- m ;; k" := (bind m (fun x => k))
  (at level 61, m at next level, right associativity).
Notation "m ;;; k" := (bind m (fun _ => k))
  (at level 61, right associativity).

Variable ext : externals.

(** [FaceProcessor.detect_faces] *)
Definition detect_faces (img : image) : M (list rect) :=
  try_except
    (gray <- lift (cv2_cvtColor_gray ext img) ;;
     faces <- lift (detectMultiScale ext gray) ;;
     ret faces)
    (fun e =>
       logger_error ("Error in detect_faces: " ++ exn_str e)%string ;;;
       ret []).

(** [int(0.2 * min(w, h))], a [float64] product. *)
Definition padding_of (w h : Z) : outcome Z :=
  match to_int A64 (mul A64 (lit A64 2 10) (of_int A64 (Z.min w h))) with
  | Some p => Return p
  | None => Raise (Exn "ValueError" "cannot convert float to integer")
  end.

(** The clamped, padded region [(x1, y1, x2, y2)] of [align_face]. *)
Definition padded_region (img : image) (f : rect) (p : Z) : Z * Z * Z * Z :=
  let '(x, y, w, h) := f in
  (Z.max 0 (x - p), Z.max 0 (y - p),
   Z.min (width img) (x + w + p), Z.min (height img) (y + h + p)).

(** [FaceProcessor.align_face] *)
Definition align_face (img : image) (face_rect : rect) : outcome image :=
  (let '(x, y, w, h) := face_rect in
   let? p := padding_of w h in
   let '(x1, y1, x2, y2) := padded_region img face_rect p in
   let face := crop img y1 y2 x1 x2 in
   cv2_resize ext face 112 112)%out.

(** [cv2.cvtColor(face, cv2.COLOR_BGR2RGB)]: the first and the third channel
    change places; OpenCV refuses an empty source. *)
Definition cv2_cvtColor_RGB (face : image) : outcome image :=
  if is_empty face then Raise (cv2_error "(-215:Assertion failed) !_src.empty() in function 'cvtColor'")
  else Return (map (map (fun px : pixel => let '(b, g, r) := px in (r, g, b))) face).

(** One value of [(face_rgb.astype(np.float32) / 255.0 - 0.5) / 0.5]. *)
Definition normalize_value (v : byte) : num A32 :=
  div A32
    (sub A32 (div A32 (of_int A32 (Z.of_N (Byte.to_N v))) (of_int A32 255))
             (lit A32 5 10))
    (lit A32 5 10).

(** Channel [c] of a pixel, [c] in [0, 1, 2]. *)
Definition channel (c : nat) (px : pixel) : byte :=
  let '(c0, c1, c2) := px in
  match c with
  | O => c0
  | S O => c1
  | _ => c2
  end.

(** [FaceProcessor.preprocess_face] *)
Definition preprocess_face (face : image) : outcome tensor :=
  (let? face_rgb := cv2_cvtColor_RGB face in
   let face_transposed :=
     map (fun c => map (map (fun px => normalize_value (channel c px))) face_rgb)
         [0%nat; 1%nat; 2%nat] in
   Return [face_transposed])%out.

(** [embedding / np.linalg.norm(embedding, axis=1, keepdims=True)] *)
Definition l2_normalize (rows : list (list (num A32))) : list (list (num A32)) :=
  map (fun row => map (fun x => div A32 x (l2norm A32 row)) row) rows.

(** [FaceProcessor.get_embedding] *)
Definition get_embedding (face_input : tensor) : outcome (list (num A32)) :=
  (let? embedding := session_run ext face_input in
   match l2_normalize embedding with
   | [] => Raise (Exn "IndexError" "index 0 is out of bounds for axis 0 with size 0")
   | row :: _ => Return row
   end)%out.

Definition gray_values (g : gray_image) : list (num A64) :=
  map (fun v => of_int A64 (Z.of_N (Byte.to_N v))) (List.concat g).

(** The score of [assess_face_quality] from its three measurements. *)
Definition quality_of (laplacian_var brightness contrast : num A64) : num A64 :=
  let one := of_int A64 1 in
  let sharpness_score := py_min A64 (div A64 laplacian_var (of_int A64 1000)) one in
  let brightness_score :=
    sub A64 one (div A64 (absf A64 (sub A64 brightness (of_int A64 128))) (of_int A64 128)) in
  let contrast_score := py_min A64 (div A64 contrast (of_int A64 64)) one in
  add A64
    (add A64 (mul A64 sharpness_score (lit A64 5 10))
             (mul A64 brightness_score (lit A64 3 10)))
    (mul A64 contrast_score (lit A64 2 10)).

(** [FaceProcessor.assess_face_quality] *)
Definition assess_face_quality (face : image) : outcome (num A64) :=
  (let? gray := cv2_cvtColor_gray ext face in
   let? lap := cv2_Laplacian ext gray in
   let laplacian_var := np_var A64 (List.concat lap) in
   let brightness := np_mean A64 (gray_values gray) in
   let contrast := np_std A64 (gray_values gray) in
   Return (quality_of laplacian_var brightness contrast))%out.

(** Python's [a / b] with a float operand. *)
Definition py_truediv (a b : num A64) (b_is_zero : bool) : outcome (num A64) :=
  if b_is_zero then Raise (Exn "ZeroDivisionError" "float division by zero")
  else Return (div A64 a b).

Definition not_detected (msg : string) (elapsed : num A64) : dict :=
  [ ("face_detected", PyBool false);
    ("error", PyStr msg);
    ("processing_time", PyFloat elapsed) ].

(** The [try] block of [process_image]. *)
Definition process_image_body (image_data : string) (return_face_image : bool)
    (start_time : num A64) : M dict :=
  image_bytes <- lift (Base64.b64decode image_data) ;;
  decoded <- lift (cv2_imdecode ext image_bytes) ;;
  match decoded with
  | None => raise (Exn "ValueError" "Failed to decode image")
  | Some img =>
      faces <- detect_faces img ;;
      match faces with
      | [] =>
          now <- time_time ;;
          ret (not_detected "No face detected in image" (sub A64 now start_time))
      | _ :: _ =>
          largest_face <- lift (py_max_area faces) ;;
          aligned_face <- lift (align_face img largest_face) ;;
          quality_score <- lift (assess_face_quality aligned_face) ;;
          face_input <- lift (preprocess_face aligned_face) ;;
          embedding <- lift (get_embedding face_input) ;;
          let '(x, y, w, h) := largest_face in
          let img_h := height img in
          let img_w := width img in
          let two := of_int A64 2 in
          let cx := add A64 (of_int A64 x) (div A64 (of_int A64 w) two) in
          let cy := add A64 (of_int A64 y) (div A64 (of_int A64 h) two) in
          let icx := div A64 (of_int A64 img_w) two in
          let icy := div A64 (of_int A64 img_h) two in
          dx <- lift (py_truediv (sub A64 cx icx) (of_int A64 img_w) (img_w =? 0)) ;;
          dy <- lift (py_truediv (sub A64 cy icy) (of_int A64 img_h) (img_h =? 0)) ;;
          box_ratio <- lift (py_truediv (of_int A64 (w * h)) (of_int A64 (img_w * img_h))
                                        (img_w * img_h =? 0)) ;;
          now <- time_time ;;
          let result :=
            [ ("face_detected", PyBool true);
              ("embedding", PyFloats32 embedding);
              ("quality_score", PyFloat quality_score);
              ("processing_time", PyFloat (sub A64 now start_time));
              ("bbox", PyInts [x; y; w; h]);
              ("image_size", PyInts [img_w; img_h]);
              ("face_center", PyFloats [cx; cy]);
              ("center_offset", PyFloats [dx; dy]);
              ("box_ratio", PyFloat box_ratio) ] in
          if return_face_image then
            buffer <- lift (cv2_imencode_jpg ext aligned_face) ;;
            ret (dict_set "face_image"
                   (PyStr ("data:image/jpeg;base64," ++ Base64.b64encode buffer)%string) result)
          else ret result
      end
  end.

(** [FaceProcessor.process_image] *)
Definition process_image (image_data : string) (return_face_image : bool) : M dict :=
  start_time <- time_time ;;
  try_except
    (process_image_body image_data return_face_image start_time)
    (fun e =>
       logger_error ("Error processing image: " ++ exn_str e)%string ;;;
       now <- time_time ;;
       ret (not_detected (exn_str e) (sub A64 now start_time))).

End Pipeline.

(** ** Predicates of the statements *)

(** The area of a box fits the cascade's 32-bit integers. *)
Definition area_fits (f : rect) : Prop := 0 <= rect_w f * rect_h f < 2 ^ 31.

(** [int(0.2 * m)] in binary64 against [m / 5], for [n] consecutive values
    from [m]. *)
Fixpoint padding_agrees (n : nat) (m : Z) : bool :=
  match n with
  | O => true
  | S k =>
      match padding_of IEEE.binary64 m m with
      | Return p => (p =? m / 5) && padding_agrees k (m + 1)
      | Raise _ => false
      end
  end.

(** What the service relies on from [cv2.resize]: an empty source is refused,
    any other source is resampled to the requested (positive) size. *)
Definition resize_contract {A32 A64} (ext : externals A32 A64) : Prop :=
  forall src w h, 0 < w -> 0 < h ->
    (is_empty src = true -> exists e, cv2_resize ext src w h = Raise e) /\
    (is_empty src = false ->
       exists dst, cv2_resize ext src w h = Return dst /\ has_shape h w dst).

(** The world after one reading of the clock. *)
Definition tick {A64} (w : world A64) : world A64 :=
  World A64 (fun n => clock w (S n)) (log w).

(** The faults of the steps that follow a successful detection of [faces] in
    [img]: aligning, scoring, preprocessing, embedding, and encoding the
    aligned face when it is asked for. *)
Inductive pipeline_fault {A32 A64} (ext : externals A32 A64) (flag : bool)
    (img : image) (faces : list rect) : exn -> Prop :=
| fault_align f e :
    py_max_area faces = Return f ->
    align_face ext img f = Raise e ->
    pipeline_fault ext flag img faces e
| fault_score f aligned e :
    py_max_area faces = Return f ->
    align_face ext img f = Return aligned ->
    assess_face_quality ext aligned = Raise e ->
    pipeline_fault ext flag img faces e
| fault_preprocess f aligned q e :
    py_max_area faces = Return f ->
    align_face ext img f = Return aligned ->
    assess_face_quality ext aligned = Return q ->
    preprocess_face A32 aligned = Raise e ->
    pipeline_fault ext flag img faces e
| fault_embed f aligned q t e :
    py_max_area faces = Return f ->
    align_face ext img f = Return aligned ->
    assess_face_quality ext aligned = Return q ->
    preprocess_face A32 aligned = Return t ->
    get_embedding ext t = Raise e ->
    pipeline_fault ext flag img faces e
| fault_encode f aligned q t emb e :
    py_max_area faces = Return f ->
    align_face ext img f = Return aligned ->
    assess_face_quality ext aligned = Return q ->
    preprocess_face A32 aligned = Return t ->
    get_embedding ext t = Return emb ->
    width img <> 0 -> height img <> 0 ->
    flag = true ->
    cv2_imencode_jpg ext aligned = Raise e ->
    pipeline_fault ext flag img faces e.

(** An exception raised by a step of [process_image] run on [image_data] in
    the world [w0]: by the base64 or the image decoder, by the check of the
    decoded image, or by a step after the detection. *)
Inductive step_fault {A32 A64} (ext : externals A32 A64) (image_data : string)
    (flag : bool) (w0 : world A64) : exn -> Prop :=
| fault_base64 e :
    Base64.b64decode image_data = Raise e ->
    step_fault ext image_data flag w0 e
| fault_imdecode bs e :
    Base64.b64decode image_data = Return bs ->
    cv2_imdecode ext bs = Raise e ->
    step_fault ext image_data flag w0 e
| fault_no_image bs :
    Base64.b64decode image_data = Return bs ->
    cv2_imdecode ext bs = Return None ->
    step_fault ext image_data flag w0 (Exn "ValueError" "Failed to decode image")
| fault_after_detection bs img faces w1 e :
    Base64.b64decode image_data = Return bs ->
    cv2_imdecode ext bs = Return (Some img) ->
    detect_faces ext img w0 = (Return faces, w1) ->
    faces <> [] ->
    pipeline_fault ext flag img faces e ->
    step_fault ext image_data flag w0 e.

(** An exception raised inside [detect_faces] run on [img]: by the grey
    conversion, or by the cascade on the converted image. *)
Inductive detection_fault {A32 A64} (ext : externals A32 A64) (img : image)
    : exn -> Prop :=
| fault_gray e :
    cv2_cvtColor_gray ext img = Raise e ->
    detection_fault ext img e
| fault_cascade gray e :
    cv2_cvtColor_gray ext img = Return gray ->
    detectMultiScale ext gray = Raise e ->
    detection_fault ext img e.

(** *** The inverse of the preprocessing

    The steps the specification gives for undoing [preprocess_face]:
    [x * 0.5 + 0.5], then [* 255], then RGB to BGR and the transposition back
    to rows of pixels.  [to_uint8] rounds a value to the nearest integer. *)

Definition spec_inverse_value (A : arith) (x : num A) : num A :=
  mul A (add A (mul A x (lit A 5 10)) (lit A 5 10)) (of_int A 255).

Definition to_uint8 (A : arith) (x : num A) : byte :=
  match to_int A (add A x (lit A 5 10)) with
  | Some z => byte_of_N (Z.to_N z)
  | None => x00
  end.

(** Three planes of equal shape as one grid of triples. *)
Definition zip_planes {X} (p0 p1 p2 : list (list X)) : list (list (X * X * X)) :=
  map (fun rows : list X * (list X * list X) =>
         let '(r0, (r1, r2)) := rows in
         map (fun v : X * (X * X) => let '(a, (b, c)) := v in (a, b, c))
             (combine r0 (combine r1 r2)))
      (combine p0 (combine p1 p2)).

Definition spec_inverse (A : arith) (t : list (list (list (list (num A)))))
  : option image :=
  match t with
  | [[plane_r; plane_g; plane_b]] =>
      Some (map (map (fun v : num A * num A * num A =>
                        let '(r, g, b) := v in
                        (to_uint8 A (spec_inverse_value A b),
                         to_uint8 A (spec_inverse_value A g),
                         to_uint8 A (spec_inverse_value A r))))
                (zip_planes plane_r plane_g plane_b))
  | _ => None
  end.

(** A binary32 value lies in [[-1, 1]]. *)
Definition in_unit_range (x : spec_float) : bool :=
  IEEE.leb (of_int IEEE.binary32 (-1)) x && IEEE.leb x (of_int IEEE.binary32 1).

(** A binary32 value is within [2^-18] of the integer [z]. *)
Definition close_to (z : Z) (x : spec_float) : bool :=
  IEEE.leb (absf IEEE.binary32 (sub IEEE.binary32 x (of_int IEEE.binary32 z)))
           (lit IEEE.binary32 1 262144).

Definition byte_value (v : byte) : Z := Z.of_N (Byte.to_N v).

(** The plane of tensor channel [c]: the normalised channel [2 - c] of the
    stored (B, G, R) pixels. *)
Definition plane_of (face : image) (c : nat) : list (list spec_float) :=
  map (map (fun px : pixel => normalize_value IEEE.binary32 (channel (2 - c) px))) face.

(** ** Sample collaborators

    Simple stand-ins for OpenCV and the embedding model, used to run the
    pipeline on concrete inputs. *)

Definition black : pixel := (x00, x00, x00).

(** A resize that fills the destination with the source's first pixel. *)
Definition sample_resize (src : image) (w h : Z) : outcome image :=
  if is_empty src then Raise (cv2_error "(-215:Assertion failed) !ssize.empty() in function 'resize'")
  else Return (repeat (repeat (at_rc black src 0 0) (Z.to_nat w)) (Z.to_nat h)).

(** A 200 x 200 picture of a single colour. *)
Definition sample_image : image := repeat (repeat (x10, x80, xff) 200%nat) 200%nat.

(** The green channel as grey level. *)
Definition sample_gray (img : image) : gray_image :=
  map (map (fun px : pixel => channel 1 px)) img.

(** Collaborators that decode every buffer to [sample_image], report the
    boxes [faces] and let the model answer [raw]. *)
Definition sample_ext (A32 A64 : arith) (faces : list rect) (raw : list (num A32))
  : externals A32 A64 :=
  {| cv2_imdecode := fun _ => Return (Some sample_image);
     cv2_cvtColor_gray := fun img => Return (sample_gray img);
     detectMultiScale := fun _ => Return faces;
     cv2_resize := sample_resize;
     cv2_Laplacian := fun g => Return (map (map (fun _ => of_int A64 0)) g);
     session_run := fun _ => Return [raw];
     cv2_imencode_jpg := fun _ => Return [xff; xd8; xff; xd9] |}.

Definition sample_world (A64 : arith) : world A64 :=
  {| clock := fun n => of_int A64 (Z.of_nat n); log := [] |}.

(** A model output whose squares overflow binary32: [2^100] followed by 127
    zeros. *)
Definition overflowing_row : list spec_float :=
  S754_finite false 8388608 77 :: repeat (S754_zero false) 127.

(** The binary32 norm of [emb] is within [1e-5] of 1. *)
Definition unit_norm_within_1e5 (emb : list spec_float) : bool :=
  IEEE.leb (absf IEEE.binary32
              (sub IEEE.binary32 (l2norm IEEE.binary32 emb) (of_int IEEE.binary32 1)))
           (lit IEEE.binary32 1 100000).

(** The prefix of a JPEG data URI, and the 15 bytes that the letters of the
    prefix ([dataimage/jpegbase64], 20 characters of the alphabet) decode
    to. *)
Definition data_uri_prefix : string := "data:image/jpeg;base64,".

Definition data_uri_junk : bytes :=
  [x75; xab; x5a; x8a; x66; xa0; x7b; xf8; xe9; x7a; x06; xda; xb1; xee; xb8].

(** An image decoder that, like OpenCV's, looks for the format's signature
    at the start of the buffer; it knows JPEG only. *)
Definition signature_imdecode (buf : bytes) : outcome (option image) :=
  match buf with
  | [] => Raise (cv2_error "(-215:Assertion failed) !buf.empty() in function 'imdecode_'")
  | xff :: xd8 :: xff :: _ => Return (Some sample_image)
  | _ => Return None
  end.

Definition with_imdecode {A32 A64} (ext : externals A32 A64)
    (f : bytes -> outcome (option image)) : externals A32 A64 :=
  {| cv2_imdecode := f;
     cv2_cvtColor_gray := cv2_cvtColor_gray ext;
     detectMultiScale := detectMultiScale ext;
     cv2_resize := cv2_resize ext;
     cv2_Laplacian := cv2_Laplacian ext;
     session_run := session_run ext;
     cv2_imencode_jpg := cv2_imencode_jpg ext |}.

(** The dictionary a call returned; the empty dictionary if it raised. *)
Definition returned_dict {A32 A64} (r : outcome (dict A32 A64) * world A64)
  : dict A32 A64 :=
  match fst r with
  | Return d => d
  | Raise _ => []
  end.

Definition has_returned {A32 A64} (r : outcome (dict A32 A64) * world A64) : bool :=
  match fst r with
  | Return _ => true
  | Raise _ => false
  end.

(** Readers of the result dictionary. *)
Definition detected {A32 A64} (d : dict A32 A64) : bool :=
  match dict_get "face_detected" d with
  | Some (PyBool _ _ b) => b
  | _ => false
  end.

Definition embedding_of {A32 A64} (d : dict A32 A64) : list (num A32) :=
  match dict_get "embedding" d with
  | Some (PyFloats32 _ _ l) => l
  | _ => []
  end.

Definition error_of {A32 A64} (d : dict A32 A64) : option string :=
  match dict_get "error" d with
  | Some (PyStr _ _ s) => Some s
  | _ => None
  end.

(** ** The service around the pipeline

    The rest of [app.py]: the construction of a [FaceProcessor]
    ([__init__], [load_models]), the three Flask endpoints ([health_check],
    [process_face], [model_info]) and [main]. *)

(** *** Values of a JSON request *)

(** What [request.get_json()] yields: Python's reading of a JSON document.
    An object is the list of its entries; a key is looked up from the
    front. *)
Inductive json : Type :=
| JNull
| JBool (b : bool)
| JInt (z : Z)
| JFloat (x : spec_float)
| JStr (s : string)
| JList (l : list json)
| JDict (d : list (string * json)).

(** [type(v).__name__] *)
Definition py_type_name (v : json) : string :=
  match v with
  | JNull => "NoneType"
  | JBool _ => "bool"
  | JInt _ => "int"
  | JFloat _ => "float"
  | JStr _ => "str"
  | JList _ => "list"
  | JDict _ => "dict"
  end.

(** Python's truth value: [None], [False], zeros and empty containers are
    false. *)
Definition truthy (v : json) : bool :=
  match v with
  | JNull => false
  | JBool b => b
  | JInt z => negb (z =? 0)
  | JFloat x => negb (IEEE.is_zero x)
  | JStr s => negb (String.eqb s "")
  | JList l => match l with [] => false | _ :: _ => true end
  | JDict d => match d with [] => false | _ :: _ => true end
  end.

(** [v == s] for a [str] [s]. *)
Definition eq_str (v : json) (s : string) : bool :=
  match v with
  | JStr t => String.eqb t s
  | _ => false
  end.

Fixpoint assoc (k : string) (d : list (string * json)) : option json :=
  match d with
  | [] => None
  | (k', v) :: rest => if String.eqb k k' then Some v else assoc k rest
  end.

(** [needle in hay] for two strings. *)
Fixpoint contains (needle hay : string) : bool :=
  String.prefix needle hay ||
  match hay with
  | EmptyString => false
  | String _ rest => contains needle rest
  end.

(** [key in data] *)
Definition py_in (key : string) (data : json) : outcome bool :=
  match data with
  | JDict d => Return (match assoc key d with Some _ => true | None => false end)
  | JList l => Return (existsb (fun v => eq_str v key) l)
  | JStr s => Return (contains key s)
  | _ => Raise (Exn "TypeError"
                  ("argument of type '" ++ py_type_name data ++ "' is not iterable"))
  end.

(** [data[key]] for a [str] key. *)
Definition py_getitem (key : string) (data : json) : outcome json :=
  match data with
  | JDict d =>
      match assoc key d with
      | Some v => Return v
      | None => Raise (Exn "KeyError" ("'" ++ key ++ "'"))
      end
  | JList _ => Raise (Exn "TypeError" "list indices must be integers or slices, not str")
  | JStr _ => Raise (Exn "TypeError" "string indices must be integers, not 'str'")
  | _ => Raise (Exn "TypeError"
                  ("'" ++ py_type_name data ++ "' object is not subscriptable"))
  end.

(** [data.get(key, default)] *)
Definition py_get (key : string) (default : json) (data : json) : outcome json :=
  match data with
  | JDict d => Return (match assoc key d with Some v => v | None => default end)
  | _ => Raise (Exn "AttributeError"
                  ("'" ++ py_type_name data ++ "' object has no attribute 'get'"))
  end.

(** The exception of an attribute access on [None]. *)
Definition none_has_no (attr : string) : exn :=
  Exn "AttributeError" ("'NoneType' object has no attribute '" ++ attr ++ "'").

(** [l[0]] *)
Definition first_of {T} (l : list T) : outcome T :=
  match l with
  | [] => Raise (Exn "IndexError" "list index out of range")
  | x :: _ => Return x
  end.

(** [str(n)] for an [int]. *)
Definition str_of_int (n : Z) : string := NilZero.string_of_int (Z.to_int n).

(** An input or output of the model: its name and its shape (a list of
    integers, names or [None]). *)
Record node_arg : Type := NodeArg { arg_name : string; arg_shape : json }.

Section Service.
Variables A32 A64 : arith.

Notation "x <- m ;; k" := (bind m (fun x => k))
  (at level 61, m at next level, right associativity).
Notation "m ;;; k" := (bind m (fun _ => k))
  (at level 61, right associativity).

(** [logger.info(msg)]; the log keeps the messages of every level. *)
Definition logger_info (msg : string) : M A64 unit :=
  fun w => (Return tt, World A64 (clock w) (msg :: log w)).

(** *** The objects a [FaceProcessor] holds *)

(** An [onnxruntime.InferenceSession]: [get_inputs()], [get_outputs()], and
    [run([output_name], {input_name: x})[0]]. *)
Record InferenceSession : Type := Session {
  get_inputs : list node_arg;
  get_outputs : list node_arg;
  ort_run : string -> string -> tensor A32 -> outcome (list (list (num A32)))
}.

(** A [cv2.CascadeClassifier]: [empty()] and [detectMultiScale] with the
    parameters of [detect_faces]. *)
Record CascadeClassifier : Type := Cascade {
  cascade_empty : bool;
  cascade_detect : gray_image -> outcome (list rect)
}.

(** The attributes of a [FaceProcessor]. *)
Record processor : Type := Processor {
  model_path : string;
  session : option InferenceSession;
  face_cascade : option CascadeClassifier
}.

(** The modules and the environment the service runs in.  [os.path.exists] is
    read off one snapshot of the file system. *)
Record libraries : Type := Libraries {
  os_path_isabs : string -> bool;
  (** [os.path.abspath] asks for the working directory, which may fail. *)
  os_path_abspath : string -> outcome string;
  os_path_exists : string -> bool;
  os_path_dirname : string -> string;
  os_path_basename : string -> string;
  (** [os.path.join(a, *p)] *)
  os_path_join : string -> list string -> string;
  (** [__file__] of [app.py], and [cv2.__file__]. *)
  app_file : string;
  cv2_file : string;
  (** [ort.InferenceSession(path, sess_options=so, providers=[...])], with the
      session options built before it. *)
  ort_InferenceSession : string -> outcome InferenceSession;
  cv2_CascadeClassifier : string -> outcome CascadeClassifier;
  lib_imdecode : bytes -> outcome (option image);
  lib_cvtColor_gray : image -> outcome gray_image;
  lib_resize : image -> Z -> Z -> outcome image;
  lib_Laplacian : gray_image -> outcome (list (list (num A64)));
  lib_imencode_jpg : image -> outcome bytes;
  (** [os.environ.get(name)] *)
  environ : string -> option string;
  (** [int(s)] for a [str]. *)
  py_int : string -> outcome Z;
  (** [str(v)], as an f-string formats a value. *)
  py_str : json -> string;
  (** [major.minor.micro] of [sys.version_info]. *)
  python_version : string;
  (** [app.run(host='0.0.0.0', port=port, ...)] while the global
      [face_processor] is the given object. *)
  app_run : processor -> Z -> M A64 unit
}.

Variable lib : libraries.

(** The collaborators of the pipeline's methods when [self] is the given
    object: [self.face_cascade.detectMultiScale] and, for [get_embedding],
    [self.session.get_inputs()[0].name], [self.session.get_outputs()[0].name]
    and [self.session.run]. *)
Definition externals_of (self : processor) : externals A32 A64 :=
  {| cv2_imdecode := lib_imdecode lib;
     cv2_cvtColor_gray := lib_cvtColor_gray lib;
     detectMultiScale := fun gray =>
       match face_cascade self with
       | None => Raise (none_has_no "detectMultiScale")
       | Some c => cascade_detect c gray
       end;
     cv2_resize := lib_resize lib;
     cv2_Laplacian := lib_Laplacian lib;
     session_run := fun face_input =>
       match session self with
       | None => Raise (none_has_no "get_inputs")
       | Some s =>
           (let? input_info := first_of (get_inputs s) in
            let? output_info := first_of (get_outputs s) in
            ort_run s (arg_name output_info) (arg_name input_info) face_input)%out
       end;
     cv2_imencode_jpg := lib_imencode_jpg lib |}.

(** *** Construction *)

Definition cascade_path : string :=
  os_path_join lib (os_path_dirname lib (cv2_file lib))
    ["data"; "haarcascade_frontalface_default.xml"].

(** [FaceProcessor.load_models]: the object with its session and its cascade
    set.  (When the method raises, the object is not seen again: the
    constructor raises too.) *)
Definition load_models (self : processor) : M A64 processor :=
  try_except
    (if negb (os_path_exists lib (model_path self)) then
       raise (Exn "FileNotFoundError"
                ("ONNX model not found at " ++ model_path self)%string)
     else
       s <- lift (ort_InferenceSession lib (model_path self)) ;;
       logger_info ("Loaded ONNX model from " ++ model_path self)%string ;;;
       input_info <- lift (first_of (get_inputs s)) ;;
       output_info <- lift (first_of (get_outputs s)) ;;
       logger_info ("Model input: " ++ arg_name input_info ++ ", shape: "
                    ++ py_str lib (arg_shape input_info))%string ;;;
       logger_info ("Model output: " ++ arg_name output_info ++ ", shape: "
                    ++ py_str lib (arg_shape output_info))%string ;;;
       if negb (os_path_exists lib cascade_path) then
         raise (Exn "FileNotFoundError"
                  ("Haar cascade file not found at " ++ cascade_path)%string)
       else
         c <- lift (cv2_CascadeClassifier lib cascade_path) ;;
         if cascade_empty c then
           raise (Exn "RuntimeError" "Failed to load face detection cascade")
         else
           logger_info "Face detection cascade loaded successfully" ;;;
           ret (Processor (model_path self) (Some s) (Some c)))
    (fun e =>
       logger_error ("Error loading models: " ++ exn_str e)%string ;;;
       raise e).

(** The path [__init__] settles on: the given one made absolute, or, when no
    file is there, the file of the same name beside [app.py] if that one
    exists. *)
Definition resolve_model_path (path : string) : outcome string :=
  (let? candidate :=
     if os_path_isabs lib path then Return path else os_path_abspath lib path in
   if os_path_exists lib candidate then Return candidate
   else
     let? app_abs := os_path_abspath lib (app_file lib) in
     let here := os_path_dirname lib app_abs in
     let alt := os_path_join lib here [os_path_basename lib path] in
     if os_path_exists lib alt then Return alt else Return candidate)%out.

(** [FaceProcessor(model_path)] *)
Definition FaceProcessor_init (path : string) : M A64 processor :=
  candidate <- lift (resolve_model_path path) ;;
  load_models (Processor candidate None None).

(** *** Responses *)

(** A value of a response's JSON object: one written in the handler or echoed
    from the request, a Python float, or a value of [process_image]'s
    result. *)
Inductive field : Type :=
| OfJson (v : json)
| OfFloat (x : num A64)
| OfResult (v : pyval A32 A64).

(** [jsonify(entries), status]; the status is 200 when none is given. *)
Record response : Type := Response {
  status : Z;
  json_body : list (string * field)
}.

Definition str (s : string) : field := OfJson (JStr s).

(** [jsonify(result)] for a dictionary of [process_image]. *)
Definition jsonify_result (result : dict A32 A64) : list (string * field) :=
  map (fun kv : string * pyval A32 A64 => (fst kv, OfResult (snd kv))) result.

(** The global [face_processor] with an attribute or a method looked up on
    it. *)
Definition attribute_of (face_processor : option processor) (attr : string)
  : outcome processor :=
  match face_processor with
  | None => Raise (none_has_no attr)
  | Some fp => Return fp
  end.

(** *** The endpoints *)

(** [health_check], the handler of [GET /health].  The entries of the
    dictionary are evaluated in the order they are written: the clock is read
    before [face_processor.session] is looked up.  (A [FaceProcessor] always
    has the attribute [model_path], so the [hasattr] test holds.) *)
Definition health_check (face_processor : option processor) : M A64 response :=
  try_except
    (timestamp <- @time_time A64 ;;
     fp <- lift (attribute_of face_processor "session") ;;
     let model_loaded := match session fp with Some _ => true | None => false end in
     path <- lift (os_path_abspath lib (model_path fp)) ;;
     ret (Response 200
            [ ("status", str "ok");
              ("timestamp", OfFloat timestamp);
              ("model_loaded", OfJson (JBool model_loaded));
              ("model_path", str path);
              ("python_version", str (python_version lib)) ]))
    (fun e =>
       logger_error ("Health check failed: " ++ exn_str e)%string ;;;
       ret (Response 500 [ ("status", str "error"); ("error", str (exn_str e)) ])).

(** [process_image] as the endpoint calls it, with two values of the request.
    An [image_data] that is not a [str] makes [base64.b64decode], the first
    statement of the [try] block, raise [TypeError]; [return_face_image] is
    only tested for its truth value. *)
Definition process_image_of_request (ext : externals A32 A64)
    (image_data return_face_image : json) : M A64 (dict A32 A64) :=
  match image_data with
  | JStr s => process_image ext s (truthy return_face_image)
  | _ =>
      start_time <- @time_time A64 ;;
      try_except
        (raise (Exn "TypeError"
                  ("argument should be a bytes-like object or ASCII string, not '"
                   ++ py_type_name image_data ++ "'")%string))
        (fun e =>
           logger_error ("Error processing image: " ++ exn_str e)%string ;;;
           now <- @time_time A64 ;;
           ret (not_detected A32 A64 (exn_str e) (sub A64 now start_time)))
  end.

(** [process_face], the handler of [POST /process-face]; [request_json] is
    what [request.get_json()] does.  ([result.get('face_detected', False)] is
    read as a boolean: every dictionary of [process_image] holds one there.
    [logger.exception] records its message at the level of an error.) *)
Definition process_face (face_processor : option processor)
    (request_json : outcome json) : M A64 response :=
  try_except
    (data <- lift request_json ;;
     if negb (truthy data) then
       ret (Response 400 [ ("error", str "No data provided") ])
     else
       has_image <- lift (py_in "imageData" data) ;;
       if (has_image : bool) then
         fp <- lift (attribute_of face_processor "process_image") ;;
         image_data <- lift (py_getitem "imageData" data) ;;
         flag <- lift (py_get "returnFaceImage" (JBool false) data) ;;
         result <- process_image_of_request (externals_of fp) image_data flag ;;
         if negb (detected result) then
           ret (Response 400
                  [ ("error", str "No face detected or face quality too low");
                    ("details",
                     match dict_get "error" result with
                     | Some v => OfResult v
                     | None => str "Unknown error"
                     end) ])
         else ret (Response 200 (jsonify_result result))
       else
         action <- lift (py_get "action" JNull data) ;;
         is_register <-
           (if eq_str action "register" then
              has_embedding <- lift (py_in "embedding" data) ;;
              if (has_embedding : bool) then lift (py_in "userId" data) else ret false
            else ret false) ;;
         if (is_register : bool) then
           user_id <- lift (py_getitem "userId" data) ;;
           logger_info ("Storing face embedding for user " ++ py_str lib user_id)%string ;;;
           user_id' <- lift (py_getitem "userId" data) ;;
           ret (Response 200
                  [ ("success", OfJson (JBool true));
                    ("message", str "Face registered successfully");
                    ("userId", OfJson user_id') ])
         else
           ret (Response 400
                  [ ("error", str "Invalid request");
                    ("details",
                     str "Either provide imageData for processing or action=register with embedding and userId") ]))
    (fun e =>
       logger_error "Error in face processing endpoint" ;;;
       ret (Response 500
              [ ("error", str "Face processing failed");
                ("details", str (exn_str e)) ])).

(** [model_info], the handler of [GET /model-info]. *)
Definition model_info (face_processor : option processor) : M A64 response :=
  try_except
    (fp <- lift (attribute_of face_processor "session") ;;
     match session fp with
     | None => ret (Response 500 [ ("error", str "Model not loaded") ])
     | Some s =>
         input_info <- lift (first_of (get_inputs s)) ;;
         output_info <- lift (first_of (get_outputs s)) ;;
         ret (Response 200
                [ ("input_name", str (arg_name input_info));
                  ("input_shape", OfJson (arg_shape input_info));
                  ("output_name", str (arg_name output_info));
                  ("output_shape", OfJson (arg_shape output_info));
                  ("model_path", str (model_path fp)) ])
     end)
    (fun e => ret (Response 500 [ ("error", str (exn_str e)) ])).

(** *** The entry point *)



End Service.

Arguments OfJson {A32 A64} v.
Arguments OfFloat {A32 A64} x.
Arguments OfResult {A32 A64} v.
Arguments str {A32 A64} s.

(** *** Names for the statements about the result *)

Section Geometry.
Variables A32 A64 : arith.

(** [x + w / 2.0]: the centre of the box along one axis. *)
Definition center_of (start size : Z) : num A64 :=
  add A64 (of_int A64 start) (div A64 (of_int A64 size) (of_int A64 2)).

(** [(cx - icx) / img_w], with [icx = img_w / 2.0]. *)
Definition offset_of (start size extent : Z) : num A64 :=
  div A64 (sub A64 (center_of start size) (div A64 (of_int A64 extent) (of_int A64 2)))
          (of_int A64 extent).

(** [(w * h) / float(img_w * img_h)] *)
Definition ratio_of (w h img_w img_h : Z) : num A64 :=
  div A64 (of_int A64 (w * h)) (of_int A64 (img_w * img_h)).

(** The nine entries [process_image] gives a detection, in the order of the
    dictionary display. *)
Definition detection_entries (f : rect) (img_w img_h : Z) (embedding : list (num A32))
    (quality_score elapsed : num A64) : dict A32 A64 :=
  let '(x, y, w, h) := f in
  [ ("face_detected", PyBool A32 A64 true);
    ("embedding", PyFloats32 A32 A64 embedding);
    ("quality_score", PyFloat A32 A64 quality_score);
    ("processing_time", PyFloat A32 A64 elapsed);
    ("bbox", PyInts A32 A64 [x; y; w; h]);
    ("image_size", PyInts A32 A64 [img_w; img_h]);
    ("face_center", PyFloats A32 A64 [center_of x w; center_of y h]);
    ("center_offset", PyFloats A32 A64 [offset_of x w img_w; offset_of y h img_h]);
    ("box_ratio", PyFloat A32 A64 (ratio_of w h img_w img_h)) ].

(** The entry added when the aligned face is asked for. *)
Definition face_image_entry (buffer : bytes) : string * pyval A32 A64 :=
  ("face_image", PyStr A32 A64 ("data:image/jpeg;base64," ++ Base64.b64encode buffer)%string).

(** The keys of a dictionary, in order. *)
Definition keys (d : dict A32 A64) : list string := map fst d.

End Geometry.

(** *** Predicates and samples for the statements about the service *)

(** The requests [process_face] answers with status 500: [get_json] raised,
    the body is a value other than an object and is not false, or it is an
    object with [imageData] while no processor has been constructed. *)
Definition server_fault {A32} (face_processor : option (processor A32))
    (request_json : outcome json) : Prop :=
  match request_json with
  | Raise _ => True
  | Return (JDict d) => assoc "imageData" d <> None /\ face_processor = None
  | Return data => truthy data = true
  end.

(** A processor as [load_models] leaves it: session and cascade set, the
    cascade loaded, the model with an input and an output, the model file
    present. *)
Definition loaded {A32 A64} (lib : libraries A32 A64) (fp : processor A32) : Prop :=
  os_path_exists lib (model_path fp) = true /\
  exists s c,
    session fp = Some s /\ face_cascade fp = Some c /\
    cascade_empty c = false /\
    get_inputs s <> [] /\ get_outputs s <> [].

(** The condition of the registration branch, for an object:
    [data.get('action') == 'register' and 'embedding' in data and 'userId' in data]. *)
Definition asks_registration (d : list (string * json)) : bool :=
  eq_str (match assoc "action" d with Some v => v | None => JNull end) "register"
  && match assoc "embedding" d with Some _ => true | None => false end
  && match assoc "userId" d with Some _ => true | None => false end.

(** A model that answers [raw] for every input, and a cascade that reports
    [faces] in every image. *)
Definition sample_session (A32 : arith) (raw : list (num A32)) : InferenceSession A32 :=
  Session [NodeArg "input" (JList [JInt 1; JInt 3; JInt 112; JInt 112])]
          [NodeArg "embedding" (JList [JInt 1; JInt 128])]
          (fun _ _ _ => Return [raw]).

Definition sample_cascade (faces : list rect) : CascadeClassifier :=
  Cascade false (fun _ => Return faces).

(** An installation with the model at [/srv/mobilefacenet.onnx], the service
    started in [/srv], no environment variable set, and the collaborators of
    [sample_ext]. *)
Definition sample_lib (A32 A64 : arith) (faces : list rect) (raw : list (num A32))
  : libraries A32 A64 :=
  {| os_path_isabs := String.prefix "/";
     os_path_abspath := fun p =>
       Return (if String.prefix "/" p then p else "/srv/" ++ p)%string;
     os_path_exists := fun p =>
       existsb (String.eqb p)
         ["/srv/mobilefacenet.onnx";
          "/usr/lib/cv2/data/haarcascade_frontalface_default.xml"];
     os_path_dirname := fun p =>
       if String.eqb p "/usr/lib/cv2/__init__.py" then "/usr/lib/cv2" else "/srv";
     os_path_basename := fun p => p;
     os_path_join := fun a ps => fold_left (fun acc q => acc ++ "/" ++ q)%string ps a;
     app_file := "/srv/app.py";
     cv2_file := "/usr/lib/cv2/__init__.py";
     ort_InferenceSession := fun _ => Return (sample_session A32 raw);
     cv2_CascadeClassifier := fun _ => Return (sample_cascade faces);
     lib_imdecode := fun _ => Return (Some sample_image);
     lib_cvtColor_gray := fun img => Return (sample_gray img);
     lib_resize := sample_resize;
     lib_Laplacian := fun g => Return (map (map (fun _ => of_int A64 0)) g);
     lib_imencode_jpg := fun _ => Return [xff; xd8; xff; xd9];
     environ := fun _ => None;
     py_int := fun _ => Raise (Exn "ValueError" "invalid literal for int() with base 10");
     py_str := fun v =>
       match v with
       | JStr s => s
       | JInt n => str_of_int n
       | _ => py_type_name v
       end;
     python_version := "3.11.2";
     app_run := fun _ _ => ret tt |}.

Definition sample_processor (A32 : arith) (faces : list rect) (raw : list (num A32))
  : processor A32 :=
  Processor "/srv/mobilefacenet.onnx"
            (Some (sample_session A32 raw)) (Some (sample_cascade faces)).

(** Collaborators whose cascade fails. *)
Definition failing_cascade_ext (A32 A64 : arith) : externals A32 A64 :=
  {| cv2_imdecode := fun _ => Return (Some sample_image);
     cv2_cvtColor_gray := fun img => Return (sample_gray img);
     detectMultiScale := fun _ =>
       Raise (cv2_error "(-215:Assertion failed) !empty() in function 'detectMultiScale'");
     cv2_resize := sample_resize;
     cv2_Laplacian := fun g => Return (map (map (fun _ => of_int A64 0)) g);
     session_run := fun _ => Return [];
     cv2_imencode_jpg := fun _ => Return [] |}.

(** * Properties *)

Unset Implicit Arguments.

(** ** The models on small inputs *)

Example b64decode_hello :
  Base64.b64decode "aGVsbG8="
  = Return ["h"%byte; "e"%byte; "l"%byte; "l"%byte; "o"%byte].
Proof. reflexivity. Qed.

Example b64decode_skips_foreign_characters :
  Base64.b64decode "aGV sbG:8=" = Base64.b64decode "aGVsbG8=".
Proof. reflexivity. Qed.

Example b64decode_one_extra_character :
  Base64.b64decode "aGVsb"
  = Raise (Base64.binascii_Error
      "Invalid base64-encoded string: number of data characters (5) cannot be 1 more than a multiple of 4").
Proof. reflexivity. Qed.

Example b64decode_missing_padding :
  Base64.b64decode "aGVsbG8" = Raise (Base64.binascii_Error "Incorrect padding").
Proof. reflexivity. Qed.

Example b64encode_hello :
  Base64.b64encode ["h"%byte; "e"%byte; "l"%byte; "l"%byte; "o"%byte] = "aGVsbG8=".
Proof. reflexivity. Qed.

Example py_slice_clamps : py_slice 1 10 [1; 2; 3; 4] = [2; 3; 4].
Proof. reflexivity. Qed.

Example py_slice_negative_stop : py_slice 0 (-1) [1; 2; 3; 4] = [1; 2; 3].
Proof. reflexivity. Qed.

Example padding_of_100 : padding_of IEEE.binary64 100 120 = Return 20.
Proof. vm_compute. reflexivity. Qed.

Example padding_of_99 : padding_of IEEE.binary64 99 99 = Return 19.
Proof. vm_compute. reflexivity. Qed.

Example normalize_value_ends :
  normalize_value IEEE.binary32 x00 = of_int IEEE.binary32 (-1) /\
  normalize_value IEEE.binary32 xff = of_int IEEE.binary32 1.
Proof. split; vm_compute; reflexivity. Qed.

Example max_from_keeps_first_of_equal :
  py_max_area [(0, 0, 80, 90); (5, 5, 90, 80); (9, 9, 70, 70)] = Return (0, 0, 80, 90).
Proof. reflexivity. Qed.

Example area_wraps_at_32_bits : area (0, 0, 65536, 65536) = 0.
Proof. reflexivity. Qed.

(** ** Selection of the largest face *)

Lemma wrap32_small (z : Z) : - 2 ^ 31 <= z < 2 ^ 31 -> wrap32 z = z.
Proof.
  intros Hz. unfold wrap32.
  rewrite Z.mod_small by lia. lia.
Qed.

Lemma area_exact (f : rect) : area_fits f -> area f = rect_w f * rect_h f.
Proof.
  unfold area_fits, area. intros H. apply wrap32_small. lia.
Qed.

(** A box inside an image of fewer than [2^31] pixels has an area that
    fits. *)
Lemma in_bounds_area_fits (W H : Z) (f : rect) :
  in_bounds W H f -> W * H < 2 ^ 31 -> area_fits f.
Proof.
  intros (Hw & Hh & Hx & Hxw & Hy & Hyh) Hpix. unfold area_fits.
  assert (rect_w f * rect_h f <= W * H) by (apply Z.mul_le_mono_nonneg; lia).
  split; [apply Z.mul_nonneg_nonneg; lia|lia].
Qed.

Lemma max_from_split (rest : list rect) :
  forall best,
  exists pre post,
    best :: rest = pre ++ max_from best rest :: post /\
    (forall f, In f pre -> area f < area (max_from best rest)) /\
    (forall f, In f post -> area f <= area (max_from best rest)).
Proof.
  induction rest as [|f rest IH]; intros best; simpl.
  - exists [], []. repeat split; simpl; intros; contradiction.
  - destruct (area best <? area f) eqn:Hlt.
    + apply Z.ltb_lt in Hlt.
      destruct (IH f) as (pre & post & Heq & Hpre & Hpost).
      exists (best :: pre), post. repeat split.
      * simpl. now rewrite Heq.
      * intros g [<-|Hg]; [|now apply Hpre].
        assert (Hin : In f (pre ++ max_from f rest :: post))
          by (rewrite <- Heq; now left).
        apply in_app_or in Hin. destruct Hin as [Hin|[Hin|Hin]].
        -- apply Z.lt_trans with (area f); auto.
        -- now rewrite Hin.
        -- apply Z.lt_le_trans with (area f); auto.
      * exact Hpost.
    + apply Z.ltb_ge in Hlt.
      destruct (IH best) as (pre & post & Heq & Hpre & Hpost).
      destruct pre as [|b pre].
      * simpl in Heq. injection Heq as Hb Hrest.
        exists [], (f :: post). repeat split.
        -- simpl. now rewrite <- Hb, <- Hrest.
        -- simpl; intros; contradiction.
        -- intros g [<-|Hg]; [now rewrite <- Hb | now apply Hpost].
      * simpl in Heq. injection Heq as Hb Hrest. subst b.
        exists (best :: f :: pre), post. repeat split.
        -- simpl. now rewrite <- Hrest.
        -- intros g [<-|[<-|Hg]].
           ++ apply Hpre. now left.
           ++ apply Z.le_lt_trans with (area best); auto.
              apply Hpre. now left.
           ++ apply Hpre. now right.
        -- exact Hpost.
Qed.

(** C8. For a non-empty list of detected boxes whose areas fit the
    detector's 32-bit integers, [max(faces, key=lambda f: f[2] * f[3])]
    returns a box of the list of maximum area [w * h]: every box reported
    before it is strictly smaller and every box reported after it is no
    larger, so among boxes of maximum area the first reported is kept. *)
Theorem largest_face_is_first_maximum (faces : list rect) :
  faces <> [] ->
  Forall area_fits faces ->
  exists sel pre post,
    py_max_area faces = Return sel /\
    faces = pre ++ sel :: post /\
    (forall f, In f pre -> rect_w f * rect_h f < rect_w sel * rect_h sel) /\
    (forall f, In f post -> rect_w f * rect_h f <= rect_w sel * rect_h sel).
Proof.
  intros Hne Hfit.
  destruct faces as [|f0 rest]; [congruence|].
  destruct (max_from_split rest f0) as (pre & post & Heq & Hpre & Hpost).
  exists (max_from f0 rest), pre, post.
  rewrite Forall_forall in Hfit.
  assert (Hsel : area_fits (max_from f0 rest)).
  { apply Hfit. rewrite Heq. apply in_or_app. right. now left. }
  repeat split; auto.
  - intros f Hf. rewrite <- (area_exact _ Hsel), <- area_exact.
    + now apply Hpre.
    + apply Hfit. rewrite Heq. apply in_or_app. now left.
  - intros f Hf. rewrite <- (area_exact _ Hsel), <- area_exact.
    + now apply Hpost.
    + apply Hfit. rewrite Heq. apply in_or_app. right. now right.
Qed.

Lemma largest_face_is_first_maximum_witness :
  exists sel pre post,
    py_max_area [(0, 0, 80, 80); (10, 10, 120, 100); (300, 5, 100, 120); (7, 7, 90, 90)]
      = Return sel /\
    [(0, 0, 80, 80); (10, 10, 120, 100); (300, 5, 100, 120); (7, 7, 90, 90)]
      = pre ++ sel :: post /\
    (forall f, In f pre -> rect_w f * rect_h f < rect_w sel * rect_h sel) /\
    (forall f, In f post -> rect_w f * rect_h f <= rect_w sel * rect_h sel).
Proof.
  apply largest_face_is_first_maximum.
  - discriminate.
  - repeat constructor; vm_compute; discriminate.
Defined.

(** ** Face alignment *)

Lemma padding_agrees_spec (n : nat) :
  forall m, padding_agrees n m = true ->
  forall k, m <= k < m + Z.of_nat n -> padding_of IEEE.binary64 k k = Return (k / 5).
Proof.
  induction n as [|n IH]; intros m Hc k Hk.
  - lia.
  - cbn [padding_agrees] in Hc.
    destruct (padding_of IEEE.binary64 m m) as [p|e] eqn:Hp; [|discriminate].
    apply andb_prop in Hc. destruct Hc as [Hpm Hrest].
    apply Z.eqb_eq in Hpm.
    destruct (Z.eq_dec k m) as [->|Hne].
    + now rewrite Hp, Hpm.
    + apply (IH (m + 1)); [exact Hrest|lia].
Qed.

Lemma padding_agrees_65536 : padding_agrees (Z.to_nat 65536) 0 = true.
Proof. vm_compute. reflexivity. Qed.

(** In binary64, [int(0.2 * min(w, h))] is the floor of a fifth of the
    smaller side. *)
Lemma padding_is_floor_fifth (w h : Z) :
  0 <= Z.min w h < 65536 ->
  padding_of IEEE.binary64 w h = Return (Z.min w h / 5).
Proof.
  intros Hm.
  assert (H := padding_agrees_spec _ 0 padding_agrees_65536 (Z.min w h)).
  unfold padding_of in *. rewrite Z.min_id in H. apply H.
  rewrite Z2Nat.id; lia.
Qed.

Lemma firstn_skipn_length {A} (l : list A) (a n : nat) :
  (a + n <= List.length l)%nat -> List.length (firstn n (skipn a l)) = n.
Proof.
  intros H. rewrite length_firstn, length_skipn. lia.
Qed.

Lemma nth_firstn_skipn {A} (d : A) (l : list A) (a n i : nat) :
  (i < n)%nat -> nth i (firstn n (skipn a l)) d = nth (a + i) l d.
Proof.
  intros Hi. rewrite nth_firstn.
  destruct (i <? n)%nat eqn:E.
  - apply nth_skipn.
  - apply Nat.ltb_ge in E. lia.
Qed.

Lemma in_firstn {A} (l : list A) (n : nat) (x : A) : In x (firstn n l) -> In x l.
Proof.
  intros H. rewrite <- (firstn_skipn n l). apply in_or_app. now left.
Qed.

Lemma in_skipn {A} (l : list A) (n : nat) (x : A) : In x (skipn n l) -> In x l.
Proof.
  intros H. rewrite <- (firstn_skipn n l). apply in_or_app. now right.
Qed.

(** A slice with bounds inside the list. *)
Lemma py_slice_length {A} (l : list A) (a b : Z) :
  0 <= a <= b -> b <= Z.of_nat (List.length l) ->
  Z.of_nat (List.length (py_slice a b l)) = b - a.
Proof.
  intros Hab Hb. unfold py_slice, slice_bound.
  destruct (a <? 0) eqn:Ha; [apply Z.ltb_lt in Ha; lia|].
  destruct (b <? 0) eqn:Hb0; [apply Z.ltb_lt in Hb0; lia|].
  rewrite !Z.min_l by lia.
  rewrite firstn_skipn_length; lia.
Qed.

Lemma py_slice_nth {A} (d : A) (l : list A) (a b i : Z) :
  0 <= a <= b -> b <= Z.of_nat (List.length l) -> 0 <= i < b - a ->
  nth (Z.to_nat i) (py_slice a b l) d = nth (Z.to_nat (a + i)) l d.
Proof.
  intros Hab Hb Hi. unfold py_slice, slice_bound.
  destruct (a <? 0) eqn:Ha; [apply Z.ltb_lt in Ha; lia|].
  destruct (b <? 0) eqn:Hb0; [apply Z.ltb_lt in Hb0; lia|].
  rewrite !Z.min_l by lia.
  rewrite nth_firstn_skipn by lia.
  f_equal. lia.
Qed.

Lemma rows_of_width_In {A} (w : Z) (g : list (list A)) (row : list A) :
  rows_of_width w g -> In row g -> Z.of_nat (List.length row) = w.
Proof.
  unfold rows_of_width. rewrite Forall_forall. auto.
Qed.

Lemma py_slice_incl {A} (l : list A) (a b : Z) (x : A) :
  In x (py_slice a b l) -> In x l.
Proof.
  unfold py_slice. intros H.
  apply in_firstn in H. now apply in_skipn in H.
Qed.

(** The crop [image[y1:y2, x1:x2]] of a window inside an [H x W] grid has
    the window's shape and holds the grid's entries at the window's
    positions. *)
Lemma crop_shape {A} (g : list (list A)) (H W y1 y2 x1 x2 : Z) :
  has_shape H W g ->
  0 <= y1 <= y2 -> y2 <= H -> 0 <= x1 <= x2 -> x2 <= W ->
  has_shape (y2 - y1) (x2 - x1) (crop g y1 y2 x1 x2).
Proof.
  intros [Hh Hw] Hy Hy2 Hx Hx2. unfold has_shape, crop, height in *.
  split.
  - rewrite length_map. apply py_slice_length; lia.
  - unfold rows_of_width. rewrite Forall_forall. intros row Hrow.
    apply in_map_iff in Hrow. destruct Hrow as (row0 & <- & Hin).
    apply py_slice_incl in Hin.
    apply py_slice_length; [lia|].
    rewrite (rows_of_width_In _ _ _ Hw Hin). lia.
Qed.

Lemma crop_at {A} (d : A) (g : list (list A)) (H W y1 y2 x1 x2 r c : Z) :
  has_shape H W g ->
  0 <= y1 <= y2 -> y2 <= H -> 0 <= x1 <= x2 -> x2 <= W ->
  0 <= r < y2 - y1 -> 0 <= c < x2 - x1 ->
  at_rc d (crop g y1 y2 x1 x2) r c = at_rc d g (y1 + r) (x1 + c).
Proof.
  intros [Hh Hw] Hy Hy2 Hx Hx2 Hr Hc. unfold at_rc, crop, height in *.
  assert (Hlen : Z.of_nat (List.length (py_slice y1 y2 g)) = y2 - y1)
    by (apply py_slice_length; lia).
  rewrite (nth_indep _ [] (py_slice x1 x2 [])) by (rewrite length_map; lia).
  rewrite map_nth.
  rewrite (py_slice_nth [] g y1 y2 r) by lia.
  apply py_slice_nth; [lia| |lia].
  assert (Hin : In (nth (Z.to_nat (y1 + r)) g []) g) by (apply nth_In; lia).
  rewrite (rows_of_width_In _ _ _ Hw Hin). lia.
Qed.

Lemma has_shape_width {A} (g : list (list A)) (H W : Z) :
  has_shape H W g -> 0 < H -> width g = W.
Proof.
  intros [Hh Hw] Hpos. unfold height in Hh.
  destruct g as [|row g]; simpl in *; [lia|].
  now inversion Hw.
Qed.

Lemma has_shape_nonempty {A} (g : list (list A)) (H W : Z) :
  has_shape H W g -> 0 < H -> 0 < W -> is_empty g = false.
Proof.
  intros Hs HH HW. unfold is_empty.
  rewrite (has_shape_width _ _ _ Hs HH).
  destruct Hs as [Hh _]. rewrite Hh.
  apply orb_false_intro; apply Z.eqb_neq; lia.
Qed.

Lemma repeat_has_shape {A} (x : A) (h w : Z) :
  0 <= h -> 0 <= w ->
  has_shape h w (repeat (repeat x (Z.to_nat w)) (Z.to_nat h)).
Proof.
  intros Hh Hw. split.
  - unfold height. rewrite repeat_length. lia.
  - unfold rows_of_width. apply Forall_forall. intros row Hrow.
    apply repeat_spec in Hrow. subst row. rewrite repeat_length. lia.
Qed.

Lemma sample_resize_contract (A32 A64 : arith) faces raw :
  resize_contract (sample_ext A32 A64 faces raw).
Proof.
  intros src w h Hw Hh. simpl. unfold sample_resize. split; intros He; rewrite He.
  - eexists. reflexivity.
  - eexists. split; [reflexivity|]. apply repeat_has_shape; lia.
Qed.

Lemma align_face_eq (A32 A64 : arith) (ext : externals A32 A64) img f :
  align_face ext img f =
  obind (padding_of A64 (rect_w f) (rect_h f)) (fun p =>
    cv2_resize ext
      (crop img (Z.max 0 (rect_y f - p)) (Z.min (height img) (rect_y f + rect_h f + p))
                (Z.max 0 (rect_x f - p)) (Z.min (width img) (rect_x f + rect_w f + p)))
      112 112).
Proof.
  destruct f as [[[x y] w] h]. reflexivity.
Qed.

Section Align.
Variables A32 A64 : arith.
Variable ext : externals A32 A64.
Variable img : image.
Variables W H : Z.
Variable f : rect.

Let p := Z.min (rect_w f) (rect_h f) / 5.
Let x1 := Z.max 0 (rect_x f - p).
Let y1 := Z.max 0 (rect_y f - p).
Let x2 := Z.min W (rect_x f + rect_w f + p).
Let y2 := Z.min H (rect_y f + rect_h f + p).

Hypothesis Hresize : resize_contract ext.
Hypothesis Hshape : has_shape H W img.
Hypothesis Hbox : in_bounds W H f.
Hypothesis Hpad : padding_of A64 (rect_w f) (rect_h f) = Return p.

Lemma padding_nonneg : 0 <= p.
Proof.
  unfold p. destruct Hbox as (Hw & Hh & _).
  apply Z.div_pos; lia.
Qed.

Lemma region_ordered : 0 <= x1 < x2 /\ x2 <= W /\ 0 <= y1 < y2 /\ y2 <= H.
Proof.
  pose proof padding_nonneg as Hp.
  destruct Hbox as (Hw & Hh & Hx & Hxw & Hy & Hyh).
  unfold x1, x2, y1, y2. lia.
Qed.

Lemma image_dims : 0 < H /\ 0 < W /\ width img = W /\ height img = H.
Proof.
  destruct Hbox as (Hw & Hh & Hx & Hxw & Hy & Hyh).
  assert (0 < H) by lia. assert (0 < W) by lia.
  repeat split; auto.
  - now apply has_shape_width with H.
  - now destruct Hshape.
Qed.

Lemma align_face_unfold :
  align_face ext img f = cv2_resize ext (crop img y1 y2 x1 x2) 112 112.
Proof.
  destruct image_dims as (_ & _ & HW & HH).
  rewrite align_face_eq, Hpad. simpl. rewrite HW, HH.
  reflexivity.
Qed.

Lemma crop_nonempty : is_empty (crop img y1 y2 x1 x2) = false.
Proof.
  destruct region_ordered as (Hx & Hx2 & Hy & Hy2).
  apply has_shape_nonempty with (y2 - y1) (x2 - x1); [|lia|lia].
  apply crop_shape with H W; auto; lia.
Qed.

(** With a box inside the image, [align_face] returns a 112 x 112 image. *)
Lemma align_face_returns :
  exists out,
    align_face ext img f = Return out /\
    cv2_resize ext (crop img y1 y2 x1 x2) 112 112 = Return out /\
    has_shape 112 112 out.
Proof.
  destruct (Hresize (crop img y1 y2 x1 x2) 112 112) as [_ Hok]; [lia|lia|].
  destruct (Hok crop_nonempty) as (out & Hout & Hs).
  exists out. rewrite align_face_unfold. auto.
Qed.

End Align.

(** A box inside an image of fewer than [2^32] pixels has its smaller side
    below [2^16]. *)
Lemma smaller_side_bound (f : rect) (W H : Z) :
  in_bounds W H f -> W * H < 2 ^ 32 ->
  0 <= Z.min (rect_w f) (rect_h f) < 65536.
Proof.
  intros (Hw & Hh & Hx & Hxw & Hy & Hyh) Hpix.
  assert (Hm : Z.min (rect_w f) (rect_h f) * Z.min (rect_w f) (rect_h f) <= W * H).
  { apply Z.le_trans with (rect_w f * rect_h f).
    - apply Z.mul_le_mono_nonneg; lia.
    - apply Z.mul_le_mono_nonneg; lia. }
  split; [lia|].
  destruct (Z_lt_le_dec (Z.min (rect_w f) (rect_h f)) 65536) as [Hlt|Hge]; [exact Hlt|].
  assert (65536 * 65536 <= Z.min (rect_w f) (rect_h f) * Z.min (rect_w f) (rect_h f))
    by (apply Z.mul_le_mono_nonneg; lia).
  change (2 ^ 32) with 4294967296 in Hpix. lia.
Qed.

Lemma padding_value (f : rect) (W H : Z) :
  in_bounds W H f ->
  W * H < 2 ^ 32 ->
  padding_of IEEE.binary64 (rect_w f) (rect_h f)
  = Return (Z.min (rect_w f) (rect_h f) / 5).
Proof.
  intros Hbox Hpix. apply padding_is_floor_fifth.
  now apply smaller_side_bound with W H.
Qed.

(** C5. For an [H x W] image of fewer than [2^32] pixels and a face box
    with positive sides inside it, [align_face] computes in binary64 the padding
    [int(0.2 * min(w, h))], which is the floor of [min(w, h) / 5]; it crops
    the box widened by that padding on its four sides and clamped to the
    image, [x1 = max(0, x - p)], [y1 = max(0, y - p)],
    [x2 = min(W, x + w + p)], [y2 = min(H, y + h + p)]: the crop has
    [y2 - y1] rows and [x2 - x1] columns and holds the image's pixels of that
    window; and what it returns is [cv2.resize] of the crop to [(112, 112)],
    an image of exactly 112 rows and 112 columns whatever the box. *)
Theorem align_face_pads_clamps_resizes
    (A32 : arith) (ext : externals A32 IEEE.binary64)
    (img : image) (W H : Z) (f : rect) :
  resize_contract ext ->
  has_shape H W img ->
  in_bounds W H f ->
  W * H < 2 ^ 32 ->
  let p := Z.min (rect_w f) (rect_h f) / 5 in
  let x1 := Z.max 0 (rect_x f - p) in
  let y1 := Z.max 0 (rect_y f - p) in
  let x2 := Z.min W (rect_x f + rect_w f + p) in
  let y2 := Z.min H (rect_y f + rect_h f + p) in
  padding_of IEEE.binary64 (rect_w f) (rect_h f) = Return p /\
  5 * p <= Z.min (rect_w f) (rect_h f) < 5 * p + 5 /\
  has_shape (y2 - y1) (x2 - x1) (crop img y1 y2 x1 x2) /\
  (forall r c, 0 <= r < y2 - y1 -> 0 <= c < x2 - x1 ->
     at_rc black (crop img y1 y2 x1 x2) r c = at_rc black img (y1 + r) (x1 + c)) /\
  exists out,
    align_face ext img f = Return out /\
    cv2_resize ext (crop img y1 y2 x1 x2) 112 112 = Return out /\
    has_shape 112 112 out.
Proof.
  intros Hresize Hshape Hbox Hsmall p x1 y1 x2 y2.
  pose proof (padding_value f W H Hbox Hsmall) as Hpad. fold p in Hpad.
  destruct (region_ordered W H f Hbox) as (Hx & Hx2 & Hy & Hy2).
  fold p x1 y1 x2 y2 in Hx, Hx2, Hy, Hy2.
  split; [exact Hpad|].
  split.
  { unfold p. pose proof (Z.mul_div_le (Z.min (rect_w f) (rect_h f)) 5).
    pose proof (Z.mul_succ_div_gt (Z.min (rect_w f) (rect_h f)) 5). lia. }
  split; [apply crop_shape with H W; auto; lia|].
  split; [intros r c Hr Hc; apply crop_at with H W; auto; lia|].
  exact (align_face_returns A32 IEEE.binary64 ext img W H f Hresize Hshape Hbox Hpad).
Qed.

(** C10. For an [H x W] image of fewer than [2^32] pixels and a face box
    satisfying the FaceBox invariant, the clamped padded region of
    [align_face] is not empty, [x1 < x2] and [y1 < y2]; the crop has a pixel,
    and [align_face] returns an image instead of raising. *)
Theorem align_face_region_nonempty
    (A32 : arith) (ext : externals A32 IEEE.binary64)
    (img : image) (W H : Z) (f : rect) :
  resize_contract ext ->
  has_shape H W img ->
  in_bounds W H f ->
  W * H < 2 ^ 32 ->
  exists p,
    padding_of IEEE.binary64 (rect_w f) (rect_h f) = Return p /\
    let '(x1, y1, x2, y2) := padded_region img f p in
    x1 < x2 /\ y1 < y2 /\
    is_empty (crop img y1 y2 x1 x2) = false /\
    exists out, align_face ext img f = Return out.
Proof.
  intros Hresize Hshape Hbox Hsmall.
  pose proof (padding_value f W H Hbox Hsmall) as Hpad.
  exists (Z.min (rect_w f) (rect_h f) / 5).
  split; [exact Hpad|].
  destruct (image_dims img W H f Hshape Hbox) as (_ & _ & HW & HH).
  destruct (region_ordered W H f Hbox) as (Hx & Hx2 & Hy & Hy2).
  pose proof (crop_nonempty img W H f Hshape Hbox) as Hne.
  destruct (align_face_returns A32 IEEE.binary64 ext img W H f Hresize Hshape Hbox Hpad)
    as (out & Hout & _).
  destruct f as [[[x y] w] h]. cbn [padded_region]. rewrite HW, HH.
  cbn [rect_x rect_y rect_w rect_h] in *.
  repeat split; try lia; auto.
  now exists out.
Qed.

Lemma sample_image_shape : has_shape 200 200 sample_image.
Proof. exact (repeat_has_shape (x10, x80, xff) 200 200 ltac:(lia) ltac:(lia)). Qed.

Lemma sample_box_in_bounds : in_bounds 200 200 (50, 50, 100, 100).
Proof. unfold in_bounds; simpl; lia. Qed.

Lemma align_face_pads_clamps_resizes_witness :
  padding_of IEEE.binary64 100 100 = Return 20 /\
  has_shape 140 140 (crop sample_image 30 170 30 170) /\
  exists out,
    align_face (sample_ext IEEE.binary32 IEEE.binary64 [] []) sample_image (50, 50, 100, 100)
      = Return out /\
    has_shape 112 112 out.
Proof.
  destruct (align_face_pads_clamps_resizes IEEE.binary32
              (sample_ext IEEE.binary32 IEEE.binary64 [] [])
              sample_image 200 200 (50, 50, 100, 100)
              (sample_resize_contract _ _ _ _) sample_image_shape sample_box_in_bounds
              ltac:(vm_compute; reflexivity))
    as (Hp & _ & Hs & _ & out & Ha & _ & Ho).
  split; [exact Hp|]. split; [exact Hs|]. exists out. split; [exact Ha|exact Ho].
Defined.

Lemma align_face_region_nonempty_witness :
  exists p out,
    padding_of IEEE.binary64 100 100 = Return p /\
    align_face (sample_ext IEEE.binary32 IEEE.binary64 [] []) sample_image (50, 50, 100, 100)
      = Return out.
Proof.
  destruct (align_face_region_nonempty IEEE.binary32
              (sample_ext IEEE.binary32 IEEE.binary64 [] [])
              sample_image 200 200 (50, 50, 100, 100)
              (sample_resize_contract _ _ _ _) sample_image_shape sample_box_in_bounds
              ltac:(vm_compute; reflexivity))
    as (p & Hp & Hr).
  cbn [padded_region] in Hr. destruct Hr as (_ & _ & _ & out & Ho).
  exists p, out. split; [exact Hp|exact Ho].
Defined.

(** ** Tensor preprocessing *)

(** The three facts below are checked on each of the 256 byte values. *)
Lemma normalize_value_in_range (v : byte) :
  in_unit_range (normalize_value IEEE.binary32 v) = true.
Proof. destruct v; vm_compute; reflexivity. Qed.

Lemma spec_inverse_value_close (v : byte) :
  close_to (byte_value v)
    (spec_inverse_value IEEE.binary32 (normalize_value IEEE.binary32 v)) = true.
Proof. destruct v; vm_compute; reflexivity. Qed.

Lemma to_uint8_inverse (v : byte) :
  to_uint8 IEEE.binary32
    (spec_inverse_value IEEE.binary32 (normalize_value IEEE.binary32 v)) = v.
Proof. destruct v; vm_compute; reflexivity. Qed.

Lemma zip_row_map {X Y} (f0 f1 f2 : X -> Y) (row : list X) :
  map (fun v : Y * (Y * Y) => let '(a, (b, c)) := v in (a, b, c))
      (combine (map f0 row) (combine (map f1 row) (map f2 row)))
  = map (fun x => (f0 x, f1 x, f2 x)) row.
Proof.
  induction row as [|x row IH]; simpl; [reflexivity|]. now rewrite IH.
Qed.

Lemma zip_planes_map {X Y} (f0 f1 f2 : X -> Y) (g : list (list X)) :
  zip_planes (map (map f0) g) (map (map f1) g) (map (map f2) g)
  = map (map (fun x => (f0 x, f1 x, f2 x))) g.
Proof.
  unfold zip_planes.
  induction g as [|row g IH]; simpl; [reflexivity|].
  now rewrite zip_row_map, IH.
Qed.

Lemma map_has_shape {X Y} (f : X -> Y) (g : list (list X)) (h w : Z) :
  has_shape h w g -> has_shape h w (map (map f) g).
Proof.
  intros [Hh Hw]. split.
  - unfold height in *. now rewrite length_map.
  - unfold rows_of_width in *. rewrite Forall_forall in *.
    intros row Hrow. apply in_map_iff in Hrow. destruct Hrow as (r0 & <- & Hin).
    rewrite length_map. now apply Hw.
Qed.

Lemma at_rc_map {X Y} (f : X -> Y) (dx : X) (dy : Y) (g : list (list X))
    (h w r c : Z) :
  has_shape h w g -> 0 <= r < h -> 0 <= c < w ->
  at_rc dy (map (map f) g) r c = f (at_rc dx g r c).
Proof.
  intros [Hh Hw] Hr Hc. unfold at_rc, height in *.
  rewrite (nth_indep _ [] (map f [])) by (rewrite length_map; lia).
  rewrite map_nth.
  assert (Hin : In (nth (Z.to_nat r) g []) g) by (apply nth_In; lia).
  pose proof (rows_of_width_In _ _ _ Hw Hin) as Hlen.
  rewrite (nth_indep _ dy (f dx)) by (rewrite length_map; lia).
  apply map_nth.
Qed.

Lemma preprocess_face_planes (face : image) :
  is_empty face = false ->
  preprocess_face IEEE.binary32 face
  = Return [[plane_of face 0; plane_of face 1; plane_of face 2]].
Proof.
  intros Hne. unfold preprocess_face, cv2_cvtColor_RGB. rewrite Hne. simpl.
  unfold plane_of. repeat f_equal.
  all: rewrite map_map; apply map_ext; intros row; rewrite map_map;
    apply map_ext; intros [[b g] r]; reflexivity.
Qed.

Lemma spec_inverse_planes (face : image) :
  spec_inverse IEEE.binary32 [[plane_of face 0; plane_of face 1; plane_of face 2]]
  = Some face.
Proof.
  unfold spec_inverse, plane_of. rewrite zip_planes_map, map_map.
  apply f_equal. rewrite <- (map_id face) at 2.
  apply map_ext. intros row. rewrite map_map. rewrite <- (map_id row) at 2.
  apply map_ext. intros [[b g] r]. cbn [channel Nat.sub].
  now rewrite !to_uint8_inverse.
Qed.

(** C7. For a 112 x 112 face of (B, G, R) bytes, [preprocess_face] returns
    (it is a function, and it does not raise) a binary32 tensor of shape
    [(1, 3, 112, 112)]: one batch entry of three 112 x 112 planes, where the
    value of channel [c] at row [r], column [k] is
    [((v / 255) - 0.5) / 0.5] for [v] the channel [2 - c] of the face's pixel
    at [(r, k)] (BGR to RGB reorder, then HWC to CHW).  Every value lies in
    [[-1, 1]].  Undoing the steps ([x * 0.5 + 0.5], then [* 255]) gives back
    each byte within [2^-18], and with the rounding to the nearest integer,
    the RGB to BGR reorder and the transposition back the input face is
    recovered exactly. *)
Theorem preprocess_face_normalized_tensor (face : image) :
  has_shape 112 112 face ->
  exists t,
    preprocess_face IEEE.binary32 face = Return t /\
    t = [[plane_of face 0; plane_of face 1; plane_of face 2]] /\
    (forall c, (c < 3)%nat -> has_shape 112 112 (plane_of face c)) /\
    (forall c r k, (c < 3)%nat -> 0 <= r < 112 -> 0 <= k < 112 ->
       let v := channel (2 - c) (at_rc black face r k) in
       let x := at_rc S754_nan (plane_of face c) r k in
       x = normalize_value IEEE.binary32 v /\
       in_unit_range x = true /\
       close_to (byte_value v) (spec_inverse_value IEEE.binary32 x) = true) /\
    spec_inverse IEEE.binary32 t = Some face.
Proof.
  intros Hshape.
  exists [[plane_of face 0; plane_of face 1; plane_of face 2]].
  split.
  { apply preprocess_face_planes.
    apply has_shape_nonempty with 112 112; [exact Hshape|lia|lia]. }
  split; [reflexivity|].
  split.
  { intros c _. unfold plane_of. now apply map_has_shape. }
  split.
  { intros c r k _ Hr Hk v x.
    assert (Hx : x = normalize_value IEEE.binary32 v).
    { unfold x, v, plane_of.
      apply (at_rc_map (fun px : pixel =>
                          normalize_value IEEE.binary32 (channel (2 - c) px))
                       black S754_nan face 112 112 r k); auto. }
    rewrite Hx. split; [reflexivity|]. split.
    - apply normalize_value_in_range.
    - apply spec_inverse_value_close. }
  apply spec_inverse_planes.
Qed.

Lemma preprocess_face_normalized_tensor_witness :
  exists t,
    preprocess_face IEEE.binary32 (repeat (repeat (x10, x80, xff) 112%nat) 112%nat)
      = Return t /\
    spec_inverse IEEE.binary32 t = Some (repeat (repeat (x10, x80, xff) 112%nat) 112%nat).
Proof.
  destruct (preprocess_face_normalized_tensor
              (repeat (repeat (x10, x80, xff) 112%nat) 112%nat)
              (repeat_has_shape (x10, x80, xff) 112 112 ltac:(lia) ltac:(lia)))
    as (t & Ht & _ & _ & _ & Hinv).
  exists t. split; [exact Ht|exact Hinv].
Defined.

(** ** The orchestrator's exception boundary *)

Section Boundary.
Variables A32 A64 : arith.
Variable ext : externals A32 A64.

(** [detect_faces] never raises: a fault of the grey conversion or of the
    cascade is logged and becomes the empty list. *)
Lemma detect_faces_total (img : image) (w : world A64) :
  exists faces w', detect_faces ext img w = (Return faces, w').
Proof.
  unfold detect_faces, try_except, bind, lift, ret, logger_error.
  destruct (cv2_cvtColor_gray ext img) as [gray|e]; [|eauto].
  destruct (detectMultiScale ext gray) as [faces|e]; eauto.
Qed.

Lemma detect_faces_clock (img : image) (w w' : world A64) faces :
  detect_faces ext img w = (Return faces, w') -> clock w' = clock w.
Proof.
  unfold detect_faces, try_except, bind, lift, ret, logger_error.
  destruct (cv2_cvtColor_gray ext img) as [gray|e].
  - destruct (detectMultiScale ext gray) as [fs|e]; intros H; now inversion H.
  - intros H; now inversion H.
Qed.

Ltac run_monad :=
  unfold process_image_body, bind, lift, raise, ret, time_time, py_truediv.

(** Whatever the body returns carries the time elapsed since [start]: the
    clock is read exactly once more. *)
Lemma body_returns_elapsed image_data flag start (w0 w1 : world A64) d :
  process_image_body ext image_data flag start w0 = (Return d, w1) ->
  dict_get "processing_time" d = Some (PyFloat A32 A64 (sub A64 (clock w0 0%nat) start)).
Proof.
  run_monad.
  destruct (Base64.b64decode image_data) as [bs|e]; [|discriminate].
  destruct (cv2_imdecode ext bs) as [[img|]|e]; [|discriminate|discriminate].
  destruct (detect_faces_total img w0) as (faces & w0' & Hd).
  rewrite Hd. pose proof (detect_faces_clock _ _ _ _ Hd) as Hc.
  destruct faces as [|f0 rest].
  - intros H. inversion H. subst. rewrite Hc. reflexivity.
  - destruct (py_max_area (f0 :: rest)) as [[[[x y] w] h]|e]; [|discriminate].
    destruct (align_face ext img (x, y, w, h)) as [aligned|e]; [|discriminate].
    destruct (assess_face_quality ext aligned) as [q|e]; [|discriminate].
    destruct (preprocess_face A32 aligned) as [t|e]; [|discriminate].
    destruct (get_embedding ext t) as [emb|e]; [|discriminate].
    destruct (width img =? 0); [discriminate|].
    destruct (height img =? 0); [discriminate|].
    destruct (width img * height img =? 0); [discriminate|].
    destruct flag.
    + destruct (cv2_imencode_jpg ext aligned) as [buf|e]; [|discriminate].
      intros H. inversion H. subst. rewrite Hc. reflexivity.
    + intros H. inversion H. subst. rewrite Hc. reflexivity.
Qed.

(** The body reads the clock at most once: usually when it builds its
    result, and not at all when a step raises before that.  (A fault of the
    JPEG encoder comes after the reading.) *)
Lemma body_clock image_data flag start (w0 w1 : world A64) r :
  process_image_body ext image_data flag start w0 = (r, w1) ->
  clock w1 = clock w0 \/ clock w1 = clock (tick w0).
Proof.
  run_monad.
  destruct (Base64.b64decode image_data) as [bs|e];
    [|intros H; inversion H; now left].
  destruct (cv2_imdecode ext bs) as [[img|]|e];
    [|intros H; inversion H; now left|intros H; inversion H; now left].
  destruct (detect_faces_total img w0) as (faces & w0' & Hd).
  rewrite Hd. pose proof (detect_faces_clock _ _ _ _ Hd) as Hc.
  assert (Hl : forall r0, (r0, w0') = (r, w1) -> clock w1 = clock w0 \/ clock w1 = clock (tick w0))
    by (intros r0 H; inversion H; subst; now left).
  assert (Hr : forall r0 l, (r0, World A64 (fun n => clock w0' (S n)) l) = (r, w1) ->
                       clock w1 = clock w0 \/ clock w1 = clock (tick w0))
    by (intros r0 l H; inversion H; subst; right; simpl; now rewrite Hc).
  destruct faces as [|f0 rest]; [apply Hr|].
  destruct (py_max_area (f0 :: rest)) as [[[[x y] w] h]|e]; [|apply Hl].
  destruct (align_face ext img (x, y, w, h)) as [aligned|e]; [|apply Hl].
  destruct (assess_face_quality ext aligned) as [q|e]; [|apply Hl].
  destruct (preprocess_face A32 aligned) as [t|e]; [|apply Hl].
  destruct (get_embedding ext t) as [emb|e]; [|apply Hl].
  destruct (width img =? 0); [apply Hl|].
  destruct (height img =? 0); [apply Hl|].
  destruct (width img * height img =? 0); [apply Hl|].
  destruct flag; [|apply Hr].
  destruct (cv2_imencode_jpg ext aligned) as [buf|e]; apply Hr.
Qed.

Lemma step_fault_raises image_data flag start (w0 : world A64) e :
  step_fault ext image_data flag w0 e ->
  exists w1, process_image_body ext image_data flag start w0 = (Raise e, w1).
Proof.
  intros H. run_monad.
  destruct H as [e Hb|bs e Hb Hi|bs Hb Hi|bs img faces w1 e Hb Hi Hd Hne Hp].
  - rewrite Hb. now exists w0.
  - rewrite Hb, Hi. now exists w0.
  - rewrite Hb, Hi. now exists w0.
  - rewrite Hb, Hi, Hd.
    destruct faces as [|f0 rest]; [congruence|].
    destruct Hp as [f e Hm Ha|f a e Hm Ha Hq|f a q e Hm Ha Hq Ht
                   |f a q t e Hm Ha Hq Ht He|f a q t emb e Hm Ha Hq Ht He Hw Hh Hf Hj];
      rewrite Hm; destruct f as [[[x y] w] h].
    + rewrite Ha. now exists w1.
    + rewrite Ha, Hq. now exists w1.
    + rewrite Ha, Hq, Ht. now exists w1.
    + rewrite Ha, Hq, Ht, He. now exists w1.
    + rewrite Ha, Hq, Ht, He.
      apply Z.eqb_neq in Hw as Hw'. apply Z.eqb_neq in Hh as Hh'.
      assert (Hwh : (width img * height img =? 0) = false)
        by (apply Z.eqb_neq; nia).
      rewrite Hw', Hh', Hwh, Hf, Hj. eexists. reflexivity.
Qed.

(** The exception boundary: the call returns, the result is timed, and what
    the [try] block raises is reported under [error] and logged. *)
Lemma boundary_converts image_data flag (w : world A64) :
  exists d w' now,
    process_image ext image_data flag w = (Return d, w') /\
    (now = clock w 1%nat \/ now = clock w 2%nat) /\
    dict_get "processing_time" d
      = Some (PyFloat A32 A64 (sub A64 now (clock w 0%nat))) /\
    forall e,
      (step_fault ext image_data flag (tick w) e \/
       exists w1, process_image_body ext image_data flag (clock w 0%nat) (tick w)
                  = (Raise e, w1)) ->
      d = not_detected A32 A64 (exn_str e) (sub A64 now (clock w 0%nat)) /\
      dict_get "face_detected" d = Some (PyBool A32 A64 false) /\
      dict_get "error" d = Some (PyStr A32 A64 (exn_str e)) /\
      In ("Error processing image: " ++ exn_str e)%string (log w').
Proof.
  unfold process_image, bind, try_except.
  change (time_time w) with (Return (clock w 0%nat), tick w). cbv iota beta.
  destruct (process_image_body ext image_data flag (clock w 0%nat) (tick w))
    as [[d|e0] w1] eqn:Hbody.
  - exists d, w1, (clock w 1%nat).
    split; [reflexivity|]. split; [now left|].
    split; [exact (body_returns_elapsed _ _ _ _ _ _ Hbody)|].
    intros e [Hs|[w2 Hr]].
    + destruct (step_fault_raises _ _ (clock w 0%nat) _ _ Hs) as (w2 & Hr).
      congruence.
    + congruence.
  - unfold logger_error, time_time, ret. cbv beta.
    exists (not_detected A32 A64 (exn_str e0) (sub A64 (clock w1 0%nat) (clock w 0%nat))).
    eexists. exists (clock w1 0%nat).
    split; [reflexivity|].
    split.
    { destruct (body_clock _ _ _ _ _ _ Hbody) as [Hc|Hc]; rewrite Hc; [now left|now right]. }
    split; [reflexivity|].
    intros e He.
    assert (e = e0) as ->.
    { destruct He as [Hs|[w2 Hr]].
      - destruct (step_fault_raises _ _ (clock w 0%nat) _ _ Hs) as (w2 & Hr).
        congruence.
      - congruence. }
    repeat split; try reflexivity. simpl. now left.
Qed.

(** A fault of the detection is absorbed by [detect_faces]: it is logged
    there, the list of faces is empty, and the call answers as for a picture
    without a face. *)
Lemma detection_fault_absorbed image_data flag (w : world A64) bs img e :
  Base64.b64decode image_data = Return bs ->
  cv2_imdecode ext bs = Return (Some img) ->
  detection_fault ext img e ->
  process_image ext image_data flag w
  = (Return (not_detected A32 A64 "No face detected in image"
               (sub A64 (clock w 1%nat) (clock w 0%nat))),
     World A64 (fun n => clock w (S (S n)))
           (("Error in detect_faces: " ++ exn_str e)%string :: log w)).
Proof.
  intros Hb Hi Hfault.
  unfold process_image, bind, try_except.
  change (time_time w) with (Return (clock w 0%nat), tick w). cbv iota beta.
  run_monad. rewrite Hb, Hi.
  unfold detect_faces, try_except, bind, lift, ret, logger_error.
  destruct Hfault as [e Hg|gray e Hg Hf].
  - rewrite Hg. reflexivity.
  - rewrite Hg, Hf. reflexivity.
Qed.

(** C1. [process_image] returns a dictionary for every input, every
    collaborator and every state of the clock and the log: it never raises.
    The dictionary always holds [processing_time], a later reading of the
    clock minus the reading taken on entry.  Whenever a step other than the
    detection raises an exception [e] (the base64 or image decoding, the
    check of the decoded image, aligning, scoring, preprocessing, embedding
    or encoding; more generally whenever the [try] block raises [e]), the
    result is [face_detected = False] with [error = str(e)] and that elapsed
    time, and the fault is logged.  An exception [e] raised inside the
    detection (by the grey conversion or by the cascade) is not reported
    under [error]: [detect_faces] logs it and answers with the empty list,
    and the result is the one of a picture without a face, [error = "No face
    detected in image"], timed by the second reading of the clock. *)
Theorem process_image_catches_every_fault image_data flag (w : world A64) :
  exists d w' now,
    process_image ext image_data flag w = (Return d, w') /\
    (now = clock w 1%nat \/ now = clock w 2%nat) /\
    dict_get "processing_time" d
      = Some (PyFloat A32 A64 (sub A64 now (clock w 0%nat))) /\
    (forall e,
      (step_fault ext image_data flag (tick w) e \/
       exists w1, process_image_body ext image_data flag (clock w 0%nat) (tick w)
                  = (Raise e, w1)) ->
      d = not_detected A32 A64 (exn_str e) (sub A64 now (clock w 0%nat)) /\
      dict_get "face_detected" d = Some (PyBool A32 A64 false) /\
      dict_get "error" d = Some (PyStr A32 A64 (exn_str e)) /\
      In ("Error processing image: " ++ exn_str e)%string (log w')) /\
    (forall bs img e,
      Base64.b64decode image_data = Return bs ->
      cv2_imdecode ext bs = Return (Some img) ->
      detection_fault ext img e ->
      d = not_detected A32 A64 "No face detected in image"
            (sub A64 (clock w 1%nat) (clock w 0%nat)) /\
      dict_get "face_detected" d = Some (PyBool A32 A64 false) /\
      dict_get "error" d = Some (PyStr A32 A64 "No face detected in image") /\
      log w' = ("Error in detect_faces: " ++ exn_str e)%string :: log w).
Proof.
  destruct (boundary_converts image_data flag w) as (d & w' & now & Hrun & Hnow & Ht & Hconv).
  exists d, w', now.
  split; [exact Hrun|]. split; [exact Hnow|]. split; [exact Ht|].
  split; [exact Hconv|].
  intros bs img e Hb Hi Hfault.
  pose proof (detection_fault_absorbed image_data flag w bs img e Hb Hi Hfault) as Habs.
  rewrite Hrun in Habs. inversion Habs; subst.
  repeat split; reflexivity.
Qed.

(** ** Determinism *)

(** The boxes [detect_faces] reports do not depend on the clock or the log. *)
Lemma detect_faces_pure (img : image) :
  exists faces, forall w : world A64,
    exists w', detect_faces ext img w = (Return faces, w').
Proof.
  unfold detect_faces, try_except, bind, lift, ret, logger_error.
  destruct (cv2_cvtColor_gray ext img) as [gray|e].
  - destruct (detectMultiScale ext gray) as [faces|e].
    + exists faces. intros w. now exists w.
    + exists []. intros w. eexists. reflexivity.
  - exists []. intros w. eexists. reflexivity.
Qed.

Ltac lookup_keys :=
  intros k Hk; cbn [dict_get dict_set not_detected String.eqb Ascii.eqb Bool.eqb];
  repeat (match goal with
          | |- context [String.eqb k ?s] =>
              lazymatch s with
              | "processing_time" => rewrite Hk
              | _ => destruct (String.eqb k s); [reflexivity|]
              end
          end);
  try reflexivity.

Ltac both_raise :=
  unfold logger_error, time_time, ret; cbv beta;
  do 4 eexists; split; [reflexivity|]; split; [reflexivity|]; lookup_keys.

(** C9. Two calls of [process_image] on the same input, with the same
    detector, model and OpenCV functions, made at different times (any two
    states of the clock and of the log), both return, and their results are
    equal under every key other than [processing_time]: in particular the
    same [face_detected], [embedding], [bbox] and [quality_score]. *)
Theorem process_image_deterministic image_data flag (w1 w2 : world A64) :
  exists d1 d2 w1' w2',
    process_image ext image_data flag w1 = (Return d1, w1') /\
    process_image ext image_data flag w2 = (Return d2, w2') /\
    (forall k, String.eqb k "processing_time" = false ->
               dict_get k d1 = dict_get k d2).
Proof.
  unfold process_image, bind, try_except.
  change (time_time w1) with (Return (clock w1 0%nat), tick w1).
  change (time_time w2) with (Return (clock w2 0%nat), tick w2).
  cbv iota beta. run_monad.
  destruct (Base64.b64decode image_data) as [bs|e]; [|both_raise].
  destruct (cv2_imdecode ext bs) as [[img|]|e]; [|both_raise|both_raise].
  destruct (detect_faces_pure img) as (faces & Hd).
  destruct (Hd (tick w1)) as (u1 & H1). destruct (Hd (tick w2)) as (u2 & H2).
  rewrite H1, H2.
  destruct faces as [|f0 rest]; [both_raise|].
  destruct (py_max_area (f0 :: rest)) as [[[[x y] w] h]|e]; [|both_raise].
  destruct (align_face ext img (x, y, w, h)) as [aligned|e]; [|both_raise].
  destruct (assess_face_quality ext aligned) as [q|e]; [|both_raise].
  destruct (preprocess_face A32 aligned) as [t|e]; [|both_raise].
  destruct (get_embedding ext t) as [emb|e]; [|both_raise].
  destruct (width img =? 0); [both_raise|].
  destruct (height img =? 0); [both_raise|].
  destruct (width img * height img =? 0); [both_raise|].
  destruct flag; [|both_raise].
  destruct (cv2_imencode_jpg ext aligned) as [buf|e]; both_raise.
Qed.

End Boundary.

(** A cascade that fails: the exception's description is not what the caller
    is told. *)
Lemma process_image_detector_fault_not_described :
  let ext := failing_cascade_ext IEEE.binary32 IEEE.binary64 in
  let e := cv2_error "(-215:Assertion failed) !empty() in function 'detectMultiScale'" in
  let r := process_image ext "/9j/" false (sample_world IEEE.binary64) in
  detectMultiScale ext (sample_gray sample_image) = Raise e /\
  has_returned r = true /\
  detected (returned_dict r) = false /\
  error_of (returned_dict r) = Some "No face detected in image" /\
  error_of (returned_dict r) <> Some (exn_str e).
Proof.
  cbv zeta. split; [reflexivity|].
  split; [vm_compute; reflexivity|].
  split; [vm_compute; reflexivity|].
  split; [vm_compute; reflexivity|].
  vm_compute. discriminate.
Qed.

(** ** The quality score, in exact arithmetic *)

Section ExactReductions.
Local Open Scope R_scope.

Let E := Exact.backend.

Lemma np_sum_acc (l : list R) (a : R) :
  fold_left Rplus l a = a + fold_left Rplus l 0.
Proof.
  revert a. induction l as [|x l IH]; intros a; simpl.
  - lra.
  - rewrite (IH (a + x)), (IH (0 + x)). lra.
Qed.

Lemma np_sum_cons (x : R) (l : list R) : np_sum E (x :: l) = x + np_sum E l.
Proof.
  unfold np_sum. simpl. rewrite np_sum_acc. lra.
Qed.

Lemma np_sum_bounds (lo hi : R) (l : list R) :
  Forall (fun x => lo <= x <= hi) l ->
  INR (List.length l) * lo <= np_sum E l <= INR (List.length l) * hi.
Proof.
  induction 1 as [|x l Hx Hl IH].
  - unfold np_sum. simpl. lra.
  - rewrite np_sum_cons. change (List.length (x :: l)) with (S (List.length l)).
    rewrite S_INR. lra.
Qed.

Lemma length_pos_INR {A} (l : list A) : l <> [] -> 0 < INR (List.length l).
Proof.
  intros H. destruct l; [congruence|]. apply lt_0_INR. simpl. lia.
Qed.

Lemma np_mean_eq (l : list R) : np_mean E l = np_sum E l / INR (List.length l).
Proof.
  unfold np_mean. simpl. now rewrite <- INR_IZR_INZ.
Qed.

(** The mean of values between [lo] and [hi] lies between [lo] and [hi]. *)
Lemma np_mean_bounds (lo hi : R) (l : list R) :
  l <> [] ->
  Forall (fun x => lo <= x <= hi) l ->
  lo <= np_mean E l <= hi.
Proof.
  intros Hne Hl. rewrite np_mean_eq.
  pose proof (length_pos_INR l Hne) as Hn.
  pose proof (np_sum_bounds lo hi l Hl) as [Hlo Hhi].
  split.
  - apply Rmult_le_reg_r with (INR (List.length l)); [exact Hn|].
    unfold Rdiv. rewrite Rmult_assoc, Rinv_l by lra. lra.
  - apply Rmult_le_reg_r with (INR (List.length l)); [exact Hn|].
    unfold Rdiv. rewrite Rmult_assoc, Rinv_l by lra. lra.
Qed.

(** A variance is not negative. *)
Lemma np_var_nonneg (l : list R) : l <> [] -> 0 <= np_var E l.
Proof.
  intros Hne. unfold np_var.
  set (m := np_mean E l).
  assert (Hsq : Forall (fun x => 0 <= x <= x)
                  (map (fun x => mul E (sub E x m) (sub E x m)) l)).
  { apply Forall_forall. intros y Hy. apply in_map_iff in Hy.
    destruct Hy as (x & <- & _). simpl.
    pose proof (Rle_0_sqr (x - m)) as Hs. unfold Rsqr in Hs. lra. }
  rewrite np_mean_eq.
  assert (Hlen : 0 < INR (List.length (map (fun x => mul E (sub E x m) (sub E x m)) l))).
  { rewrite length_map. now apply length_pos_INR. }
  apply Rmult_le_reg_r with (INR (List.length (map (fun x => mul E (sub E x m) (sub E x m)) l)));
    [exact Hlen|].
  unfold Rdiv. rewrite Rmult_assoc, Rinv_l by lra. rewrite Rmult_0_l, Rmult_1_r.
  clear Hlen. induction Hsq as [|y ys Hy Hys IH].
  - unfold np_sum. simpl. lra.
  - rewrite np_sum_cons. lra.
Qed.

Lemma np_std_nonneg (l : list R) : 0 <= np_std E l.
Proof. unfold np_std. simpl. apply sqrt_pos. Qed.

(** Python's [min] on exact numbers is the minimum. *)
Lemma py_min_Rmin (a b : R) : py_min E a b = Rmin a b.
Proof.
  unfold py_min. simpl. unfold Exact.ltb, Rmin.
  destruct (Rlt_dec b a) as [H|H]; destruct (Rle_dec a b) as [H'|H']; lra.
Qed.

(** The score as a formula of the three measurements, and its range. *)
Lemma quality_of_formula (lv m sd : R) :
  quality_of E lv m sd
  = 0.5 * Rmin (lv / 1000) 1 + 0.3 * (1 - Rabs (m - 128) / 128)
    + 0.2 * Rmin (sd / 64) 1.
Proof.
  unfold quality_of. rewrite !py_min_Rmin. simpl. lra.
Qed.

Lemma quality_of_range (lv m sd : R) :
  0 <= lv -> 0 <= m <= 255 -> 0 <= sd ->
  0 <= quality_of E lv m sd <= 1.
Proof.
  intros Hlv Hm Hsd. rewrite quality_of_formula.
  assert (H1 : 0 <= Rmin (lv / 1000) 1 <= 1).
  { unfold Rmin. destruct (Rle_dec (lv / 1000) 1); lra. }
  assert (H2 : 0 <= Rmin (sd / 64) 1 <= 1).
  { unfold Rmin. destruct (Rle_dec (sd / 64) 1); lra. }
  assert (H3 : 0 <= Rabs (m - 128) <= 128).
  { split; [apply Rabs_pos|]. apply Rabs_le. lra. }
  lra.
Qed.

End ExactReductions.

Lemma concat_nonempty {A} (g : list (list A)) (h w : Z) :
  has_shape h w g -> 0 < h -> 0 < w -> List.concat g <> [].
Proof.
  intros [Hh Hw] Hhp Hwp. unfold height in Hh.
  destruct g as [|row g]; [simpl in Hh; lia|].
  apply Forall_inv in Hw.
  destruct row; [simpl in Hw; lia|]. simpl. discriminate.
Qed.

Lemma gray_values_range (gray : gray_image) :
  Forall (fun x => (0 <= x <= 255)%R) (gray_values Exact.backend gray).
Proof.
  unfold gray_values. apply Forall_forall. intros x Hx.
  apply in_map_iff in Hx. destruct Hx as (v & <- & _). simpl.
  pose proof (Byte.to_N_bounded v) as Hb.
  split; apply IZR_le; lia.
Qed.

(** C6. In exact arithmetic, for a 112 x 112 aligned face whose grey
    conversion and Laplacian are 112 x 112 grids, [assess_face_quality]
    returns
    [0.5 * min(lv / 1000, 1) + 0.3 * (1 - |m - 128| / 128) + 0.2 * min(sd / 64, 1)]
    where [lv] is the variance of the Laplacian of the grey image, [m] the
    mean and [sd] the standard deviation of the grey levels; [m] lies in
    [[0, 255]], [lv] and [sd] are not negative, and the score lies in
    [[0, 1]]. *)
Theorem assess_face_quality_formula_and_range
    (A32 : arith) (ext : externals A32 Exact.backend)
    (face : image) (gray : gray_image) (lap : list (list R)) :
  has_shape 112 112 face ->
  cv2_cvtColor_gray ext face = Return gray ->
  has_shape 112 112 gray ->
  cv2_Laplacian ext gray = Return lap ->
  has_shape 112 112 lap ->
  let lv := np_var Exact.backend (List.concat lap) in
  let m := np_mean Exact.backend (gray_values Exact.backend gray) in
  let sd := np_std Exact.backend (gray_values Exact.backend gray) in
  exists q : R,
    assess_face_quality ext face = Return q /\
    (q = 0.5 * Rmin (lv / 1000) 1 + 0.3 * (1 - Rabs (m - 128) / 128)
         + 0.2 * Rmin (sd / 64) 1)%R /\
    (0 <= lv)%R /\ (0 <= m <= 255)%R /\ (0 <= sd)%R /\
    (0 <= q <= 1)%R.
Proof.
  intros Hface Hgray Hgs Hlap Hls lv m sd.
  assert (Hlv : (0 <= lv)%R).
  { apply np_var_nonneg. apply concat_nonempty with 112 112; [exact Hls|lia|lia]. }
  assert (Hm : (0 <= m <= 255)%R).
  { apply np_mean_bounds; [|apply gray_values_range].
    unfold gray_values. intros Hnil. apply map_eq_nil in Hnil.
    revert Hnil. apply concat_nonempty with 112 112; [exact Hgs|lia|lia]. }
  assert (Hsd : (0 <= sd)%R) by apply np_std_nonneg.
  exists (quality_of Exact.backend lv m sd).
  split.
  { unfold assess_face_quality. rewrite Hgray. simpl. rewrite Hlap. reflexivity. }
  split; [apply quality_of_formula|].
  repeat split; try tauto. all: now apply quality_of_range.
Qed.

Lemma assess_face_quality_formula_and_range_witness :
  exists q : R,
    assess_face_quality (sample_ext IEEE.binary32 Exact.backend [] [])
      (repeat (repeat (x10, x80, xff) 112%nat) 112%nat) = Return q /\
    (0 <= q <= 1)%R.
Proof.
  destruct (assess_face_quality_formula_and_range IEEE.binary32
              (sample_ext IEEE.binary32 Exact.backend [] [])
              (repeat (repeat (x10, x80, xff) 112%nat) 112%nat)
              (sample_gray (repeat (repeat (x10, x80, xff) 112%nat) 112%nat))
              (map (map (fun _ => 0%R))
                   (sample_gray (repeat (repeat (x10, x80, xff) 112%nat) 112%nat)))
              (repeat_has_shape (x10, x80, xff) 112 112 ltac:(lia) ltac:(lia))
              eq_refl
              (map_has_shape _ _ 112 112
                 (repeat_has_shape (x10, x80, xff) 112 112 ltac:(lia) ltac:(lia)))
              eq_refl
              (map_has_shape _ _ 112 112
                 (map_has_shape _ _ 112 112
                    (repeat_has_shape (x10, x80, xff) 112 112 ltac:(lia) ltac:(lia)))))
    as (q & Hq & _ & _ & _ & _ & Hr).
  exists q. split; [exact Hq|exact Hr].
Defined.

(** ** Normalisation of the embedding, in binary32 *)

Section ZeroNorm.

Let F := IEEE.binary32.

Lemma div_by_zero_not_finite (x z : spec_float) :
  IEEE.is_zero z = true ->
  IEEE.is_nan (div F x z) = true \/ IEEE.is_inf (div F x z) = true.
Proof.
  destruct z as [s| | |]; try discriminate. intros _.
  destruct x as [sx|sx| |sx mx ex]; simpl; auto.
Qed.

Lemma zero_div_zero_nan (x z : spec_float) :
  IEEE.is_zero x = true -> IEEE.is_zero z = true -> div F x z = S754_nan.
Proof.
  destruct z as [s| | |]; try discriminate.
  destruct x as [sx| | |]; try discriminate. reflexivity.
Qed.

Lemma sum_of_zeros (l : list spec_float) (acc : spec_float) :
  IEEE.is_zero acc = true ->
  Forall (fun x => IEEE.is_zero x = true) l ->
  IEEE.is_zero (fold_left (add F) l acc) = true.
Proof.
  intros Hacc Hl. revert acc Hacc.
  induction Hl as [|x l Hx Hl IH]; intros acc Hacc; simpl; [exact Hacc|].
  apply IH. destruct acc as [sa| | |]; try discriminate.
  destruct x as [sx| | |]; try discriminate.
  destruct sa, sx; reflexivity.
Qed.

(** The norm of an all-zero row is zero. *)
Lemma l2norm_of_zeros (raw : list spec_float) :
  Forall (fun x => IEEE.is_zero x = true) raw ->
  IEEE.is_zero (l2norm F raw) = true.
Proof.
  intros Hz. unfold l2norm, np_sum.
  assert (Hs : IEEE.is_zero (fold_left (add F) (map (fun x => mul F x x) raw) (of_int F 0)) = true).
  { apply sum_of_zeros; [reflexivity|].
    apply Forall_forall. intros y Hy. apply in_map_iff in Hy.
    destruct Hy as (x & <- & Hx). rewrite Forall_forall in Hz.
    specialize (Hz x Hx). destruct x; try discriminate. reflexivity. }
  destruct (fold_left (add F) (map (fun x => mul F x x) raw) (of_int F 0));
    try discriminate. reflexivity.
Qed.

Variable A64 : arith.
Variable ext : externals IEEE.binary32 A64.

(** C3, as the code behaves.  When the model's output row has binary32 norm zero,
    [get_embedding] does not raise: it returns the row divided component by
    component by that zero, where every component is NaN or an infinity.
    For the all-zero row the norm is zero and every component of the result
    is NaN. *)
Theorem get_embedding_zero_norm_divides_silently
    (t : tensor IEEE.binary32) (raw : list spec_float) (rest : list (list spec_float)) :
  session_run ext t = Return (raw :: rest) ->
  (IEEE.is_zero (l2norm IEEE.binary32 raw) = true ->
     exists emb,
       get_embedding ext t = Return emb /\
       emb = map (fun x => div IEEE.binary32 x (l2norm IEEE.binary32 raw)) raw /\
       Forall (fun y => IEEE.is_nan y = true \/ IEEE.is_inf y = true) emb) /\
  (Forall (fun x => IEEE.is_zero x = true) raw ->
     IEEE.is_zero (l2norm IEEE.binary32 raw) = true /\
     get_embedding ext t = Return (map (fun _ => S754_nan) raw)).
Proof.
  intros Hrun.
  assert (Hget : get_embedding ext t
                 = Return (map (fun x => div F x (l2norm F raw)) raw)).
  { unfold get_embedding. rewrite Hrun. reflexivity. }
  split.
  - intros Hz. eexists. split; [exact Hget|]. split; [reflexivity|].
    apply Forall_forall. intros y Hy. apply in_map_iff in Hy.
    destruct Hy as (x & <- & _). now apply div_by_zero_not_finite.
  - intros Hall. pose proof (l2norm_of_zeros raw Hall) as Hz.
    split; [exact Hz|]. rewrite Hget. f_equal.
    apply map_ext_in. intros x Hx. rewrite Forall_forall in Hall.
    apply zero_div_zero_nan; auto.
Qed.

End ZeroNorm.

Lemma get_embedding_zero_norm_divides_silently_witness :
  get_embedding (sample_ext IEEE.binary32 IEEE.binary64 [] (repeat (S754_zero false) 128)) []
  = Return (repeat S754_nan 128).
Proof.
  destruct (get_embedding_zero_norm_divides_silently IEEE.binary64
              (sample_ext IEEE.binary32 IEEE.binary64 [] (repeat (S754_zero false) 128))
              [] (repeat (S754_zero false) 128) [] eq_refl) as [_ Hall].
  destruct Hall as [_ Hget].
  - apply Forall_forall. intros x Hx. apply repeat_spec in Hx. now subst x.
  - rewrite Hget. now rewrite map_repeat.
Defined.

(** C3, the degenerate output: on the all-zero output of 128 components
    [get_embedding] raises nothing and returns 128 NaNs. *)
Lemma get_embedding_zero_output_does_not_raise :
  get_embedding (sample_ext IEEE.binary32 IEEE.binary64 [] (repeat (S754_zero false) 128)) []
    = Return (repeat S754_nan 128) /\
  ~ exists e,
      get_embedding (sample_ext IEEE.binary32 IEEE.binary64 [] (repeat (S754_zero false) 128)) []
        = Raise e.
Proof.
  assert (H : get_embedding
                (sample_ext IEEE.binary32 IEEE.binary64 [] (repeat (S754_zero false) 128)) []
              = Return (repeat S754_nan 128)) by (vm_compute; reflexivity).
  split; [exact H|]. intros [e He]. rewrite H in He. discriminate.
Qed.

(** ** Normalisation of the embedding, in exact arithmetic *)

Lemma exact_padding (w h : Z) :
  0 <= Z.min w h ->
  padding_of Exact.backend w h = Return (Z.min w h / 5).
Proof.
  intros Hm. unfold padding_of. simpl. f_equal.
  set (m := Z.min w h) in *.
  assert (Hx : (0 <= 2 / 10 * IZR m)%R).
  { apply Rmult_le_pos; [lra|]. now apply IZR_le. }
  unfold Exact.trunc. destruct (Rle_dec 0 (2 / 10 * IZR m)) as [_|Hn]; [|contradiction].
  symmetry. apply Int_part_spec.
  pose proof (Z.mul_div_le m 5 ltac:(lia)) as Hlo.
  pose proof (Z.mul_succ_div_gt m 5 ltac:(lia)) as Hhi.
  apply IZR_le in Hlo. apply IZR_lt in Hhi.
  rewrite mult_IZR in Hlo. rewrite mult_IZR, succ_IZR in Hhi.
  lra.
Qed.

Lemma py_max_area_in (faces : list rect) (f : rect) :
  py_max_area faces = Return f -> In f faces.
Proof.
  destruct faces as [|f0 rest]; [discriminate|]. cbn [py_max_area]. intros Hf.
  injection Hf as <-.
  destruct (max_from_split rest f0) as (pre & post & Heq & _).
  rewrite Heq. apply in_or_app. right. now left.
Qed.

Lemma py_max_area_returns (faces : list rect) :
  faces <> [] -> exists f, py_max_area faces = Return f.
Proof.
  destruct faces as [|f0 rest]; [congruence|]. intros _. eexists. reflexivity.
Qed.

Lemma preprocess_face_returns (A : arith) (face : image) :
  is_empty face = false -> exists t, preprocess_face A face = Return t.
Proof.
  intros Hne. unfold preprocess_face, cv2_cvtColor_RGB. rewrite Hne.
  eexists. reflexivity.
Qed.

Section ExactNorm.
Local Open Scope R_scope.

Lemma sum_squares_nonneg (v : list R) :
  0 <= np_sum Exact.backend (map (fun x => mul Exact.backend x x) v).
Proof.
  induction v as [|x v IH].
  - unfold np_sum. simpl. lra.
  - cbn [map]. rewrite np_sum_cons. cbn [mul Exact.backend] in *.
    pose proof (Rle_0_sqr x) as Hs. unfold Rsqr in Hs. lra.
Qed.

Lemma sum_squares_scaled (v : list R) (n : R) :
  n <> 0 ->
  np_sum Exact.backend
    (map (fun y => mul Exact.backend y y) (map (fun x => div Exact.backend x n) v))
  = np_sum Exact.backend (map (fun x => mul Exact.backend x x) v) / (n * n).
Proof.
  intros Hn. induction v as [|x v IH].
  - unfold np_sum. simpl. lra.
  - cbn [map]. rewrite !np_sum_cons, IH.
    set (S := np_sum Exact.backend (map (fun x => mul Exact.backend x x) v)).
    change (x / n * (x / n) + S / (n * n) = (x * x + S) / (n * n)).
    field. exact Hn.
Qed.

(** A row divided by its non-zero norm has norm 1. *)
Lemma l2_normalized_unit (v : list R) :
  l2norm Exact.backend v <> 0 ->
  l2norm Exact.backend
    (map (fun x => div Exact.backend x (l2norm Exact.backend v)) v) = 1.
Proof.
  intros Hn. unfold l2norm at 1. rewrite sum_squares_scaled by exact Hn.
  assert (Hsq : l2norm Exact.backend v * l2norm Exact.backend v
                = np_sum Exact.backend (map (fun x => mul Exact.backend x x) v)).
  { unfold l2norm. cbn [sqrt Exact.backend]. apply sqrt_sqrt. apply sum_squares_nonneg. }
  rewrite Hsq. cbn [sqrt Exact.backend].
  assert (Hpos : np_sum Exact.backend (map (fun x => mul Exact.backend x x) v) <> 0).
  { intros H0. apply Hn. unfold l2norm. rewrite H0. cbn [sqrt Exact.backend]. apply sqrt_0. }
  unfold Rdiv. rewrite Rinv_r by exact Hpos. apply sqrt_1.
Qed.

End ExactNorm.

Lemma detect_faces_reports (A32 A64 : arith) (ext : externals A32 A64)
    (img : image) (gray : gray_image) (faces : list rect) (w : world A64) :
  cv2_cvtColor_gray ext img = Return gray ->
  detectMultiScale ext gray = Return faces ->
  detect_faces ext img w = (Return faces, w).
Proof.
  intros Hg Hf. unfold detect_faces, try_except, bind, lift, ret.
  now rewrite Hg, Hf.
Qed.

(** C2, in exact arithmetic.  When the input decodes to an
    [H x W] image, the detector reports at least one box and every box lies
    inside the image, no collaborator raises, and the model's output row has
    a non-zero norm, [process_image] returns [face_detected = True] with the
    row divided by its norm as [embedding], whose L2 norm is exactly 1. *)
Theorem process_image_embedding_unit_norm_exact
    (ext : externals Exact.backend Exact.backend)
    (image_data : string) (flag : bool) (w : world Exact.backend)
    (bs : bytes) (img : image) (W H : Z) (gray : gray_image) (faces : list rect) :
  resize_contract ext ->
  (forall a, exists g, cv2_cvtColor_gray ext a = Return g) ->
  (forall g, exists l, cv2_Laplacian ext g = Return l) ->
  (forall t, exists raw,
     session_run ext t = Return [raw] /\ l2norm Exact.backend raw <> 0%R) ->
  (forall a, exists buf, cv2_imencode_jpg ext a = Return buf) ->
  Base64.b64decode image_data = Return bs ->
  cv2_imdecode ext bs = Return (Some img) ->
  has_shape H W img ->
  cv2_cvtColor_gray ext img = Return gray ->
  detectMultiScale ext gray = Return faces ->
  faces <> [] ->
  Forall (in_bounds W H) faces ->
  exists d w' raw,
    process_image ext image_data flag w = (Return d, w') /\
    dict_get "face_detected" d = Some (PyBool Exact.backend Exact.backend true) /\
    dict_get "embedding" d
      = Some (PyFloats32 Exact.backend Exact.backend
                (map (fun x => (x / l2norm Exact.backend raw)%R) raw)) /\
    l2norm Exact.backend (map (fun x => (x / l2norm Exact.backend raw)%R) raw) = 1%R.
Proof.
  intros Hresize Hgray Hlap Hrun Henc Hb Hi Hshape Hg Hf Hne Hin.
  destruct (py_max_area_returns faces Hne) as (f & Hmax).
  assert (Hbox : in_bounds W H f).
  { rewrite Forall_forall in Hin. apply Hin. now apply py_max_area_in. }
  assert (Hpad : padding_of Exact.backend (rect_w f) (rect_h f)
                 = Return (Z.min (rect_w f) (rect_h f) / 5)).
  { apply exact_padding. destruct Hbox as (Hw & Hh & _). lia. }
  destruct (align_face_returns _ _ ext img W H f Hresize Hshape Hbox Hpad)
    as (aligned & Hal & _ & Hsh).
  destruct (image_dims img W H f Hshape Hbox) as (HH & HW & Hwid & Hhei).
  assert (Hq : exists q, assess_face_quality ext aligned = Return q).
  { unfold assess_face_quality. destruct (Hgray aligned) as (g & ->).
    simpl. destruct (Hlap g) as (l & ->). eexists. reflexivity. }
  destruct Hq as (q & Hq).
  destruct (preprocess_face_returns Exact.backend aligned) as (t & Ht).
  { apply has_shape_nonempty with 112 112; [exact Hsh|lia|lia]. }
  destruct (Hrun t) as (raw & Hraw & Hnorm).
  assert (Hemb : get_embedding ext t
                 = Return (map (fun x => (x / l2norm Exact.backend raw)%R) raw)).
  { unfold get_embedding. rewrite Hraw. reflexivity. }
  destruct (Henc aligned) as (buf & Hbuf).
  assert (Hw0 : (width img =? 0) = false) by (apply Z.eqb_neq; lia).
  assert (Hh0 : (height img =? 0) = false) by (apply Z.eqb_neq; lia).
  assert (Hwh : (width img * height img =? 0) = false) by (apply Z.eqb_neq; nia).
  unfold process_image, bind, try_except.
  change (time_time w) with (Return (clock w 0%nat), tick w). cbv iota beta.
  unfold process_image_body, bind, lift, raise, ret, time_time, py_truediv.
  rewrite Hb, Hi, (detect_faces_reports _ _ ext img gray faces (tick w) Hg Hf).
  destruct faces as [|f0 rest]; [congruence|].
  rewrite Hmax. destruct f as [[[x y] bw] bh].
  rewrite Hal, Hq, Ht, Hemb, Hw0, Hh0, Hwh.
  destruct flag.
  - rewrite Hbuf. eexists. eexists. exists raw.
    split; [reflexivity|]. split; [reflexivity|]. split; [reflexivity|].
    now apply l2_normalized_unit.
  - eexists. eexists. exists raw.
    split; [reflexivity|]. split; [reflexivity|]. split; [reflexivity|].
    now apply l2_normalized_unit.
Qed.

Lemma norm_3_4_nonzero : l2norm Exact.backend [3%R; 4%R] <> 0%R.
Proof.
  unfold l2norm, np_sum. cbn [map fold_left]. cbn [sqrt mul add of_int Exact.backend].
  intros H0. apply sqrt_eq_0 in H0; lra.
Qed.

Lemma process_image_embedding_unit_norm_exact_witness :
  exists d w' raw,
    process_image
      (sample_ext Exact.backend Exact.backend [(50, 50, 100, 100)] [3%R; 4%R])
      "/9j/" false (sample_world Exact.backend) = (Return d, w') /\
    dict_get "embedding" d
      = Some (PyFloats32 Exact.backend Exact.backend
                (map (fun x => (x / l2norm Exact.backend raw)%R) raw)) /\
    l2norm Exact.backend (map (fun x => (x / l2norm Exact.backend raw)%R) raw) = 1%R.
Proof.
  destruct (process_image_embedding_unit_norm_exact
              (sample_ext Exact.backend Exact.backend [(50, 50, 100, 100)] [3%R; 4%R])
              "/9j/" false (sample_world Exact.backend)
              [xff; xd8; xff] sample_image 200 200 (sample_gray sample_image)
              [(50, 50, 100, 100)])
    as (d & w' & raw & Hrun & _ & Hemb & Hnorm).
  - apply sample_resize_contract.
  - intros a. eexists. reflexivity.
  - intros g. eexists. reflexivity.
  - intros t. exists [3%R; 4%R]. split; [reflexivity|apply norm_3_4_nonzero].
  - intros a. eexists. reflexivity.
  - reflexivity.
  - reflexivity.
  - apply sample_image_shape.
  - reflexivity.
  - reflexivity.
  - discriminate.
  - constructor; [apply sample_box_in_bounds|constructor].
  - exists d, w', raw. split; [exact Hrun|]. split; [exact Hemb|exact Hnorm].
Defined.

(** C2, in binary32, does not hold for every non-zero output: the image
    decodes, one face is detected
    and the model's output is not zero ([2^100] followed by zeros), but the
    squares overflow, the norm is infinite, and the embedding returned is the
    zero vector, whose norm is not within [1e-5] of 1. *)
Lemma process_image_overflowing_output_not_unit :
  let r := process_image
             (sample_ext IEEE.binary32 IEEE.binary64 [(50, 50, 100, 100)] overflowing_row)
             "/9j/" false (sample_world IEEE.binary64) in
  has_returned r = true /\
  detected (returned_dict r) = true /\
  embedding_of (returned_dict r) = repeat (S754_zero false) 128 /\
  existsb (fun x => negb (IEEE.is_zero x)) overflowing_row = true /\
  l2norm IEEE.binary32 overflowing_row = S754_infinity false /\
  unit_norm_within_1e5 (embedding_of (returned_dict r)) = false.
Proof.
  cbv zeta. repeat split; vm_compute; reflexivity.
Qed.

(** ** Base64 decoding and data URIs *)

(** Bytes already written stay in front of whatever the rest decodes to. *)
Lemma a2b_loop_written (s : string) :
  forall (st : Base64.state) (pre bs : bytes),
    Base64.a2b_loop s st = Return bs ->
    Base64.a2b_loop s
      (Base64.State (Base64.quad_pos st) (Base64.leftchar st) (Base64.pads st)
                    (Base64.written st ++ pre))
    = Return (rev pre ++ bs).
Proof.
  induction s as [|c s IH]; intros st pre bs.
  - cbn [Base64.a2b_loop]. unfold Base64.at_end. cbn [Base64.quad_pos Base64.written].
    destruct (Base64.quad_pos st =? 0)%N.
    + intros H. injection H as <-. now rewrite rev_app_distr.
    + destruct (Base64.quad_pos st =? 1)%N; discriminate.
  - cbn [Base64.a2b_loop Base64.quad_pos Base64.pads Base64.written Base64.leftchar].
    destruct (Ascii.eqb c "=").
    + destruct (2 <=? Base64.quad_pos st)%N.
      * destruct (4 <=? Base64.quad_pos st + (Base64.pads st + 1))%N.
        -- intros H. injection H as <-. now rewrite rev_app_distr.
        -- intros H. apply (IH _ pre) in H. exact H.
      * apply IH.
    + destruct (Base64.a2b c) as [v|]; [|apply IH].
      intros H. apply (IH _ pre) in H.
      unfold Base64.feed in *.
      cbn [Base64.quad_pos Base64.pads Base64.written Base64.leftchar] in *.
      destruct (Base64.quad_pos st) as [|[[p|p|]|[p|p|]|]]; exact H.
Qed.

Lemma is_ascii_app (a b : string) :
  Base64.is_ascii (a ++ b) = Base64.is_ascii a && Base64.is_ascii b.
Proof.
  induction a as [|c a IH]; simpl; [reflexivity|].
  now rewrite IH, andb_assoc.
Qed.

(** C4, on the code: [b64decode] is given [image_data] as it is.  With the
    prefix of a JPEG data URI in front of a payload that decodes to [bs],
    the bytes handed to the image decoder are 15 bytes of the prefix's
    letters followed by [bs], never [bs] itself. *)
Theorem b64decode_keeps_data_uri_prefix (payload : string) (bs : bytes) :
  Base64.b64decode payload = Return bs ->
  Base64.b64decode (data_uri_prefix ++ payload) = Return (data_uri_junk ++ bs) /\
  data_uri_junk ++ bs <> bs.
Proof.
  unfold Base64.b64decode. rewrite is_ascii_app.
  change (Base64.is_ascii data_uri_prefix) with true. cbn [andb].
  destruct (Base64.is_ascii payload); [|discriminate].
  intros H. split.
  - change (Base64.a2b_loop (data_uri_prefix ++ payload) Base64.start)
      with (Base64.a2b_loop payload
              (Base64.State 0 0 0 ([] ++ rev data_uri_junk))).
    apply (a2b_loop_written payload Base64.start (rev data_uri_junk) bs) in H.
    cbn [Base64.start Base64.quad_pos Base64.leftchar Base64.pads Base64.written] in H.
    rewrite H. now rewrite rev_involutive.
  - intros Heq. apply (f_equal (@List.length byte)) in Heq.
    rewrite length_app in Heq. simpl in Heq. lia.
Qed.

Lemma b64decode_keeps_data_uri_prefix_witness :
  Base64.b64decode "data:image/jpeg;base64,/9j/"
  = Return (data_uri_junk ++ [xff; xd8; xff]).
Proof.
  exact (proj1 (b64decode_keeps_data_uri_prefix "/9j/" [xff; xd8; xff] eq_refl)).
Defined.

(** With a decoder that recognises a JPEG by its signature, the bare payload
    is processed and the same payload behind the data-URI prefix is reported
    as undecodable. *)
Lemma process_image_data_uri_differs :
  let ext := with_imdecode
               (sample_ext IEEE.binary32 IEEE.binary64 [(50, 50, 100, 100)]
                           [of_int IEEE.binary32 3; of_int IEEE.binary32 4])
               signature_imdecode in
  let bare := process_image ext "/9j/" false (sample_world IEEE.binary64) in
  let prefixed :=
    process_image ext "data:image/jpeg;base64,/9j/" false (sample_world IEEE.binary64) in
  detected (returned_dict bare) = true /\
  has_returned prefixed = true /\
  detected (returned_dict prefixed) = false /\
  error_of (returned_dict prefixed) = Some "Failed to decode image".
Proof.
  cbv zeta. repeat split; vm_compute; reflexivity.
Qed.

(** ** Base64: what is encoded decodes back *)

Ltac euclid := zify; Z.to_euclidean_division_equations; lia.

Lemma b2a_code (v : N) :
  (v < 64)%N ->
  N_of_ascii (Base64.b2a v)
  = (if v <? 26 then v + 65
     else if v <? 52 then v + 71
     else if v <? 62 then v - 4
     else if v =? 62 then 43 else 47)%N.
Proof.
  intros Hv. unfold Base64.b2a. apply N_ascii_embedding.
  destruct (N.ltb_spec v 26); [lia|].
  destruct (N.ltb_spec v 52); [lia|].
  destruct (N.ltb_spec v 62); [lia|].
  destruct (N.eqb_spec v 62); lia.
Qed.

Ltac b2a_cases v :=
  destruct (N.ltb_spec v 26);
  [|destruct (N.ltb_spec v 52);
    [|destruct (N.ltb_spec v 62);
      [|destruct (N.eqb_spec v 62)]]].

(** The two tables of [binascii] are inverse to each other. *)
Lemma a2b_b2a (v : N) : (v < 64)%N -> Base64.a2b (Base64.b2a v) = Some v.
Proof.
  intros Hv. unfold Base64.a2b. rewrite (b2a_code v Hv). cbv zeta.
  b2a_cases v.
  - replace ((65 <=? v + 65) && (v + 65 <=? 90))%N with true
      by (symmetry; apply andb_true_intro; split; apply N.leb_le; lia).
    f_equal. lia.
  - replace ((65 <=? v + 71) && (v + 71 <=? 90))%N with false
      by (symmetry; apply andb_false_iff; right; apply N.leb_gt; lia).
    replace ((97 <=? v + 71) && (v + 71 <=? 122))%N with true
      by (symmetry; apply andb_true_intro; split; apply N.leb_le; lia).
    f_equal. lia.
  - replace ((65 <=? v - 4) && (v - 4 <=? 90))%N with false
      by (symmetry; apply andb_false_iff; left; apply N.leb_gt; lia).
    replace ((97 <=? v - 4) && (v - 4 <=? 122))%N with false
      by (symmetry; apply andb_false_iff; left; apply N.leb_gt; lia).
    replace ((48 <=? v - 4) && (v - 4 <=? 57))%N with true
      by (symmetry; apply andb_true_intro; split; apply N.leb_le; lia).
    f_equal. lia.
  - subst v. reflexivity.
  - assert (v = 63%N) as -> by lia. reflexivity.
Qed.

Lemma b2a_not_pad (v : N) : (v < 64)%N -> Ascii.eqb (Base64.b2a v) "=" = false.
Proof.
  intros Hv. apply Ascii.eqb_neq. intros Heq.
  apply (f_equal N_of_ascii) in Heq. rewrite (b2a_code v Hv) in Heq.
  change (N_of_ascii "=") with 61%N in Heq.
  revert Heq. b2a_cases v; lia.
Qed.

Lemma b2a_is_ascii (v : N) : (v < 64)%N -> (N_of_ascii (Base64.b2a v) <? 128)%N = true.
Proof.
  intros Hv. rewrite (b2a_code v Hv). apply N.ltb_lt.
  b2a_cases v; lia.
Qed.

Lemma land_63 (x : N) : N.land x 63 = (x mod 64)%N.
Proof. exact (N.land_ones x 6). Qed.

Lemma land_15 (x : N) : N.land x 15 = (x mod 16)%N.
Proof. exact (N.land_ones x 4). Qed.

Lemma land_3 (x : N) : N.land x 3 = (x mod 4)%N.
Proof. exact (N.land_ones x 2). Qed.

(** Bits set below position [k] and bits set from [k] on add up to their
    disjunction. *)
Lemma lor_add (x b k : N) :
  (x mod 2 ^ k = 0)%N -> (b < 2 ^ k)%N -> N.lor x b = (x + b)%N.
Proof.
  intros Hx Hb.
  assert (Hd : N.land x b = 0%N).
  { rewrite <- (N.mod_small b (2 ^ k)) by exact Hb.
    rewrite <- N.land_ones, (N.land_comm b), N.land_assoc, N.land_ones, Hx.
    apply N.land_0_l. }
  now rewrite <- (N.lxor_lor _ _ Hd), (N.add_nocarry_lxor _ _ Hd).
Qed.

Lemma to_N_lt (b : byte) : (Byte.to_N b < 256)%N.
Proof. pose proof (Byte.to_N_bounded b). lia. Qed.

Lemma byte_of_to_N (b : byte) : byte_of_N (Byte.to_N b) = b.
Proof.
  unfold byte_of_N. rewrite N.mod_small by apply to_N_lt.
  now rewrite Byte.of_to_N.
Qed.

(** The 24 bits [n] of three bytes, cut into four sextets and put together
    again the way the decoder does it. *)
Section Quad.
Variables a b c n : N.
Hypothesis Ha : (a < 256)%N.
Hypothesis Hb : (b < 256)%N.
Hypothesis Hc : (c < 256)%N.
Hypothesis Hn : n = (a * 65536 + b * 256 + c)%N.

Let v0 := N.land (N.shiftr n 18) 63.
Let v1 := N.land (N.shiftr n 12) 63.
Let v2 := N.land (N.shiftr n 6) 63.
Let v3 := N.land n 63.

Lemma quad_first : N.lor (N.shiftl v0 2) (N.shiftr v1 4) = a.
Proof.
  unfold v0, v1. rewrite !land_63, !N.shiftr_div_pow2, N.shiftl_mul_pow2.
  change (2 ^ 18)%N with 262144%N. change (2 ^ 12)%N with 4096%N.
  change (2 ^ 4)%N with 16%N. change (2 ^ 2)%N with 4%N.
  rewrite (lor_add _ _ 2); change (2 ^ 2)%N with 4%N; subst n; euclid.
Qed.

Lemma quad_second : N.lor (N.shiftl (N.land v1 15) 4) (N.shiftr v2 2) = b.
Proof.
  unfold v1, v2. rewrite !land_63, land_15, !N.shiftr_div_pow2, N.shiftl_mul_pow2.
  change (2 ^ 12)%N with 4096%N. change (2 ^ 6)%N with 64%N.
  change (2 ^ 4)%N with 16%N. change (2 ^ 2)%N with 4%N.
  rewrite (lor_add _ _ 4); change (2 ^ 4)%N with 16%N; subst n; euclid.
Qed.

Lemma quad_third : N.lor (N.shiftl (N.land v2 3) 6) v3 = c.
Proof.
  unfold v2, v3. rewrite !land_63, land_3, !N.shiftr_div_pow2, N.shiftl_mul_pow2.
  change (2 ^ 6)%N with 64%N.
  rewrite (lor_add _ _ 6); change (2 ^ 6)%N with 64%N; subst n; euclid.
Qed.

End Quad.

(** The bits [b64encode] works on. *)
Lemma pack_three (a b c : N) :
  (a < 256)%N -> (b < 256)%N -> (c < 256)%N ->
  N.lor (N.lor (N.shiftl a 16) (N.shiftl b 8)) c = (a * 65536 + b * 256 + c)%N.
Proof.
  intros Ha Hb Hc. rewrite !N.shiftl_mul_pow2.
  change (2 ^ 16)%N with 65536%N. change (2 ^ 8)%N with 256%N.
  rewrite (lor_add (a * 65536) (b * 256) 16);
    [|change (2 ^ 16)%N with 65536%N; euclid|change (2 ^ 16)%N with 65536%N; lia].
  rewrite (lor_add _ c 8);
    [reflexivity|change (2 ^ 8)%N with 256%N; euclid|exact Hc].
Qed.

(** One character of the encoder's output feeds its sextet to the decoder. *)
Lemma a2b_loop_sextet (v : N) (s : string) (st : Base64.state) :
  Base64.a2b_loop (Base64.sextet v ++ s) st
  = Base64.a2b_loop s (Base64.feed st (N.land v 63)).
Proof.
  assert (Hv : (N.land v 63 < 64)%N) by (rewrite land_63; apply N.mod_lt; lia).
  unfold Base64.sextet. cbn [String.append Base64.a2b_loop].
  now rewrite (b2a_not_pad _ Hv), (a2b_b2a _ Hv).
Qed.

Lemma list_ind3 {A} (P : list A -> Prop) :
  P [] -> (forall a, P [a]) -> (forall a b, P [a; b]) ->
  (forall a b c l, P l -> P (a :: b :: c :: l)) ->
  forall l, P l.
Proof.
  intros H0 H1 H2 H3.
  assert (Hall : forall l, P l /\ (forall a, P (a :: l)) /\ (forall a b, P (a :: b :: l))).
  { induction l as [|x l (IH0 & IH1 & IH2)].
    - repeat split; auto.
    - repeat split; auto. }
  intros l. apply Hall.
Qed.

Lemma b64encode_three (b0 b1 b2 : byte) (rest : bytes) :
  Base64.b64encode (b0 :: b1 :: b2 :: rest)
  = (let n := N.lor (N.lor (N.shiftl (Byte.to_N b0) 16) (N.shiftl (Byte.to_N b1) 8))
                    (Byte.to_N b2) in
     Base64.sextet (N.shiftr n 18) ++ Base64.sextet (N.shiftr n 12)
       ++ Base64.sextet (N.shiftr n 6) ++ Base64.sextet n ++ Base64.b64encode rest)%string.
Proof. reflexivity. Qed.

(** Decoding from a quad boundary: the bytes come back in order, after the
    ones already written. *)
Lemma a2b_loop_b64encode (bs : bytes) :
  forall acc : bytes,
    Base64.a2b_loop (Base64.b64encode bs) (Base64.State 0 0 0 acc)
    = Return (rev acc ++ bs).
Proof.
  induction bs as [|b0|b0 b1|b0 b1 b2 rest IH] using list_ind3; intros acc.
  - cbn. now rewrite app_nil_r.
  - cbn [Base64.b64encode]. cbv zeta.
    rewrite !a2b_loop_sextet.
    cbn [Base64.feed Base64.quad_pos Base64.leftchar Base64.written Base64.pads].
    cbn [Base64.a2b_loop Base64.quad_pos Base64.leftchar Base64.written Base64.pads
         Ascii.eqb Bool.eqb N.leb N.compare N.add Pos.compare Pos.compare_cont Pos.add
         Pos.succ].
    rewrite (quad_first (Byte.to_N b0) 0 0 (N.shiftl (Byte.to_N b0) 16));
      [|apply to_N_lt|lia|lia|rewrite N.shiftl_mul_pow2; change (2 ^ 16)%N with 65536%N; lia].
    rewrite byte_of_to_N. cbn [rev]. rewrite <- ?app_assoc. reflexivity.
  - cbn [Base64.b64encode]. cbv zeta.
    rewrite !a2b_loop_sextet.
    cbn [Base64.feed Base64.quad_pos Base64.leftchar Base64.written Base64.pads].
    cbn [Base64.a2b_loop Base64.quad_pos Base64.leftchar Base64.written Base64.pads
         Ascii.eqb Bool.eqb N.leb N.compare N.add Pos.compare Pos.compare_cont Pos.add
         Pos.succ].
    set (n := N.lor (N.shiftl (Byte.to_N b0) 16) (N.shiftl (Byte.to_N b1) 8)).
    assert (Hn : n = (Byte.to_N b0 * 65536 + Byte.to_N b1 * 256 + 0)%N).
    { unfold n. rewrite <- (pack_three _ _ 0 (to_N_lt b0) (to_N_lt b1)) by lia.
      now rewrite N.lor_0_r. }
    rewrite (quad_first (Byte.to_N b0) (Byte.to_N b1) 0 n
               (to_N_lt b0) (to_N_lt b1) ltac:(lia) Hn).
    rewrite (quad_second (Byte.to_N b0) (Byte.to_N b1) 0 n
               (to_N_lt b0) (to_N_lt b1) ltac:(lia) Hn).
    rewrite !byte_of_to_N. cbn [rev]. rewrite <- ?app_assoc. reflexivity.
  - rewrite b64encode_three. cbv zeta.
    rewrite !a2b_loop_sextet.
    cbn [Base64.feed Base64.quad_pos Base64.leftchar Base64.written Base64.pads].
    set (n := N.lor (N.lor (N.shiftl (Byte.to_N b0) 16) (N.shiftl (Byte.to_N b1) 8))
                    (Byte.to_N b2)).
    assert (Hn : n = (Byte.to_N b0 * 65536 + Byte.to_N b1 * 256 + Byte.to_N b2)%N)
      by (apply pack_three; apply to_N_lt).
    rewrite (quad_first _ _ _ n (to_N_lt b0) (to_N_lt b1) (to_N_lt b2) Hn).
    rewrite (quad_second _ _ _ n (to_N_lt b0) (to_N_lt b1) (to_N_lt b2) Hn).
    rewrite (quad_third _ _ _ n (to_N_lt b0) (to_N_lt b1) (to_N_lt b2) Hn).
    rewrite !byte_of_to_N, IH. cbn [rev]. rewrite <- ?app_assoc. reflexivity.
Qed.

Lemma is_ascii_sextet (v : N) (s : string) :
  Base64.is_ascii (Base64.sextet v ++ s) = Base64.is_ascii s.
Proof.
  unfold Base64.sextet. cbn [String.append Base64.is_ascii].
  rewrite b2a_is_ascii; [reflexivity|].
  rewrite land_63. apply N.mod_lt. lia.
Qed.

Lemma is_ascii_b64encode (bs : bytes) : Base64.is_ascii (Base64.b64encode bs) = true.
Proof.
  induction bs as [|b0|b0 b1|b0 b1 b2 rest IH] using list_ind3.
  - reflexivity.
  - cbn [Base64.b64encode]. cbv zeta. now rewrite !is_ascii_sextet.
  - cbn [Base64.b64encode]. cbv zeta. now rewrite !is_ascii_sextet.
  - rewrite b64encode_three. cbv zeta. now rewrite !is_ascii_sextet.
Qed.

(** [base64.b64decode(base64.b64encode(bs).decode('utf-8'))] is [bs]. *)
Lemma b64decode_b64encode (bs : bytes) :
  Base64.b64decode (Base64.b64encode bs) = Return bs.
Proof.
  unfold Base64.b64decode. rewrite is_ascii_b64encode.
  exact (a2b_loop_b64encode bs []).
Qed.

(** ** Characters outside the alphabet *)

Lemma a2b_loop_skips (a b : string) (c : ascii) :
  Base64.a2b c = None -> c <> "="%char ->
  forall st, Base64.a2b_loop (a ++ String c b) st = Base64.a2b_loop (a ++ b) st.
Proof.
  intros Hc Hpad. apply Ascii.eqb_neq in Hpad.
  induction a as [|x a IH]; intros st.
  - cbn [String.append Base64.a2b_loop]. now rewrite Hpad, Hc.
  - cbn [String.append Base64.a2b_loop].
    destruct (Ascii.eqb x "=").
    + destruct (2 <=? Base64.quad_pos st)%N; [|apply IH].
      destruct (4 <=? Base64.quad_pos st + (Base64.pads st + 1))%N; [reflexivity|apply IH].
    + destruct (Base64.a2b x); apply IH.
Qed.

Lemma b64decode_skips (a b : string) (c : ascii) :
  (N_of_ascii c < 128)%N -> Base64.a2b c = None -> c <> "="%char ->
  Base64.b64decode (a ++ String c b) = Base64.b64decode (a ++ b).
Proof.
  intros Hascii Hc Hpad. unfold Base64.b64decode.
  rewrite !is_ascii_app. cbn [Base64.is_ascii].
  apply N.ltb_lt in Hascii. rewrite Hascii. cbn [andb].
  now rewrite a2b_loop_skips.
Qed.

(** X1.  [process_image] decodes leniently ([base64.b64decode] without
    [validate]): an ASCII character that is neither of the base64 alphabet nor
    the padding sign, a line break or a comma for instance, may stand anywhere
    in [image_data] without any effect on the result. *)
Theorem process_image_ignores_foreign_characters
    (A32 A64 : arith) (ext : externals A32 A64)
    (a b : string) (c : ascii) (flag : bool) (w : world A64) :
  (N_of_ascii c < 128)%N -> Base64.a2b c = None -> c <> "="%char ->
  process_image ext (a ++ String c b) flag w = process_image ext (a ++ b) flag w.
Proof.
  intros Hascii Hc Hpad.
  unfold process_image, process_image_body, bind, try_except.
  now rewrite (b64decode_skips a b c Hascii Hc Hpad).
Qed.

Lemma process_image_ignores_foreign_characters_witness :
  process_image (sample_ext IEEE.binary32 IEEE.binary64 [] []) "/9,j/" false
    (sample_world IEEE.binary64)
  = process_image (sample_ext IEEE.binary32 IEEE.binary64 [] []) "/9j/" false
      (sample_world IEEE.binary64).
Proof.
  exact (process_image_ignores_foreign_characters IEEE.binary32 IEEE.binary64
           (sample_ext IEEE.binary32 IEEE.binary64 [] []) "/9" "j/" ","%char false
           (sample_world IEEE.binary64) eq_refl eq_refl ltac:(discriminate)).
Defined.

(** ** The dictionaries [process_image] returns *)

Section Results.
Variables A32 A64 : arith.
Variable ext : externals A32 A64.

Ltac caught :=
  unfold logger_error, time_time, ret; cbv beta;
  do 2 eexists; split; [reflexivity|]; left; do 2 eexists; reflexivity.

(** Every call returns, either the three entries of a failure or the
    entries of a detection, built from what the steps returned. *)
Lemma process_image_forms (image_data : string) (flag : bool) (w : world A64) :
  exists d w',
    process_image ext image_data flag w = (Return d, w') /\
    ((exists msg elapsed, d = not_detected A32 A64 msg elapsed) \/
     (exists bs img faces wd f aligned q t emb elapsed,
        Base64.b64decode image_data = Return bs /\
        cv2_imdecode ext bs = Return (Some img) /\
        detect_faces ext img (tick w) = (Return faces, wd) /\
        py_max_area faces = Return f /\
        align_face ext img f = Return aligned /\
        assess_face_quality ext aligned = Return q /\
        preprocess_face A32 aligned = Return t /\
        get_embedding ext t = Return emb /\
        width img <> 0 /\ height img <> 0 /\
        ((flag = false /\
          d = detection_entries A32 A64 f (width img) (height img) emb q elapsed) \/
         (flag = true /\
          exists buffer,
            cv2_imencode_jpg ext aligned = Return buffer /\
            d = detection_entries A32 A64 f (width img) (height img) emb q elapsed
                ++ [face_image_entry A32 A64 buffer])))).
Proof.
  unfold process_image, bind, try_except.
  change (time_time w) with (Return (clock w 0%nat), tick w). cbv iota beta.
  unfold process_image_body, bind, lift, raise, ret, time_time, py_truediv.
  destruct (Base64.b64decode image_data) as [bs|e] eqn:Hb; [|caught].
  destruct (cv2_imdecode ext bs) as [[img|]|e] eqn:Hi; [|caught|caught].
  destruct (detect_faces_total A32 A64 ext img (tick w)) as (faces & wd & Hd). rewrite Hd.
  destruct faces as [|f0 rest]; [caught|].
  destruct (py_max_area (f0 :: rest)) as [[[[x y] bw] bh]|e] eqn:Hmax; [|caught].
  destruct (align_face ext img (x, y, bw, bh)) as [aligned|e] eqn:Hal; [|caught].
  destruct (assess_face_quality ext aligned) as [q|e] eqn:Hq; [|caught].
  destruct (preprocess_face A32 aligned) as [t|e] eqn:Ht; [|caught].
  destruct (get_embedding ext t) as [emb|e] eqn:He; [|caught].
  destruct (width img =? 0) eqn:Hw0; [caught|].
  destruct (height img =? 0) eqn:Hh0; [caught|].
  destruct (width img * height img =? 0); [caught|].
  apply Z.eqb_neq in Hw0, Hh0.
  destruct flag.
  - destruct (cv2_imencode_jpg ext aligned) as [buffer|e] eqn:Hbuf; [|caught].
    do 2 eexists. split; [reflexivity|]. right.
    exists bs, img, (f0 :: rest), wd, (x, y, bw, bh), aligned, q, t, emb.
    eexists. repeat (split; [first [reflexivity | assumption]|]).
    right. split; [reflexivity|]. exists buffer. split; [exact Hbuf|reflexivity].
  - do 2 eexists. split; [reflexivity|]. right.
    exists bs, img, (f0 :: rest), wd, (x, y, bw, bh), aligned, q, t, emb.
    eexists. repeat (split; [first [reflexivity | assumption]|]).
    left. split; reflexivity.
Qed.

Ltac same_failure :=
  unfold logger_error, time_time, ret; cbv beta;
  do 4 eexists; split; [reflexivity|]; split; [reflexivity|];
  left; repeat split.

(** X2.  What [return_face_image] changes. When no face is detected it changes
    nothing. When a face is detected, the result gains the entry [face_image]
    and nothing else changes, [processing_time] included (the JPEG encoding is
    not timed); unless the encoder raises, and then the detection is
    discarded: the result is a failure with the encoder's message, timed by a
    third reading of the clock, and the fault is logged. *)
Theorem process_image_return_face_image_effect (image_data : string) (w : world A64) :
  exists d0 w0 d1 w1,
    process_image ext image_data false w = (Return d0, w0) /\
    process_image ext image_data true w = (Return d1, w1) /\
    ((detected d0 = false /\ d1 = d0 /\ w1 = w0) \/
     (detected d0 = true /\
      exists aligned,
        (exists buffer,
           cv2_imencode_jpg ext aligned = Return buffer /\
           d1 = d0 ++ [face_image_entry A32 A64 buffer] /\ w1 = w0) \/
        (exists e,
           cv2_imencode_jpg ext aligned = Raise e /\
           d1 = not_detected A32 A64 (exn_str e)
                  (sub A64 (clock w 2%nat) (clock w 0%nat)) /\
           log w1 = ("Error processing image: " ++ exn_str e)%string :: log w0))).
Proof.
  unfold process_image, bind, try_except.
  change (time_time w) with (Return (clock w 0%nat), tick w). cbv iota beta.
  unfold process_image_body, bind, lift, raise, ret, time_time, py_truediv.
  destruct (Base64.b64decode image_data) as [bs|e]; [|same_failure].
  destruct (cv2_imdecode ext bs) as [[img|]|e]; [|same_failure|same_failure].
  destruct (detect_faces_total A32 A64 ext img (tick w)) as (faces & wd & Hd).
  rewrite Hd. pose proof (detect_faces_clock A32 A64 ext _ _ _ _ Hd) as Hc.
  destruct faces as [|f0 rest]; [same_failure|].
  destruct (py_max_area (f0 :: rest)) as [[[[x y] bw] bh]|e]; [|same_failure].
  destruct (align_face ext img (x, y, bw, bh)) as [aligned|e]; [|same_failure].
  destruct (assess_face_quality ext aligned) as [q|e]; [|same_failure].
  destruct (preprocess_face A32 aligned) as [t|e]; [|same_failure].
  destruct (get_embedding ext t) as [emb|e]; [|same_failure].
  destruct (width img =? 0); [same_failure|].
  destruct (height img =? 0); [same_failure|].
  destruct (width img * height img =? 0); [same_failure|].
  destruct (cv2_imencode_jpg ext aligned) as [buffer|e] eqn:Hbuf.
  - do 4 eexists. split; [reflexivity|]. split; [reflexivity|].
    right. split; [reflexivity|]. exists aligned. left. exists buffer.
    split; [exact Hbuf|]. split; reflexivity.
  - unfold logger_error, time_time, ret. cbv beta.
    do 4 eexists. split; [reflexivity|]. split; [reflexivity|].
    right. split; [reflexivity|]. exists aligned. right. exists e.
    split; [exact Hbuf|]. cbn [clock log]. rewrite Hc. split; reflexivity.
Qed.

(** X3.  [detect_faces] never raises, and never touches the clock. Either both
    collaborators return and it hands on the boxes of the cascade, logging
    nothing; or one of them raises, and it logs the exception and answers with
    the empty list. *)
Theorem detect_faces_absorbs_faults (img : image) (w : world A64) :
  exists faces w',
    detect_faces ext img w = (Return faces, w') /\
    clock w' = clock w /\
    ((log w' = log w /\
      exists gray,
        cv2_cvtColor_gray ext img = Return gray /\
        detectMultiScale ext gray = Return faces) \/
     (faces = [] /\
      exists e,
        log w' = ("Error in detect_faces: " ++ exn_str e)%string :: log w /\
        (cv2_cvtColor_gray ext img = Raise e \/
         exists gray,
           cv2_cvtColor_gray ext img = Return gray /\
           detectMultiScale ext gray = Raise e))).
Proof.
  unfold detect_faces, try_except, bind, lift, ret, logger_error.
  destruct (cv2_cvtColor_gray ext img) as [gray|e] eqn:Hg.
  - destruct (detectMultiScale ext gray) as [faces|e] eqn:Hf.
    + do 2 eexists. split; [reflexivity|]. split; [reflexivity|].
      left. split; [reflexivity|]. now exists gray.
    + do 2 eexists. split; [reflexivity|]. split; [reflexivity|].
      right. split; [reflexivity|]. exists e. split; [reflexivity|].
      right. now exists gray.
  - do 2 eexists. split; [reflexivity|]. split; [reflexivity|].
    right. split; [reflexivity|]. exists e. split; [reflexivity|]. now left.
Qed.

(** X4.  Every result of [process_image] has one of two shapes. A failure has
    exactly the entries [face_detected] (false), [error] (a string) and
    [processing_time]. A detection has [face_detected] (true), the eight
    entries that describe the face, no [error], and [face_image] exactly when
    [return_face_image] was set. *)
Theorem process_image_result_keys (image_data : string) (flag : bool) (w : world A64) :
  exists d w',
    process_image ext image_data flag w = (Return d, w') /\
    ((detected d = false /\
      keys d = ["face_detected"; "error"; "processing_time"] /\
      exists msg, error_of d = Some msg) \/
     (detected d = true /\
      error_of d = None /\
      keys d = ["face_detected"; "embedding"; "quality_score"; "processing_time";
                "bbox"; "image_size"; "face_center"; "center_offset"; "box_ratio"]
               ++ (if flag then ["face_image"] else []))).
Proof.
  destruct (process_image_forms image_data flag w) as (d & w' & Hrun & Hd).
  exists d, w'. split; [exact Hrun|].
  destruct Hd as [(msg & elapsed & ->)|Hd].
  - left. split; [reflexivity|]. split; [reflexivity|]. now exists msg.
  - right.
    destruct Hd as (bs & img & faces & wd & [[[x y] bw] bh] & aligned & q & t & emb
                    & elapsed & _ & _ & _ & _ & _ & _ & _ & _ & _ & _ & Hd).
    destruct Hd as [(-> & ->)|(-> & buffer & _ & ->)];
      repeat split; reflexivity.
Qed.

(** X5.  The text after [data:image/jpeg;base64,] in [face_image] is read back
    by [base64.b64decode], the decoder of [process_image] itself, as the very
    bytes the JPEG encoder produced for the aligned face. *)
Theorem process_image_face_image_decodes_back (image_data : string) (w : world A64) :
  exists d w',
    process_image ext image_data true w = (Return d, w') /\
    (detected d = true ->
     exists aligned buffer payload,
       cv2_imencode_jpg ext aligned = Return buffer /\
       dict_get "face_image" d
         = Some (PyStr A32 A64 ("data:image/jpeg;base64," ++ payload)%string) /\
       Base64.b64decode payload = Return buffer).
Proof.
  destruct (process_image_forms image_data true w) as (d & w' & Hrun & Hd).
  exists d, w'. split; [exact Hrun|].
  destruct Hd as [(msg & elapsed & ->)|Hd]; [discriminate|]. intros _.
  destruct Hd as (bs & img & faces & wd & [[[x y] bw] bh] & aligned & q & t & emb
                  & elapsed & _ & _ & _ & _ & _ & _ & _ & _ & _ & _ & Hd).
  destruct Hd as [(Hf & _)|(_ & buffer & Hbuf & ->)]; [discriminate|].
  exists aligned, buffer, (Base64.b64encode buffer).
  split; [exact Hbuf|]. split; [reflexivity|]. apply b64decode_b64encode.
Qed.

(** X6.  A fault of the detection is not reported as such. When the grey
    conversion or the cascade raises [e] on a decoded image, [process_image]
    answers as it does for an image without faces, [face_detected = False]
    with the error [No face detected in image]; [str(e)] goes to the log only. *)
Theorem process_image_detector_fault_is_no_face
    (image_data : string) (flag : bool) (w : world A64)
    (bs : bytes) (img : image) (e : exn) :
  Base64.b64decode image_data = Return bs ->
  cv2_imdecode ext bs = Return (Some img) ->
  (cv2_cvtColor_gray ext img = Raise e \/
   exists gray, cv2_cvtColor_gray ext img = Return gray /\
                detectMultiScale ext gray = Raise e) ->
  exists w',
    process_image ext image_data flag w
    = (Return (not_detected A32 A64 "No face detected in image"
                 (sub A64 (clock w 1%nat) (clock w 0%nat))), w') /\
    log w' = ("Error in detect_faces: " ++ exn_str e)%string :: log w.
Proof.
  intros Hb Hi Hfault.
  unfold process_image, bind, try_except.
  change (time_time w) with (Return (clock w 0%nat), tick w). cbv iota beta.
  unfold process_image_body, bind, lift, raise, ret, time_time.
  rewrite Hb, Hi.
  unfold detect_faces, try_except, bind, lift, ret, logger_error.
  destruct Hfault as [Hg|(gray & Hg & Hf)].
  - rewrite Hg. eexists. split; reflexivity.
  - rewrite Hg, Hf. eexists. split; reflexivity.
Qed.

(** X7.  An [image_data] with a character outside ASCII is refused by the
    decoder before anything is decoded: the result is a failure whose error
    is [string argument should contain only ASCII characters], timed by two
    readings of the clock, and the fault is logged. *)
Theorem process_image_rejects_non_ascii
    (image_data : string) (flag : bool) (w : world A64) :
  Base64.is_ascii image_data = false ->
  process_image ext image_data flag w
  = (Return (not_detected A32 A64
               "string argument should contain only ASCII characters"
               (sub A64 (clock w 1%nat) (clock w 0%nat))),
     World A64 (fun n => clock w (S (S n)))
       ("Error processing image: string argument should contain only ASCII characters"
        :: log w)).
Proof.
  intros Hascii.
  unfold process_image, bind, try_except.
  change (time_time w) with (Return (clock w 0%nat), tick w). cbv iota beta.
  unfold process_image_body, bind, lift, Base64.b64decode.
  rewrite Hascii. reflexivity.
Qed.

End Results.

Lemma process_image_rejects_non_ascii_witness :
  error_of
    (returned_dict
       (process_image (sample_ext IEEE.binary32 IEEE.binary64 [] [])
          (String "233"%char "/9j/") false (sample_world IEEE.binary64)))
  = Some "string argument should contain only ASCII characters".
Proof.
  rewrite (process_image_rejects_non_ascii IEEE.binary32 IEEE.binary64
             (sample_ext IEEE.binary32 IEEE.binary64 [] [])
             (String "233"%char "/9j/") false (sample_world IEEE.binary64) eq_refl).
  reflexivity.
Defined.

Lemma process_image_detector_fault_is_no_face_witness :
  exists w',
    process_image (failing_cascade_ext IEEE.binary32 IEEE.binary64) "/9j/" false
      (sample_world IEEE.binary64)
    = (Return (not_detected IEEE.binary32 IEEE.binary64 "No face detected in image"
                 (sub IEEE.binary64 (of_int IEEE.binary64 1) (of_int IEEE.binary64 0))),
       w') /\
    log w'
    = ["Error in detect_faces: (-215:Assertion failed) !empty() in function 'detectMultiScale'"].
Proof.
  exact (process_image_detector_fault_is_no_face IEEE.binary32 IEEE.binary64
           (failing_cascade_ext IEEE.binary32 IEEE.binary64) "/9j/" false
           (sample_world IEEE.binary64) [xff; xd8; xff] sample_image
           (cv2_error "(-215:Assertion failed) !empty() in function 'detectMultiScale'")
           eq_refl eq_refl
           (or_intror (ex_intro _ (sample_gray sample_image) (conj eq_refl eq_refl)))).
Defined.

(** ** [align_face] on boxes that are not inside the image *)

Lemma py_slice_start_beyond {A} (l : list A) (a b : Z) :
  Z.of_nat (List.length l) <= a -> py_slice a b l = [].
Proof.
  intros Ha. unfold py_slice, slice_bound.
  destruct (a <? 0) eqn:Hneg; [apply Z.ltb_lt in Hneg; lia|].
  rewrite (Z.min_r a) by lia. rewrite Nat2Z.id, skipn_all. apply firstn_nil.
Qed.

(** A negative stop counts from the end. *)
Lemma py_slice_negative_stop_wraps {A} (l : list A) (a b : Z) :
  b < 0 -> 0 <= Z.of_nat (List.length l) + b ->
  py_slice a b l = py_slice a (Z.of_nat (List.length l) + b) l.
Proof.
  intros Hb Hlen. unfold py_slice. f_equal. f_equal. f_equal.
  unfold slice_bound.
  destruct (b <? 0) eqn:Hneg; [|apply Z.ltb_ge in Hneg; lia].
  destruct (Z.of_nat (List.length l) + b <? 0) eqn:Hneg'; [apply Z.ltb_lt in Hneg'; lia|].
  lia.
Qed.

Section AlignOutside.
Variables A32 A64 : arith.
Variable ext : externals A32 A64.
Variable img : image.
Variables W H : Z.
Variable f : rect.
Variable p : Z.

Let x1 := Z.max 0 (rect_x f - p).
Let y1 := Z.max 0 (rect_y f - p).
Let x2 := Z.min W (rect_x f + rect_w f + p).
Let y2 := Z.min H (rect_y f + rect_h f + p).

Hypothesis Hresize : resize_contract ext.
Hypothesis Hshape : has_shape H W img.
Hypothesis Hpad : padding_of A64 (rect_w f) (rect_h f) = Return p.

Lemma align_face_region :
  0 < H ->
  align_face ext img f = cv2_resize ext (crop img y1 y2 x1 x2) 112 112.
Proof.
  intros HH. rewrite align_face_eq, Hpad. cbn [obind].
  rewrite (has_shape_width _ _ _ Hshape HH).
  destruct Hshape as [-> _]. reflexivity.
Qed.

Lemma empty_crop_refused (y1' y2' x1' x2' : Z) :
  is_empty (crop img y1' y2' x1' x2') = true ->
  exists e, cv2_resize ext (crop img y1' y2' x1' x2') 112 112 = Raise e.
Proof.
  intros Hempty.
  destruct (Hresize (crop img y1' y2' x1' x2') 112 112) as [Hno _]; [lia|lia|].
  exact (Hno Hempty).
Qed.

(** X12.  Clamping is enough for every box that overlaps the image: the window
    is not empty and lies inside the image, and [align_face] returns a 112 x
    112 image. *)
Theorem align_face_overlapping_box_returns :
  0 <= p ->
  Z.max 0 (rect_x f) < Z.min W (rect_x f + rect_w f) ->
  Z.max 0 (rect_y f) < Z.min H (rect_y f + rect_h f) ->
  0 <= x1 < x2 /\ x2 <= W /\ 0 <= y1 < y2 /\ y2 <= H /\
  has_shape (y2 - y1) (x2 - x1) (crop img y1 y2 x1 x2) /\
  exists out,
    align_face ext img f = Return out /\
    cv2_resize ext (crop img y1 y2 x1 x2) 112 112 = Return out /\
    has_shape 112 112 out.
Proof.
  intros Hp Hx Hy.
  assert (Hxs : 0 <= x1 < x2 /\ x2 <= W) by (unfold x1, x2; lia).
  assert (Hys : 0 <= y1 < y2 /\ y2 <= H) by (unfold y1, y2; lia).
  assert (Hcrop : has_shape (y2 - y1) (x2 - x1) (crop img y1 y2 x1 x2))
    by (apply crop_shape with H W; auto; lia).
  repeat (split; [lia|]). split; [exact Hcrop|].
  destruct (Hresize (crop img y1 y2 x1 x2) 112 112) as [_ Hok]; [lia|lia|].
  destruct Hok as (out & Hout & Hs).
  { apply has_shape_nonempty with (y2 - y1) (x2 - x1); [exact Hcrop|lia|lia]. }
  exists out. rewrite align_face_region by lia. auto.
Qed.

(** X13.  A box whose padded left edge is at or beyond the image's right edge,
    or whose padded top edge is at or below its bottom edge, leaves nothing to
    crop: [cv2.resize] refuses the empty array and [align_face] raises. *)
Theorem align_face_box_beyond_image_raises :
  0 < H ->
  W <= rect_x f - p \/ H <= rect_y f - p ->
  is_empty (crop img y1 y2 x1 x2) = true /\
  exists e, align_face ext img f = Raise e.
Proof.
  intros HH Hout.
  assert (Hempty : is_empty (crop img y1 y2 x1 x2) = true).
  { destruct Hshape as [Hh Hw]. unfold is_empty, crop.
    destruct Hout as [Hx|Hy].
    - destruct (py_slice y1 y2 img) as [|row rows] eqn:Hrows; [reflexivity|].
      assert (Hin : In row img).
      { apply (py_slice_incl img y1 y2). rewrite Hrows. now left. }
      cbn [map width height].
      rewrite py_slice_start_beyond.
      + cbn [List.length]. apply orb_true_r.
      + rewrite (rows_of_width_In _ _ _ Hw Hin). unfold x1. lia.
    - rewrite py_slice_start_beyond; [reflexivity|].
      unfold height in Hh. unfold y1. lia. }
  split; [exact Hempty|].
  rewrite align_face_region by exact HH.
  now apply empty_crop_refused.
Qed.

(** X14.  A box that lies to the left of the image is not refused. Its right
    edge [x + w + p] is negative, and as the stop of the column slice a
    negative number counts from the right: [align_face] returns the columns
    [0] to [W + (x + w + p)] of the image, resized, which do not contain the
    box. *)
Theorem align_face_box_left_of_image_wraps :
  0 <= p -> 0 < rect_w f ->
  Z.max 0 (rect_y f) < Z.min H (rect_y f + rect_h f) ->
  - W < rect_x f + rect_w f + p < 0 ->
  crop img y1 y2 x1 x2 = crop img y1 y2 0 (W + (rect_x f + rect_w f + p)) /\
  has_shape (y2 - y1) (W + (rect_x f + rect_w f + p))
            (crop img y1 y2 0 (W + (rect_x f + rect_w f + p))) /\
  exists out,
    align_face ext img f = Return out /\
    cv2_resize ext (crop img y1 y2 0 (W + (rect_x f + rect_w f + p))) 112 112
    = Return out /\
    has_shape 112 112 out.
Proof.
  intros Hp Hw Hy Hx.
  set (s := rect_x f + rect_w f + p) in *.
  assert (Hx1 : x1 = 0) by (unfold x1; lia).
  assert (Hx2 : x2 = s) by (unfold x2, s; lia).
  assert (Hys : 0 <= y1 < y2 /\ y2 <= H) by (unfold y1, y2; lia).
  assert (Heq : crop img y1 y2 x1 x2 = crop img y1 y2 0 (W + s)).
  { rewrite Hx1, Hx2. unfold crop. apply map_ext_in. intros row Hin.
    apply py_slice_incl in Hin. destruct Hshape as [_ Hrows].
    pose proof (rows_of_width_In _ _ _ Hrows Hin) as Hlen.
    rewrite py_slice_negative_stop_wraps by lia. now rewrite Hlen. }
  assert (Hcrop : has_shape (y2 - y1) (W + s) (crop img y1 y2 0 (W + s))).
  { replace (W + s) with (W + s - 0) at 1 by lia.
    apply crop_shape with H W; auto; lia. }
  split; [exact Heq|]. split; [exact Hcrop|].
  destruct (Hresize (crop img y1 y2 0 (W + s)) 112 112) as [_ Hok]; [lia|lia|].
  destruct Hok as (out & Hout & Hs).
  { apply has_shape_nonempty with (y2 - y1) (W + s); [exact Hcrop|lia|lia]. }
  exists out. rewrite align_face_region by lia. rewrite Heq. auto.
Qed.

End AlignOutside.

Lemma padding_of_100_100 : padding_of IEEE.binary64 100 100 = Return 20.
Proof. vm_compute. reflexivity. Qed.

Lemma align_face_overlapping_box_returns_witness :
  has_shape 100 70 (crop sample_image 0 100 130 200) /\
  exists out,
    align_face (sample_ext IEEE.binary32 IEEE.binary64 [] []) sample_image
      (150, -20, 100, 100) = Return out /\
    has_shape 112 112 out.
Proof.
  destruct (align_face_overlapping_box_returns IEEE.binary32 IEEE.binary64
              (sample_ext IEEE.binary32 IEEE.binary64 [] [])
              sample_image 200 200 (150, -20, 100, 100) 20
              (sample_resize_contract _ _ _ _) sample_image_shape padding_of_100_100
              ltac:(lia) ltac:(simpl; lia) ltac:(simpl; lia))
    as (_ & _ & _ & _ & Hs & out & Ha & _ & Ho).
  split; [exact Hs|]. exists out. split; [exact Ha|exact Ho].
Defined.

Lemma align_face_box_beyond_image_raises_witness :
  exists e,
    align_face (sample_ext IEEE.binary32 IEEE.binary64 [] []) sample_image
      (230, 50, 100, 100) = Raise e.
Proof.
  exact (proj2 (align_face_box_beyond_image_raises IEEE.binary32 IEEE.binary64
                  (sample_ext IEEE.binary32 IEEE.binary64 [] [])
                  sample_image 200 200 (230, 50, 100, 100) 20
                  (sample_resize_contract _ _ _ _) sample_image_shape padding_of_100_100
                  ltac:(lia) ltac:(left; simpl; lia))).
Defined.

Lemma align_face_box_left_of_image_wraps_witness :
  has_shape 140 170 (crop sample_image 30 170 0 170) /\
  exists out,
    align_face (sample_ext IEEE.binary32 IEEE.binary64 [] []) sample_image
      (-150, 50, 100, 100) = Return out /\
    cv2_resize (sample_ext IEEE.binary32 IEEE.binary64 [] [])
      (crop sample_image 30 170 0 170) 112 112 = Return out.
Proof.
  destruct (align_face_box_left_of_image_wraps IEEE.binary32 IEEE.binary64
              (sample_ext IEEE.binary32 IEEE.binary64 [] [])
              sample_image 200 200 (-150, 50, 100, 100) 20
              (sample_resize_contract _ _ _ _) sample_image_shape padding_of_100_100
              ltac:(lia) ltac:(simpl; lia) ltac:(simpl; lia) ltac:(simpl; lia))
    as (_ & Hs & out & Ha & Hr & _).
  split; [exact Hs|]. exists out. split; [exact Ha|exact Hr].
Defined.

(** ** The endpoints *)

Section Endpoints.
Variables A32 A64 : arith.
Variable lib : libraries A32 A64.

Ltac run_handler :=
  unfold process_face, health_check, model_info, try_except, bind, lift, ret, raise,
    logger_error, logger_info, attribute_of, time_time;
  cbv beta iota.

(** [process_image], called with any two values of a request, returns: a
    failure carries its message, a detection carries no [error]. *)
Lemma process_image_of_request_forms (ext : externals A32 A64)
    (image_data flag : json) (w : world A64) :
  exists d w',
    process_image_of_request ext image_data flag w = (Return d, w') /\
    ((detected d = false /\ exists msg, dict_get "error" d = Some (PyStr A32 A64 msg)) \/
     (detected d = true /\ dict_get "error" d = None /\ dict_get "success" d = None)).
Proof.
  assert (Hstr : forall s, exists d w',
            process_image ext s (truthy flag) w = (Return d, w') /\
            ((detected d = false /\
              exists msg, dict_get "error" d = Some (PyStr A32 A64 msg)) \/
             (detected d = true /\ dict_get "error" d = None
              /\ dict_get "success" d = None))).
  { intros s.
    destruct (process_image_forms A32 A64 ext s (truthy flag) w) as (d & w' & Hrun & Hd).
    exists d, w'. split; [exact Hrun|].
    destruct Hd as [(msg & elapsed & ->)|Hd].
    - left. split; [reflexivity|]. now exists msg.
    - right.
      destruct Hd as (bs & img & faces & wd & [[[x y] bw] bh] & aligned & q & t & emb
                      & elapsed & _ & _ & _ & _ & _ & _ & _ & _ & _ & _ & Hd).
      destruct Hd as [(_ & ->)|(_ & buffer & _ & ->)]; repeat split; reflexivity. }
  destruct image_data; try apply Hstr;
    (unfold process_image_of_request, try_except, bind, raise, lift, ret, logger_error,
       time_time; cbv beta iota;
     do 2 eexists; split; [reflexivity|]; left; split; [reflexivity|];
     eexists; reflexivity).
Qed.

Lemma assoc_nonempty (k : string) (d : list (string * json)) (v : json) :
  assoc k d = Some v -> truthy (JDict d) = true.
Proof. destruct d; [discriminate|reflexivity]. Qed.

(** *** [POST /process-face] with an image *)

(** X15.  A JSON object with [imageData], sent to a service whose processor is
    constructed, is always treated as an image to process, whatever else it
    holds. The answer is 200 with the dictionary of [process_image] exactly
    when [face_detected] is true (the quality score is not consulted), and
    otherwise 400 with a fixed [error] and, as [details], the error message of
    [process_image]: never the default [Unknown error], never 500. No
    registration takes place. *)
Theorem process_face_image_answer
    (p : processor A32) (d : list (string * json)) (v : json) (w : world A64) :
  assoc "imageData" d = Some v ->
  let flag := match assoc "returnFaceImage" d with
              | Some f => f
              | None => JBool false
              end in
  exists result w' r,
    process_image_of_request (externals_of lib p) v flag w = (Return result, w') /\
    process_face lib (Some p) (Return (JDict d)) w = (Return r, w') /\
    ~ In "success" (map fst (json_body r)) /\
    ((detected result = true /\ r = Response 200 (jsonify_result result)) \/
     (detected result = false /\
      exists msg,
        error_of result = Some msg /\
        r = Response 400
              [ ("error", str "No face detected or face quality too low");
                ("details", OfResult (PyStr A32 A64 msg)) ])).
Proof.
  intros Hv flag.
  destruct (process_image_of_request_forms (externals_of lib p) v flag w)
    as (result & w' & Hrun & Hres).
  exists result, w'.
  run_handler. rewrite (assoc_nonempty _ _ _ Hv). cbn [negb py_in obind].
  rewrite Hv. cbn [py_getitem py_get]. rewrite Hv. fold flag. rewrite Hrun.
  destruct Hres as [(Hdet & msg & Herr)|(Hdet & Herr & Hsucc)]; rewrite Hdet; cbn [negb].
  - rewrite Herr. eexists. split; [reflexivity|]. split; [reflexivity|].
    split.
    + cbn. intros [H|[H|[]]]; discriminate.
    + right. split; [reflexivity|]. exists msg. split; [|reflexivity].
      unfold error_of. now rewrite Herr.
  - eexists. split; [reflexivity|]. split; [reflexivity|].
    split; [|left; split; reflexivity].
    cbn [json_body]. unfold jsonify_result. rewrite map_map. cbn [fst].
    clear - Hsucc. induction result as [|[k x] rest IH]; [intros []|].
    cbn [map fst dict_get] in *. intros [Hk|Hin].
    + subst k. discriminate.
    + destruct (String.eqb "success" k); [discriminate|]. now apply IH.
Qed.

(** X16.  An [imageData] that is not a string ([null], a number, a list, an
    object) is answered 400, not 500: [base64.b64decode] raises [TypeError]
    inside [process_image], which reports it, and [details] is that message,
    naming the type of the value. *)
Theorem process_face_image_not_a_string
    (p : processor A32) (d : list (string * json)) (v : json) (w : world A64) :
  assoc "imageData" d = Some v ->
  (forall s, v <> JStr s) ->
  process_face lib (Some p) (Return (JDict d)) w
  = (Return (Response 400
               [ ("error", str "No face detected or face quality too low");
                 ("details",
                  OfResult (PyStr A32 A64
                    ("argument should be a bytes-like object or ASCII string, not '"
                     ++ py_type_name v ++ "'")%string)) ]),
     World A64 (fun n => clock w (S (S n)))
       (("Error processing image: argument should be a bytes-like object or ASCII string, not '"
         ++ py_type_name v ++ "'")%string :: log w)).
Proof.
  intros Hv Hns.
  run_handler. rewrite (assoc_nonempty _ _ _ Hv). cbn [negb py_in obind].
  rewrite Hv. cbn [py_getitem py_get]. rewrite Hv.
  destruct v; try reflexivity. now destruct (Hns s).
Qed.

(** *** The status codes of [POST /process-face] *)

Lemma image_request_status
    (p : processor A32) (d : list (string * json)) (v : json) (w : world A64) :
  assoc "imageData" d = Some v ->
  exists r w',
    process_face lib (Some p) (Return (JDict d)) w = (Return r, w') /\
    (status r = 200 \/ status r = 400).
Proof.
  intros Hv.
  destruct (process_image_of_request_forms (externals_of lib p) v
              (match assoc "returnFaceImage" d with Some f => f | None => JBool false end) w)
    as (result & w' & Hrun & _).
  run_handler. rewrite (assoc_nonempty _ _ _ Hv). cbn [negb py_in obind].
  rewrite Hv. cbn [py_getitem py_get]. rewrite Hv, Hrun.
  destruct (detected result); cbn [negb]; do 2 eexists; (split; [reflexivity|]); auto.
Qed.

(** Without [imageData], an object is a registration or an invalid
    request. *)
Lemma plain_object_status
    (face_processor : option (processor A32)) (d : list (string * json))
    (w : world A64) :
  assoc "imageData" d = None -> truthy (JDict d) = true ->
  exists r w',
    process_face lib face_processor (Return (JDict d)) w = (Return r, w') /\
    (status r = 200 \/ status r = 400).
Proof.
  intros Hv Ht.
  run_handler. rewrite Ht. cbn [negb py_in]. rewrite Hv. cbn [py_get].
  destruct (assoc "action" d) as [action|]; cbn [eq_str].
  2:{ do 2 eexists. split; [reflexivity|]. auto. }
  destruct (eq_str action "register").
  2:{ do 2 eexists. split; [reflexivity|]. auto. }
  cbn [py_in]. destruct (assoc "embedding" d).
  2:{ do 2 eexists. split; [reflexivity|]. auto. }
  destruct (assoc "userId" d) eqn:Hu; cbn [py_getitem]; rewrite ?Hu;
    do 2 eexists; (split; [reflexivity|]); auto.
Qed.

(** X17.  [process_face] never raises: it answers 200, 400 or 500. It answers
    500 exactly when [get_json] raised, when the body is a truthy value that
    is not an object (a number, [true], a non-empty string or list), or when
    an image is sent while no processor is constructed. A body with a false
    truth value ([null], [false], zero, an empty string, list or object) gets
    400 [No data provided] and nothing else happens. *)
Theorem process_face_status_500_iff
    (face_processor : option (processor A32)) (request_json : outcome json)
    (w : world A64) :
  exists r w',
    process_face lib face_processor request_json w = (Return r, w') /\
    (status r = 200 \/ status r = 400 \/ status r = 500) /\
    (status r = 500 <-> server_fault face_processor request_json) /\
    (forall data,
       request_json = Return data -> truthy data = false ->
       r = Response 400 [ ("error", str "No data provided") ] /\ w' = w).
Proof.
  destruct request_json as [data|e].
  { destruct (truthy data) eqn:Ht.
    - assert (Hthird : forall r0 w0 data',
                Return data = Return data' -> truthy data' = false ->
                r0 = Response 400 [ ("error", @str A32 A64 "No data provided") ] /\ w0 = w).
      { intros r0 w0 data' Hreq Hfalse. injection Hreq as <-. congruence. }
      assert (Hplain : forall details w0,
                (forall d, data <> JDict d) ->
                process_face lib face_processor (Return data) w
                = (Return (Response 500 [ ("error", str "Face processing failed");
                                          ("details", str details) ]), w0) ->
                exists r w',
                  process_face lib face_processor (Return data) w = (Return r, w') /\
                  (status r = 200 \/ status r = 400 \/ status r = 500) /\
                  (status r = 500 <-> server_fault face_processor (Return data)) /\
                  (forall data', Return data = Return data' -> truthy data' = false ->
                     r = Response 400 [ ("error", str "No data provided") ] /\ w' = w)).
      { intros details w0 Hnd Hrun. do 2 eexists. split; [exact Hrun|].
        split; [auto|]. split; [|apply Hthird].
        cbn [status]. split; [intros _|reflexivity].
        destruct data; cbn [server_fault]; try exact Ht. now destruct (Hnd d). }
      destruct data as [|b|z|x|s|l|d].
      + discriminate.
      + eapply Hplain; [discriminate|]. run_handler. rewrite Ht. reflexivity.
      + eapply Hplain; [discriminate|]. run_handler. rewrite Ht. reflexivity.
      + eapply Hplain; [discriminate|]. run_handler. rewrite Ht. reflexivity.
      + destruct (contains "imageData" s) eqn:Hc; [destruct face_processor as [p|]|];
          (eapply Hplain; [discriminate|]; run_handler; rewrite Ht; cbn [negb py_in];
           rewrite Hc; reflexivity).
      + destruct (existsb (fun v0 => eq_str v0 "imageData") l) eqn:Hc;
          [destruct face_processor as [p|]|];
          (eapply Hplain; [discriminate|]; run_handler; rewrite Ht; cbn [negb py_in];
           rewrite Hc; reflexivity).
      + destruct (assoc "imageData" d) as [v|] eqn:Hv.
        * destruct face_processor as [p|].
          -- destruct (image_request_status p d v w Hv)
               as (r & w' & Hrun & Hst).
             exists r, w'. split; [exact Hrun|]. cbn [server_fault]. rewrite Hv.
             split; [destruct Hst as [->| ->]; auto|].
             split; [|apply Hthird].
             split; [intros H5; destruct Hst as [H2|H4]; rewrite ?H2, ?H4 in H5;
                     discriminate|].
             intros [_ Hnone]. discriminate.
          -- run_handler. rewrite Ht. cbn [negb py_in]. rewrite Hv.
             do 2 eexists. split; [reflexivity|]. cbn [status server_fault].
             rewrite Hv. split; [auto|]. split; [|apply Hthird].
             split; [intros _; split; [discriminate|reflexivity]|reflexivity].
        * destruct (plain_object_status face_processor d w Hv Ht)
            as (r & w' & Hrun & Hst).
          exists r, w'. split; [exact Hrun|]. cbn [server_fault]. rewrite Hv.
          split; [destruct Hst as [->| ->]; auto|].
          split; [|apply Hthird].
          split; [intros H5; destruct Hst as [H2|H4]; rewrite ?H2, ?H4 in H5;
                  discriminate|].
          intros [Habs _]. now contradiction Habs.
    - run_handler. rewrite Ht. cbn [negb]. do 2 eexists. split; [reflexivity|].
      cbn [status]. split; [auto|].
      split; [|intros data' _ _; split; reflexivity].
      split; [discriminate|]. intros Hf.
      destruct data as [|b|z|x|s|l|d]; cbn [server_fault] in Hf; try congruence.
      destruct d; [destruct Hf as [Hf _]; now contradiction Hf|discriminate]. }
  run_handler. do 2 eexists. split; [reflexivity|]. cbn [status server_fault].
  split; [auto|]. split; [split; auto|]. intros data Hreq. discriminate.
Qed.

(** *** Registration *)

(** X18.  An object without [imageData] is a registration exactly when
    [action] equals [register] and both [embedding] and [userId] are present,
    whatever their values. A registration is answered 200 with [userId]
    echoed, and all it does is write one log record: nothing is stored and no
    processor is needed. Any other object gets 400 [Invalid request] and
    nothing happens. *)
Theorem process_face_registers_or_rejects
    (face_processor : option (processor A32)) (d : list (string * json))
    (w : world A64) :
  assoc "imageData" d = None -> d <> [] ->
  exists r w',
    process_face lib face_processor (Return (JDict d)) w = (Return r, w') /\
    ((asks_registration d = true /\
      exists user_id,
        assoc "userId" d = Some user_id /\
        r = Response 200
              [ ("success", OfJson (JBool true));
                ("message", str "Face registered successfully");
                ("userId", OfJson user_id) ] /\
        w' = World A64 (clock w)
               (("Storing face embedding for user " ++ py_str lib user_id)%string
                :: log w)) \/
     (asks_registration d = false /\
      r = Response 400
            [ ("error", str "Invalid request");
              ("details",
               str "Either provide imageData for processing or action=register with embedding and userId") ] /\
      w' = w)).
Proof.
  intros Hv Hne.
  assert (Ht : truthy (JDict d) = true) by (destruct d; [congruence|reflexivity]).
  run_handler. rewrite Ht. cbn [negb py_in]. rewrite Hv. cbn [py_get].
  unfold asks_registration.
  destruct (eq_str (match assoc "action" d with Some v => v | None => JNull end)
                   "register"); cbn [andb py_in].
  2:{ do 2 eexists. split; [reflexivity|]. right. repeat split. }
  destruct (assoc "embedding" d); cbn [andb].
  2:{ do 2 eexists. split; [reflexivity|]. right. repeat split. }
  destruct (assoc "userId" d) as [user_id|] eqn:Hu; cbn [py_getitem]; rewrite ?Hu.
  - do 2 eexists. split; [reflexivity|]. left. split; [reflexivity|].
    exists user_id. repeat split.
  - do 2 eexists. split; [reflexivity|]. right. repeat split.
Qed.

(** *** Before a processor is constructed *)

(** X19.  While the global [face_processor] is [None], [GET /health] and [GET
    /model-info] answer 500 with the text of the [AttributeError], and so does
    [POST /process-face] for every object with [imageData]; only the health
    check and the image request log the fault. *)
Theorem endpoints_before_initialisation (w : world A64) :
  health_check lib None w
  = (Return (Response 500
               [ ("status", str "error");
                 ("error", str "'NoneType' object has no attribute 'session'") ]),
     World A64 (fun n => clock w (S n))
       ("Health check failed: 'NoneType' object has no attribute 'session'" :: log w)) /\
  @model_info A32 A64 None w
  = (Return (Response 500
               [ ("error", str "'NoneType' object has no attribute 'session'") ]), w) /\
  forall d v,
    assoc "imageData" d = Some v ->
    process_face lib None (Return (JDict d)) w
    = (Return (Response 500
                 [ ("error", str "Face processing failed");
                   ("details",
                    str "'NoneType' object has no attribute 'process_image'") ]),
       World A64 (clock w) ("Error in face processing endpoint" :: log w)).
Proof.
  split; [reflexivity|]. split; [reflexivity|].
  intros d v Hv. run_handler.
  rewrite (assoc_nonempty _ _ _ Hv). cbn [negb py_in]. now rewrite Hv.
Qed.

(** *** Construction *)

Ltac run_loader :=
  unfold load_models, try_except, bind, lift, ret, raise, logger_error, logger_info;
  cbv beta iota.

(** What [load_models] returns is a loaded processor with the same
    [model_path]. *)
Lemma load_models_returns_loaded (self fp : processor A32) (w w' : world A64) :
  load_models lib self w = (Return fp, w') ->
  loaded lib fp /\ model_path fp = model_path self /\
  os_path_exists lib (cascade_path lib) = true.
Proof.
  run_loader.
  destruct (os_path_exists lib (model_path self)) eqn:Hm; cbn [negb]; [|discriminate].
  destruct (ort_InferenceSession lib (model_path self)) as [s|e]; [|discriminate].
  destruct (get_inputs s) as [|i ins] eqn:Hi; cbn [first_of]; [discriminate|].
  destruct (get_outputs s) as [|o outs] eqn:Ho; cbn [first_of]; [discriminate|].
  destruct (os_path_exists lib (cascade_path lib)) eqn:Hc; cbn [negb]; [|discriminate].
  destruct (cv2_CascadeClassifier lib (cascade_path lib)) as [c|e]; [|discriminate].
  destruct (cascade_empty c) eqn:He; [discriminate|].
  intros H. injection H as <- _.
  split; [|split; reflexivity].
  split; [exact Hm|]. exists s, c. cbn [session face_cascade].
  rewrite Hi, Ho. repeat split; try assumption; discriminate.
Qed.

(** X20.  Whenever [load_models] raises, it has logged the exception, after
    the records of the steps that succeeded, and the exception it raises is
    the one it caught. *)
Theorem load_models_failure_is_logged
    (self : processor A32) (w w' : world A64) (e : exn) :
  load_models lib self w = (Raise e, w') ->
  exists infos,
    log w' = (("Error loading models: " ++ exn_str e)%string :: infos) ++ log w /\
    clock w' = clock w.
Proof.
  run_loader.
  destruct (os_path_exists lib (model_path self)); cbn [negb].
  2:{ intros H. injection H as <- <-. exists []. split; reflexivity. }
  destruct (ort_InferenceSession lib (model_path self)) as [s|e0].
  2:{ intros H. injection H as <- <-. exists []. split; reflexivity. }
  destruct (get_inputs s) as [|i ins]; cbn [first_of].
  { intros H. injection H as <- <-. eexists [_]. split; reflexivity. }
  destruct (get_outputs s) as [|o outs]; cbn [first_of].
  { intros H. injection H as <- <-. eexists [_]. split; reflexivity. }
  destruct (os_path_exists lib (cascade_path lib)); cbn [negb].
  2:{ intros H. injection H as <- <-. eexists [_; _; _]. split; reflexivity. }
  destruct (cv2_CascadeClassifier lib (cascade_path lib)) as [c|e0].
  2:{ intros H. injection H as <- <-. eexists [_; _; _]. split; reflexivity. }
  destruct (cascade_empty c); [|discriminate].
  intros H. injection H as <- <-. eexists [_; _; _]. split; reflexivity.
Qed.


(** X21.  A processor the constructor returns is loaded: the session and the
    cascade are set, the cascade is not empty, the model has an input and an
    output, and the model file exists at [model_path], which is the path the
    constructor resolved. *)
Theorem FaceProcessor_init_establishes_loaded
    (path : string) (fp : processor A32) (w w' : world A64) :
  FaceProcessor_init lib path w = (Return fp, w') ->
  loaded lib fp /\
  resolve_model_path lib path = Return (model_path fp) /\
  os_path_exists lib (cascade_path lib) = true.
Proof.
  unfold FaceProcessor_init, bind, lift.
  destruct (resolve_model_path lib path) as [candidate|e]; [|discriminate].
  intros Hload.
  destruct (load_models_returns_loaded _ _ _ _ Hload) as (Hl & Hp & Hc).
  cbn [model_path] in Hp. rewrite Hp. auto.
Qed.

(** X22.  When the model file is neither at the given path (made absolute) nor
    beside [app.py], the constructor raises [FileNotFoundError]; the message
    names the first of the two places, and the fault is logged. *)
Theorem FaceProcessor_init_missing_model
    (path candidate here : string) (w : world A64) :
  (if os_path_isabs lib path then Return path else os_path_abspath lib path)
  = Return candidate ->
  os_path_exists lib candidate = false ->
  os_path_abspath lib (app_file lib) = Return here ->
  os_path_exists lib
    (os_path_join lib (os_path_dirname lib here) [os_path_basename lib path]) = false ->
  FaceProcessor_init lib path w
  = (Raise (Exn "FileNotFoundError" ("ONNX model not found at " ++ candidate)%string),
     World A64 (clock w)
       (("Error loading models: ONNX model not found at " ++ candidate)%string :: log w)).
Proof.
  intros Hc He Hh Ha.
  unfold FaceProcessor_init, resolve_model_path, bind, lift.
  rewrite Hc. cbn [obind]. rewrite He, Hh. cbn [obind]. rewrite Ha.
  run_loader. cbn [model_path]. rewrite He. reflexivity.
Qed.

(** *** A loaded processor behind the endpoints *)

(** X23.  With a loaded processor, [GET /model-info] answers 200 with the
    first input and output of the model and touches neither the clock nor the
    log; [GET /health] answers 200 with [model_loaded] true and one reading of
    the clock as [timestamp], provided the working directory can be asked for
    the absolute model path. *)
Theorem loaded_processor_is_served (fp : processor A32) (w : world A64) :
  loaded lib fp ->
  (exists s input_info output_info,
     session fp = Some s /\
     first_of (get_inputs s) = Return input_info /\
     first_of (get_outputs s) = Return output_info /\
     @model_info A32 A64 (Some fp) w
     = (Return (Response 200
                  [ ("input_name", str (arg_name input_info));
                    ("input_shape", OfJson (arg_shape input_info));
                    ("output_name", str (arg_name output_info));
                    ("output_shape", OfJson (arg_shape output_info));
                    ("model_path", str (model_path fp)) ]), w)) /\
  (forall abs,
     os_path_abspath lib (model_path fp) = Return abs ->
     health_check lib (Some fp) w
     = (Return (Response 200
                  [ ("status", str "ok");
                    ("timestamp", OfFloat (clock w 0%nat));
                    ("model_loaded", OfJson (JBool true));
                    ("model_path", str abs);
                    ("python_version", str (python_version lib)) ]),
        tick w)).
Proof.
  intros (_ & s & c & Hs & _ & _ & Hi & Ho).
  split.
  - destruct (get_inputs s) as [|i ins] eqn:Hgi; [congruence|].
    destruct (get_outputs s) as [|o outs] eqn:Hgo; [congruence|].
    exists s, i, o. rewrite Hgi, Hgo.
    split; [exact Hs|]. split; [reflexivity|]. split; [reflexivity|].
    run_handler. rewrite Hs, Hgi, Hgo. reflexivity.
  - intros abs Habs. run_handler. rewrite Hs, Habs. reflexivity.
Qed.

(** *** The entry point *)



End Endpoints.

Lemma process_face_image_answer_witness :
  exists result w' r,
    process_face
      (sample_lib IEEE.binary32 IEEE.binary64 [(50, 50, 100, 100)]
                  [of_int IEEE.binary32 3; of_int IEEE.binary32 4])
      (Some (sample_processor IEEE.binary32 [(50, 50, 100, 100)]
               [of_int IEEE.binary32 3; of_int IEEE.binary32 4]))
      (Return (JDict [("imageData", JStr "/9j/"); ("action", JStr "register")]))
      (sample_world IEEE.binary64) = (Return r, w') /\
    ~ In "success" (map fst (json_body r)) /\
    ((detected result = true /\ r = Response 200 (jsonify_result result)) \/
     (detected result = false /\ status r = 400)).
Proof.
  destruct (process_face_image_answer IEEE.binary32 IEEE.binary64
              (sample_lib IEEE.binary32 IEEE.binary64 [(50, 50, 100, 100)]
                          [of_int IEEE.binary32 3; of_int IEEE.binary32 4])
              (sample_processor IEEE.binary32 [(50, 50, 100, 100)]
                 [of_int IEEE.binary32 3; of_int IEEE.binary32 4])
              [("imageData", JStr "/9j/"); ("action", JStr "register")]
              (JStr "/9j/") (sample_world IEEE.binary64) eq_refl)
    as (result & w' & r & _ & Hrun & Hno & Hr).
  exists result, w', r. split; [exact Hrun|]. split; [exact Hno|].
  destruct Hr as [Hok|(Hdet & msg & _ & ->)]; [left; exact Hok|right].
  split; [exact Hdet|reflexivity].
Defined.

Lemma process_face_image_not_a_string_witness :
  process_face
    (sample_lib IEEE.binary32 IEEE.binary64 [] [])
    (Some (sample_processor IEEE.binary32 [] []))
    (Return (JDict [("imageData", JNull)])) (sample_world IEEE.binary64)
  = (Return (Response 400
               [ ("error", str "No face detected or face quality too low");
                 ("details",
                  OfResult (PyStr IEEE.binary32 IEEE.binary64
                    "argument should be a bytes-like object or ASCII string, not 'NoneType'")) ]),
     World IEEE.binary64 (fun n => of_int IEEE.binary64 (Z.of_nat (S (S n))))
       [ "Error processing image: argument should be a bytes-like object or ASCII string, not 'NoneType'" ]).
Proof.
  exact (process_face_image_not_a_string IEEE.binary32 IEEE.binary64
           (sample_lib IEEE.binary32 IEEE.binary64 [] [])
           (sample_processor IEEE.binary32 [] [])
           [("imageData", JNull)] JNull (sample_world IEEE.binary64)
           eq_refl ltac:(discriminate)).
Defined.

Lemma process_face_registers_or_rejects_witness :
  exists r w',
    process_face (sample_lib IEEE.binary32 IEEE.binary64 [] []) None
      (Return (JDict [("action", JStr "register"); ("embedding", JNull);
                      ("userId", JInt 7)]))
      (sample_world IEEE.binary64) = (Return r, w') /\
    r = Response 200
          [ ("success", OfJson (JBool true));
            ("message", str "Face registered successfully");
            ("userId", OfJson (JInt 7)) ] /\
    log w' = ["Storing face embedding for user 7"].
Proof.
  destruct (process_face_registers_or_rejects IEEE.binary32 IEEE.binary64
              (sample_lib IEEE.binary32 IEEE.binary64 [] []) None
              [("action", JStr "register"); ("embedding", JNull); ("userId", JInt 7)]
              (sample_world IEEE.binary64) eq_refl ltac:(discriminate))
    as (r & w' & Hrun & [(_ & u & Hu & Hr & Hw)|(Hno & _)]).
  - exists r, w'. split; [exact Hrun|].
    injection Hu as <-. split; [exact Hr|]. rewrite Hw. reflexivity.
  - discriminate Hno.
Defined.

Lemma load_models_failure_is_logged_witness :
  exists infos,
    [ "Error loading models: ONNX model not found at /srv/missing.onnx" ]
    = (("Error loading models: ONNX model not found at /srv/missing.onnx" :: infos) ++ [])
    /\ clock (sample_world IEEE.binary64) = clock (sample_world IEEE.binary64).
Proof.
  exact (load_models_failure_is_logged IEEE.binary32 IEEE.binary64
           (sample_lib IEEE.binary32 IEEE.binary64 [] [])
           (Processor "/srv/missing.onnx" None None)
           (sample_world IEEE.binary64)
           (World IEEE.binary64 (clock (sample_world IEEE.binary64))
              [ "Error loading models: ONNX model not found at /srv/missing.onnx" ])
           (Exn "FileNotFoundError" "ONNX model not found at /srv/missing.onnx")
           eq_refl).
Defined.

Lemma FaceProcessor_init_establishes_loaded_witness :
  loaded (sample_lib IEEE.binary32 IEEE.binary64 [] [])
         (sample_processor IEEE.binary32 [] []) /\
  resolve_model_path (sample_lib IEEE.binary32 IEEE.binary64 [] []) "mobilefacenet.onnx"
  = Return "/srv/mobilefacenet.onnx".
Proof.
  destruct (FaceProcessor_init_establishes_loaded IEEE.binary32 IEEE.binary64
              (sample_lib IEEE.binary32 IEEE.binary64 [] []) "mobilefacenet.onnx"
              (sample_processor IEEE.binary32 [] [])
              (sample_world IEEE.binary64)
              (World IEEE.binary64 (clock (sample_world IEEE.binary64))
                 [ "Face detection cascade loaded successfully";
                   "Model output: embedding, shape: list";
                   "Model input: input, shape: list";
                   "Loaded ONNX model from /srv/mobilefacenet.onnx" ])
              eq_refl)
    as (Hl & Hp & _).
  split; [exact Hl|exact Hp].
Defined.

Lemma FaceProcessor_init_missing_model_witness :
  FaceProcessor_init (sample_lib IEEE.binary32 IEEE.binary64 [] []) "missing.onnx"
    (sample_world IEEE.binary64)
  = (Raise (Exn "FileNotFoundError" "ONNX model not found at /srv/missing.onnx"),
     World IEEE.binary64 (clock (sample_world IEEE.binary64))
       [ "Error loading models: ONNX model not found at /srv/missing.onnx" ]).
Proof.
  exact (FaceProcessor_init_missing_model IEEE.binary32 IEEE.binary64
           (sample_lib IEEE.binary32 IEEE.binary64 [] []) "missing.onnx"
           "/srv/missing.onnx" "/srv/app.py" (sample_world IEEE.binary64)
           eq_refl eq_refl eq_refl eq_refl).
Defined.

Lemma sample_processor_loaded :
  loaded (sample_lib IEEE.binary32 IEEE.binary64 [] [])
         (sample_processor IEEE.binary32 [] []).
Proof.
  split; [reflexivity|].
  exists (sample_session IEEE.binary32 []), (sample_cascade []).
  repeat split; discriminate.
Qed.

Lemma loaded_processor_is_served_witness :
  health_check (sample_lib IEEE.binary32 IEEE.binary64 [] [])
    (Some (sample_processor IEEE.binary32 [] [])) (sample_world IEEE.binary64)
  = (Return (Response 200
               [ ("status", str "ok");
                 ("timestamp", OfFloat (of_int IEEE.binary64 0));
                 ("model_loaded", OfJson (JBool true));
                 ("model_path", str "/srv/mobilefacenet.onnx");
                 ("python_version", str "3.11.2") ]),
     tick (sample_world IEEE.binary64)).
Proof.
  exact (proj2 (loaded_processor_is_served IEEE.binary32 IEEE.binary64
                  (sample_lib IEEE.binary32 IEEE.binary64 [] [])
                  (sample_processor IEEE.binary32 [] []) (sample_world IEEE.binary64)
                  sample_processor_loaded)
               "/srv/mobilefacenet.onnx" eq_refl).
Defined.
